(** * Processor service: job state machine and generation orchestrator

    A shallow embedding of
    [src/services/processor-service-py/src/controllers/message_processor.py]
    ([process_message] and its pydantic models) and of
    [src/services/processor-service-py/src/services/blog_generator.py]
    ([generate_blog_post] and [get_ai_adapter], with the constructors of the
    two adapters under [services/ai]), over a document store modelled after
    [services/firestore.py], and of the push endpoint [pubsub_push] of
    [src/services/processor-service-py/src/main.py].  What the adapters send
    to their provider and get back is a parameter of the environment.

    Python dictionaries and Firestore documents are finite maps from field
    names to JSON-like values.  The handler is written in a state-and-exception
    monad over a [World] made of the document store, a schedule of store
    faults, the wall clock and a trace of the effects performed so far. *)

From stdpp Require Import gmap strings list fin_maps pretty.
From Stdlib Require Import ZArith Ascii.

Set Warnings "-register-all".
Local Open Scope Z_scope.

(** ** Values *)

(** What [json.loads] and Firestore's [to_dict] produce (floating point
    numbers are left out). *)
Inductive value : Type :=
  | VNone
  | VBool (b : bool)
  | VInt (n : Z)
  | VStr (s : string)
  | VList (l : list value)
  | VDict (d : gmap string value).

(** A Python [dict] with string keys; also a Firestore document. *)
Abbreviation doc := (gmap string value).

(** Python truthiness ([if x:], [not x], [x or y]). *)
Definition doc_truthy (d : doc) : bool := negb (Nat.eqb (size d) 0).

Definition truthy (v : value) : bool :=
  match v with
  | VNone => false
  | VBool b => b
  | VInt n => negb (n =? 0)
  | VStr s => negb (String.eqb s "")
  | VList l => match l with [] => false | _ => true end
  | VDict d => doc_truthy d
  end.

(** [d.get(k, dflt)] *)
Definition dict_get (d : doc) (k : string) (dflt : value) : value :=
  default dflt (d !! k).

(** [x == 'literal'] for a value read from a document. *)
Definition str_is (v : value) (s : string) : bool :=
  match v with VStr t => String.eqb t s | _ => false end.

(** The integer behind a Python number; [bool] is a subclass of [int]. *)
Definition as_number (v : value) : option Z :=
  match v with
  | VInt n => Some n
  | VBool b => Some (Z.b2z b)
  | _ => None
  end.

(** [str(x)] inside an f-string, for the numbers the handler formats. *)
Definition py_str (v : value) : string :=
  match v with
  | VInt n => pretty n
  | VBool true => "True"
  | VBool false => "False"
  | VStr s => s
  | _ => "None"
  end.

(** ** Exceptions *)

Inductive exn_class : Type :=
  | ValidationError      (* pydantic.ValidationError *)
  | ValueError
  | TypeError
  | AttributeError
  | DecodeError          (* binascii.Error, UnicodeDecodeError, json.JSONDecodeError *)
  | OverflowError        (* datetime.fromtimestamp out of range *)
  | StoreError           (* any failure of a Firestore call *)
  | NotFound             (* update of a document that does not exist *)
  | ProviderError        (* raised by an AI adapter *)
  | PlainException.      (* raise Exception(...) *)

Record exn : Type := Exn { exn_class_of : exn_class; exn_str : string }.

Inductive result (A : Type) : Type :=
  | Ok (a : A)
  | Raise (e : exn).
Arguments Ok {A} a.
Arguments Raise {A} e.

(** ** Environment: configuration, libraries and external services *)

Record Env : Type := {
  (** [settings.FIRESTORE_POSTS_COLLECTION] and
      [settings.FIRESTORE_GENERATED_POSTS_COLLECTION] (config.py) *)
  FIRESTORE_POSTS_COLLECTION : string;
  FIRESTORE_GENERATED_POSTS_COLLECTION : string;
  (** [base64.b64decode(x).decode("utf-8")]; [None] when it raises *)
  b64decode_utf8 : value -> option string;
  (** [json.loads]: the value of a JSON text, [Ok None] when it raises
      [json.JSONDecodeError], and [Raise e] when it raises anything else
      (a [ValueError] on an integer of more than 4300 digits, a
      [RecursionError] on deeply nested arrays) *)
  json_loads : string -> result (option value);
  (** pydantic's validator of an [int] field *)
  validate_int : value -> option Z;
  (** the text of [str(e)] for an exception raised by a library *)
  describe : exn_class -> string;
  (** the k-th reading of [datetime.now(timezone.utc).isoformat()] *)
  utc_now_iso : nat -> string;
  (** [datetime.fromtimestamp(ms / 1000, tz=timezone.utc).isoformat()];
      [None] when the date is out of range *)
  fromtimestamp_iso : Z -> option string;
  (** [get_ai_adapter()]: the construction of the adapter may raise; the
      adapter's [generate_content(data)] returns text or raises *)
  get_ai_adapter : result (doc -> result string);
}.

(** The defaults of config.py. *)
Definition default_posts_collection : string := "posts".
Definition default_generated_posts_collection : string := "generated_posts".

(** ** World *)

Inductive event : Type :=
  | EvGet (collection document_id : string)
  | EvSet (collection document_id : string) (data : doc)
  | EvUpdate (collection document_id : string) (data : doc)
  | EvOrchestrate (post_id : string) (data : doc)
  | EvProvider (data : doc).

Record World : Type := mkWorld {
  (** documents by (collection, document id) *)
  store : gmap (string * string) doc;
  (** one flag per upcoming store call: [true] makes that call raise; no
      flag left means no fault *)
  faults : list bool;
  (** number of clock readings so far *)
  ticks : nat;
  (** effects performed so far, the latest first *)
  trace : list event;
}.

Definition log (ev : event) (w : World) : World :=
  mkWorld (store w) (faults w) (ticks w) (ev :: trace w).

(** An event that writes to the store or reaches the generation service. *)
Definition is_effect (ev : event) : bool :=
  match ev with EvGet _ _ => false | _ => true end.

Definition is_generation (ev : event) : bool :=
  match ev with EvOrchestrate _ _ | EvProvider _ => true | _ => false end.

(** ** The monad of the handler: state and exceptions *)

Definition M (A : Type) : Type := World -> result A * World.

Definition ret {A} (a : A) : M A := fun w => (Ok a, w).
Definition raise {A} (e : exn) : M A := fun w => (Raise e, w).
Definition bind {A B} (m : M A) (k : A -> M B) : M B :=
  fun w => match m w with
           | (Ok a, w') => k a w'
           | (Raise e, w') => (Raise e, w')
           end.
(** [try: m except Exception as e: h e] *)
Definition try_except {A} (m : M A) (h : exn -> M A) : M A :=
  fun w => match m w with
           | (Ok a, w') => (Ok a, w')
           | (Raise e, w') => h e w'
           end.
Definition lift {A} (r : result A) : M A := fun w => (r, w).
Definition emit (ev : event) : M unit := fun w => (Ok tt, log ev w).

Notation "'do' x <- m ; k" := (bind m (fun x => k))
  (at level 10, x name, m at level 100, k at level 200).
Notation "m ;; k" := (bind m (fun _ => k))
  (at level 100, k at level 200, right associativity).

Definition of_option {A} (E : Env) (c : exn_class) (o : option A) : result A :=
  match o with
  | Some a => Ok a
  | None => Raise (Exn c (describe E c))
  end.

(** [datetime.now(timezone.utc).isoformat()] *)
Definition utc_now (E : Env) : M string :=
  fun w => (Ok (utc_now_iso E (ticks w)),
            mkWorld (store w) (faults w) (S (ticks w)) (trace w)).

(** ** Persistence gateway (services/firestore.py) *)

(** Every call consumes one flag of the fault schedule. *)
Definition store_call (E : Env) : M unit :=
  fun w => match faults w with
           | true :: fs =>
               (Raise (Exn StoreError (describe E StoreError)),
                mkWorld (store w) fs (ticks w) (trace w))
           | false :: fs => (Ok tt, mkWorld (store w) fs (ticks w) (trace w))
           | [] => (Ok tt, w)
           end.

(** [doc_ref.set(data)]: full overwrite, creates the document if absent. *)
Definition save_document (E : Env) (collection document_id : string)
    (data : doc) : M unit :=
  store_call E ;;
  fun w => (Ok tt,
            mkWorld (<[(collection, document_id) := data]> (store w))
                    (faults w) (ticks w)
                    (EvSet collection document_id data :: trace w)).

(** [doc_ref.update(data)]: the given fields replace those of the stored
    document; fails when the document does not exist. *)
Definition update_document (E : Env) (collection document_id : string)
    (data : doc) : M unit :=
  store_call E ;;
  fun w => match store w !! (collection, document_id) with
           | Some old =>
               (Ok tt,
                mkWorld (<[(collection, document_id) := data ∪ old]> (store w))
                        (faults w) (ticks w)
                        (EvUpdate collection document_id data :: trace w))
           | None => (Raise (Exn NotFound (describe E NotFound)), w)
           end.

(** [doc.to_dict() if doc.exists else None] *)
Definition get_document (E : Env) (collection document_id : string)
    : M (option doc) :=
  store_call E ;;
  fun w => (Ok (store w !! (collection, document_id)),
            log (EvGet collection document_id) w).

(** [if record:] on the result of [get_document]: a missing document and an
    empty one are both falsy. *)
Definition found (o : option doc) : option doc :=
  match o with
  | Some d => if doc_truthy d then Some d else None
  | None => None
  end.

(** ** Pydantic models (message_processor.py, blog_generator.py) *)

(** A field looked up by its alias, then by its name ([populate_by_name]). *)
Definition aliased (d : doc) (alias name : string) : option value :=
  match d !! alias with
  | Some v => Some v
  | None => d !! name
  end.

(** An [Optional[T]] field with a default: absent gives the default, [None]
    is kept, anything else must pass the check of [T]. *)
Definition optional (check : value -> option value) (dflt : value)
    (o : option value) : option value :=
  match o with
  | None => Some dflt
  | Some VNone => Some VNone
  | Some v => check v
  end.

Definition check_str (v : value) : option value :=
  match v with VStr _ => Some v | _ => None end.

Definition is_str (v : value) : bool :=
  match v with VStr _ => true | _ => false end.

Definition check_str_list (v : value) : option value :=
  match v with
  | VList l => if forallb is_str l then Some v else None
  | _ => None
  end.

(** [class BlogPostSection]: [subtitle: str], [content: str]; other keys are
    ignored.  The validated section is kept as its [model_dump()]. *)
Definition BlogPostSection (d : doc) : option value :=
  match d !! "subtitle", d !! "content" with
  | Some (VStr s), Some (VStr c) =>
      Some (VDict (<["subtitle" := VStr s]> (<["content" := VStr c]> ∅)))
  | _, _ => None
  end.

Definition check_section (v : value) : option value :=
  match v with VDict d => BlogPostSection d | _ => None end.

Definition check_sections (v : value) : option value :=
  match v with
  | VList l => VList <$> mapM check_section l
  | _ => None
  end.

(** [class BlogPostData].  The validated object is kept as the dictionary of
    its attributes, which is also its [model_dump()]. *)
Definition BlogPostData (v : value) : option doc :=
  match v with
  | VDict d =>
      id ← d !! "id" ≫= check_str;
      title ← optional check_str VNone (d !! "title");
      content ← optional check_str VNone (d !! "content");
      keywords ← optional check_str_list (VList []) (d !! "keywords");
      focus ← optional check_str (VStr "") (d !! "focus");
      regeneration_instructions ←
        optional check_str VNone
          (aliased d "regenerationInstructions" "regeneration_instructions");
      selected_sections ←
        optional check_sections VNone
          (aliased d "selectedSections" "selected_sections");
      original_content ←
        optional check_str VNone (aliased d "originalContent" "original_content");
      feedback ← optional check_str VNone (d !! "feedback");
      Some (<["id" := id]> (<["title" := title]> (<["content" := content]>
           (<["keywords" := keywords]> (<["focus" := focus]>
           (<["regeneration_instructions" := regeneration_instructions]>
           (<["selected_sections" := selected_sections]>
           (<["original_content" := original_content]>
           (<["feedback" := feedback]> ∅)))))))))
  | _ => None
  end.

(** [model_dump(by_alias=True)] of a [BlogPostData]. *)
Definition rename (old new : string) (d : doc) : doc :=
  match d !! old with
  | Some v => <[new := v]> (delete old d)
  | None => d
  end.

Definition BlogPostData_dump_by_alias (data : doc) : doc :=
  rename "original_content" "originalContent"
    (rename "selected_sections" "selectedSections"
      (rename "regeneration_instructions" "regenerationInstructions" data)).

(** [class BlogPostMessage] *)
Record BlogPostMessage : Type := {
  post_id : string;
  action : string;
  timestamp : Z;
  data : doc;
}.

Definition BlogPostMessage_validate (E : Env) (payload : value)
    : option BlogPostMessage :=
  match payload with
  | VDict d =>
      post_id ← aliased d "postId" "post_id" ≫=
                  (λ v, match v with VStr s => Some s | _ => None end);
      action ← d !! "action" ≫=
                  (λ v, match v with VStr s => Some s | _ => None end);
      timestamp ← d !! "timestamp" ≫= validate_int E;
      data ← d !! "data" ≫= BlogPostData;
      Some {| post_id := post_id; action := action;
              timestamp := timestamp; data := data |}
  | _ => None
  end.

(** [Literal['created', 'updated', 'deleted', 'regenerate']] *)
Definition is_action (a : string) : bool :=
  String.eqb a "created" || String.eqb a "updated" ||
  String.eqb a "deleted" || String.eqb a "regenerate".

(** [class ProcessedBlogPost], as built in [process_message] (lines 137-146)
    and dumped with [model_dump(by_alias=True)]: only [action] can fail
    validation there. *)
Definition ProcessedBlogPost (postId action : string) (timestamp : Z)
    (blogPost : doc) (processedAt : string) : option doc :=
  if is_action action then
    Some (<["postId" := VStr postId]> (<["action" := VStr action]>
         (<["timestamp" := VInt timestamp]> (<["status" := VStr "processing"]>
         (<["blogPost" := VDict (BlogPostData_dump_by_alias blogPost)]>
         (<["processedAt" := VStr processedAt]> (<["completedAt" := VNone]>
         (<["errorAt" := VNone]> (<["generatedContent" := VNone]>
         (<["sections" := VNone]> (<["error" := VNone]>
         (<["retry_count" := VInt 0]> (<["max_retries" := VInt 3]> ∅)))))))))))))
  else None.

(** [class GeneratedPost], as built in [generate_blog_post] (lines 108-118)
    and dumped with [model_dump(by_alias=True)]. *)
Definition GeneratedPost (original_post_id : string)
    (title originalContent keywords focus : value) (generatedContent : string)
    (sections : value) (generatedAt : string) : option doc :=
  title ← check_str title;
  originalContent ← check_str originalContent;
  keywords ← check_str_list keywords;
  focus ← check_str focus;
  Some (<["original_post_id" := VStr original_post_id]> (<["title" := title]>
       (<["originalContent" := originalContent]> (<["keywords" := keywords]>
       (<["focus" := focus]> (<["generatedContent" := VStr generatedContent]>
       (<["sections" := sections]> (<["generatedAt" := VStr generatedAt]>
       (<["status" := VStr "generated"]> (<["previousGeneration" := VNone]> ∅)))))))))).

Inductive generation_status : Type := generated | error.

(** [class BlogGenerationOutput] *)
Record BlogGenerationOutput : Type := {
  original_post_id : string;
  title : string;
  original_content : string;
  generated_content : string;
  generated_at : string;
  generated_post_id : string;
  status : generation_status;
  error_message : option string;   (* the attribute [error] *)
}.

(** ** Generation orchestrator (services/blog_generator.py) *)

Definition raise_lib {A} (E : Env) (c : exn_class) : result A :=
  Raise (Exn c (describe E c)).

(** The keyword unpacking [BlogPostSection( **section )]. *)
Definition unpack_section (E : Env) (section : value) : result value :=
  match section with
  | VDict d => of_option E ValidationError (BlogPostSection d)
  | _ => raise_lib E TypeError
  end.

Fixpoint unpack_sections (E : Env) (l : list value) : result (list value) :=
  match l with
  | [] => Ok []
  | section :: l' =>
      match unpack_section E section with
      | Ok s =>
          match unpack_sections E l' with
          | Ok ss => Ok (s :: ss)
          | Raise e => Raise e
          end
      | Raise e => Raise e
      end
  end.

(** [[BlogPostSection( **section ) for section in x]]: a list is walked, an
    empty string or dictionary has nothing to walk, a non-empty one yields
    strings, which cannot be unpacked, and nothing else can be iterated. *)
Definition sections_from (E : Env) (x : value) : result (list value) :=
  match x with
  | VList l => unpack_sections E l
  | VStr s => if String.eqb s "" then Ok [] else raise_lib E TypeError
  | VDict d => if doc_truthy d then raise_lib E TypeError else Ok []
  | _ => raise_lib E TypeError
  end.

(** Lines 96-105 of blog_generator.py and 169-176 of message_processor.py:
    only [json.JSONDecodeError] is caught; what else [json.loads] raises
    leaves the block, like the failures of the comprehension. *)
Definition extract_sections (E : Env) (generated_content : string)
    : result (option (list value)) :=
  match json_loads E generated_content with
  | Ok None => Ok None
  | Ok (Some (VDict content_json)) =>
      match content_json !! "sections" with
      | Some x =>
          match sections_from E x with
          | Ok ss => Ok (Some ss)
          | Raise e => Raise e
          end
      | None => Ok None
      end
  | Ok (Some _) => Ok None
  | Raise e => Raise e
  end.

(** Lines 121-126: the snapshot of the previous generation. *)
Definition with_previous_generation (E : Env) (data generated_post : doc)
    : result doc :=
  match data !! "previousGeneration" with
  | None => Ok generated_post
  | Some (VDict previous) =>
      Ok (<["previousGeneration" :=
              VDict (<["content" := dict_get previous "content" (VStr "")]>
                    (<["generated_at" :=
                         dict_get previous "generatedAt" (VStr "")]> ∅))]>
            generated_post)
  | Some _ => raise_lib E AttributeError
  end.

(** [BlogGenerationOutput(...)]: [title] and [original_content] are [str]
    fields fed from the dictionary. *)
Definition BlogGenerationOutput_validate (E : Env) (post_id : string)
    (title original_content : value) (generated_content generated_at : string)
    (generated_post_id : string) (st : generation_status)
    (err : option string) : result BlogGenerationOutput :=
  match title, original_content with
  | VStr t, VStr oc =>
      Ok {| original_post_id := post_id; title := t; original_content := oc;
            generated_content := generated_content;
            generated_at := generated_at;
            generated_post_id := generated_post_id;
            status := st; error_message := err |}
  | _, _ => raise_lib E ValidationError
  end.

(** Lines 86-89: the fallback title. *)
Definition ensure_title (E : Env) (post_id : string) (data : doc) : M doc :=
  if truthy (dict_get data "title" VNone) then ret data
  else
    do now <- utc_now E;
    ret (<["title" := VStr ("Generated content for " +:+ post_id +:+ " at "
                             +:+ now)]> data).

(** Lines 91-151: the body of the [try]. *)
Definition generate_blog_post_body (E : Env) (post_id : string) (data : doc)
    : M BlogGenerationOutput :=
  do ai_adapter <- lift (get_ai_adapter E);
  emit (EvProvider data) ;;
  do generated_content <- lift (ai_adapter data);
  do sections <- lift (extract_sections E generated_content);
  do generated_at <- utc_now E;
  do generated_post <-
    lift (of_option E ValidationError
            (GeneratedPost post_id
               (dict_get data "title" (VStr ""))
               (dict_get data "originalContent" (VStr ""))
               (dict_get data "keywords" (VList []))
               (dict_get data "focus" (VStr ""))
               generated_content
               (from_option VList VNone sections)
               generated_at));
  do generated_post <- lift (with_previous_generation E data generated_post);
  save_document E (FIRESTORE_GENERATED_POSTS_COLLECTION E) post_id
    generated_post ;;
  do now <- utc_now E;
  lift (BlogGenerationOutput_validate E post_id
          (dict_get data "title" (VStr ""))
          (dict_get data "originalContent" (VStr ""))
          generated_content now post_id generated None).

(** Lines 153-166: the [except Exception as error] block. *)
Definition generate_blog_post_except (E : Env) (post_id : string) (data : doc)
    (err : exn) : M BlogGenerationOutput :=
  do now <- utc_now E;
  lift (BlogGenerationOutput_validate E post_id
          (dict_get data "title"
             (VStr ("Error generating content for " +:+ post_id)))
          (VStr "") "" now "" error (Some (exn_str err))).

(** [async def generate_blog_post(input_data)].  [additional_context] is
    read from the input and not used. *)
Definition generate_blog_post (E : Env) (post_id : string) (data : doc)
    (additional_context : option string) : M BlogGenerationOutput :=
  emit (EvOrchestrate post_id data) ;;
  do data <- ensure_title E post_id data;
  try_except (generate_blog_post_body E post_id data)
             (generate_blog_post_except E post_id data).

(** ** Job state machine (controllers/message_processor.py) *)

(** Lines 70-74: the envelope. *)
Definition decode_payload (E : Env) (message_data : doc) : result value :=
  match message_data !! "data" with
  | Some encoded =>
      match b64decode_utf8 E encoded with
      | Some decoded_data =>
          match json_loads E decoded_data with
          | Ok payload => of_option E DecodeError payload
          | Raise e => Raise e
          end
      | None => raise_lib E DecodeError
      end
  | None => Ok (VDict message_data)
  end.

(** Lines 85-88: [original_post.get(k, blog_post_message.data.k)] for the
    four fields. *)
Definition merge_original (original_post data : doc) : doc :=
  let keep k d := <[k := dict_get original_post k (dict_get d k VNone)]> d in
  keep "focus" (keep "keywords" (keep "content" (keep "title" data))).

(** Lines 68-97: decode, validate and, for a regeneration, merge. *)
Definition receive_message (E : Env) (message_data : doc)
    : M BlogPostMessage :=
  do payload <- lift (decode_payload E message_data);
  do blog_post_message <-
    lift (of_option E ValidationError (BlogPostMessage_validate E payload));
  if String.eqb (action blog_post_message) "regenerate" then
    do original_post <-
      get_document E (FIRESTORE_POSTS_COLLECTION E) (post_id blog_post_message);
    match found original_post with
    | Some original_post =>
        ret {| post_id := post_id blog_post_message;
               action := action blog_post_message;
               timestamp := timestamp blog_post_message;
               data := merge_original original_post (data blog_post_message) |}
    | None =>
        raise (Exn ValueError ("Original post not found for regeneration: "
                               +:+ post_id blog_post_message))
    end
  else ret blog_post_message.

(** [a >= b], [a < b] and [a += 1] on the retry counters.  Firestore holds
    them as integers; on any other operand the model raises [TypeError]
    (orderings among strings or lists are not covered). *)
Definition py_ge (E : Env) (a b : value) : result bool :=
  match as_number a, as_number b with
  | Some x, Some y => Ok (y <=? x)
  | _, _ => raise_lib E TypeError
  end.

Definition py_lt (E : Env) (a b : value) : result bool :=
  match as_number a, as_number b with
  | Some x, Some y => Ok (x <? y)
  | _, _ => raise_lib E TypeError
  end.

Definition py_incr (E : Env) (a : value) : result value :=
  match as_number a with
  | Some x => Ok (VInt (x + 1))
  | None => raise_lib E TypeError
  end.

(** How a block of [process_message] ends: with a [return] or by falling
    through to the next block. *)
Inductive flow : Type :=
  | Return (post_id : string)
  | Continue.

(** Lines 99-155: look the job record up, then skip, give up, retry or
    create. *)
Definition admit_job (E : Env) (m : BlogPostMessage) : M flow :=
  do existing_record <- get_document E "posts" (post_id m);
  match found existing_record with
  | Some existing_record =>
      let retry_count := dict_get existing_record "retry_count" (VInt 0) in
      let max_retries := dict_get existing_record "max_retries" (VInt 3) in
      let current_status :=
        dict_get existing_record "status" (VStr "processing") in
      if str_is current_status "failed_permanently" then ret (Return (post_id m))
      else
        do exceeded <- lift (py_ge E retry_count max_retries);
        if (exceeded : bool) then
          do now <- utc_now E;
          update_document E "posts" (post_id m)
            (<["status" := VStr "failed_permanently"]>
            (<["errorAt" := VStr now]>
            (<["error" := VStr ("Exceeded maximum retry attempts ("
                                +:+ py_str max_retries +:+ ")")]>
            (<["retry_count" := retry_count]> ∅)))) ;;
          ret (Return (post_id m))
        else
          do retry_count <- lift (py_incr E retry_count);
          do now <- utc_now E;
          update_document E "posts" (post_id m)
            (<["status" := VStr "processing"]>
            (<["retry_count" := retry_count]>
            (<["processedAt" := VStr now]> ∅))) ;;
          ret Continue
  | None =>
      do now <- utc_now E;
      do job_record <-
        lift (of_option E ValidationError
                (ProcessedBlogPost (post_id m) (action m) (timestamp m)
                   (data m) now));
      save_document E "posts" (post_id m) job_record ;;
      ret Continue
  end.

(** [generation_result.error or 'Unknown error during generation'] *)
Definition error_or_unknown (o : option string) : string :=
  match o with
  | Some s => if String.eqb s "" then "Unknown error during generation" else s
  | None => "Unknown error during generation"
  end.

(** Lines 158-198: the body of the second [try]. *)
Definition generate_and_record (E : Env) (m : BlogPostMessage)
    : M (option string) :=
  do at_time <- lift (of_option E OverflowError
                        (fromtimestamp_iso E (timestamp m)));
  let additional_context :=
    "This post was " +:+ action m +:+ " at " +:+ at_time +:+ "." in
  do generation_result <-
    generate_blog_post E (post_id m) (data m) (Some additional_context);
  do sections <-
    lift (extract_sections E (generated_content generation_result));
  match status generation_result with
  | generated =>
      do now <- utc_now E;
      update_document E "posts" (post_id m)
        (<["status" := VStr "completed"]>
        (<["completedAt" := VStr now]>
        (<["generatedPostId" := VStr (generated_post_id generation_result)]>
        (<["generatedContent" := VStr (generated_content generation_result)]>
        (<["sections" :=
             match sections with
             | Some (s :: ss) => VList (s :: ss)
             | _ => VNone
             end]> ∅))))) ;;
      ret None
  | error =>
      do now <- utc_now E;
      update_document E "posts" (post_id m)
        (<["status" := VStr "error"]>
        (<["errorAt" := VStr now]>
        (<["error" :=
             VStr (error_or_unknown (error_message generation_result))]> ∅))) ;;
      raise (Exn PlainException
               (error_or_unknown (error_message generation_result)))
  end.

(** Lines 200-237: the [except Exception as e] block. *)
Definition on_failure (E : Env) (m : BlogPostMessage) (e : exn)
    : M (option string) :=
  do current_record <- get_document E "posts" (post_id m);
  let current_retry_count :=
    match found current_record with
    | Some r => dict_get r "retry_count" (VInt 0)
    | None => VInt 0
    end in
  let max_retries :=
    match found current_record with
    | Some r => dict_get r "max_retries" (VInt 3)
    | None => VInt 3
    end in
  do exceeded <- lift (py_ge E current_retry_count max_retries);
  do now <- utc_now E;
  let error_payload : doc :=
    if (exceeded : bool) then
      <["status" := VStr "failed_permanently"]>
      (<["errorAt" := VStr now]>
      (<["error" := VStr ("Permanently failed after " +:+ py_str max_retries
                          +:+ " retries. Last error: " +:+ exn_str e)]>
      (<["retry_count" := current_retry_count]> ∅)))
    else
      <["status" := VStr "error"]>
      (<["errorAt" := VStr now]>
      (<["error" := VStr (exn_str e)]>
      (<["retry_count" := current_retry_count]> ∅))) in
  try_except (update_document E "posts" (post_id m) error_payload)
             (fun _ => ret tt) ;;
  do retry <- lift (py_lt E current_retry_count max_retries);
  if (retry : bool) then raise e else ret (Some (post_id m)).

(** [async def process_message(message_data)].  The result is the post id
    of an explicit [return post_id], or [None] when the function runs to its
    end. *)
Definition process_message (E : Env) (message_data : doc)
    : M (option string) :=
  do blog_post_message <- receive_message E message_data;
  do next <- admit_job E blog_post_message;
  match next with
  | Return post_id => ret (Some post_id)
  | Continue =>
      try_except (generate_and_record E blog_post_message)
                 (on_failure E blog_post_message)
  end.

(** ** Adapter selection (services/blog_generator.py, services/ai) *)

(** The settings that [get_ai_adapter] and the two constructors read
    (config.py). *)
Record Settings : Type := {
  AI_PROVIDER : string;
  OPENAI_API_KEY_SECRET : string;
  GCP_PROJECT_ID : string;
  GCP_REGION : string;
}.

(** The two providers behind the adapters: the construction of the Vertex
    AI client, which may raise, and the [generate_content] of each adapter
    once it is built. *)
Record Providers : Type := {
  openai_generate_content : doc -> result string;
  genai_Client : result unit;
  google_generate_content : doc -> result string;
}.

(** [OpenAIAdapter.__init__(api_key)] (openai_adapter.py, lines 10-20) *)
Definition OpenAIAdapter (P : Providers) (api_key : string)
    : result (doc -> result string) :=
  if String.eqb api_key "" then
    Raise (Exn ValueError "OpenAI API key is required.")
  else Ok (openai_generate_content P).

(** [GoogleGenAIAdapter.__init__()] (google_genai_adapter.py, lines 15-32) *)
Definition GoogleGenAIAdapter (S : Settings) (P : Providers)
    : result (doc -> result string) :=
  if String.eqb (GCP_PROJECT_ID S) "" || String.eqb (GCP_REGION S) "" then
    Raise (Exn ValueError
             "GCP_PROJECT_ID and GCP_REGION must be set in the environment for Vertex AI.")
  else
    match genai_Client P with
    | Ok _ => Ok (google_generate_content P)
    | Raise e => Raise e
    end.

(** [def get_ai_adapter()] (blog_generator.py, lines 61-66), as a function
    of the settings and the providers. *)
Definition get_ai_adapter_of (S : Settings) (P : Providers)
    : result (doc -> result string) :=
  if String.eqb (AI_PROVIDER S) "OPENAI" then
    OpenAIAdapter P (OPENAI_API_KEY_SECRET S)
  else GoogleGenAIAdapter S P.

(** An environment whose adapter is the one the settings select. *)
Definition with_settings (E : Env) (S : Settings) (P : Providers) : Env :=
  {| FIRESTORE_POSTS_COLLECTION := FIRESTORE_POSTS_COLLECTION E;
     FIRESTORE_GENERATED_POSTS_COLLECTION :=
       FIRESTORE_GENERATED_POSTS_COLLECTION E;
     b64decode_utf8 := b64decode_utf8 E;
     json_loads := json_loads E;
     validate_int := validate_int E;
     describe := describe E;
     utc_now_iso := utc_now_iso E;
     fromtimestamp_iso := fromtimestamp_iso E;
     get_ai_adapter := get_ai_adapter_of S P |}.

(** ** Push endpoint (main.py) *)

(** [class PubSubMessage]: the body of the push request. *)
Record PubSubMessage : Type := {
  message : doc;
  subscription : string;
}.

(** What the endpoint answers: 204 when it returns, or the
    [HTTPException] that it raises. *)
Inductive response : Type :=
  | NoContent
  | HTTPException (status_code : Z) (detail : string).

(** [async def pubsub_push(body)] (main.py, lines 31-47) *)
Definition pubsub_push (E : Env) (body : PubSubMessage)
    : World -> response * World :=
  fun w => match process_message E (message body) w with
           | (Ok _, w') => (NoContent, w')
           | (Raise e, w') =>
               (HTTPException 500
                  ("Failed to process message: " +:+ exn_str e), w')
           end.

(** Pub/Sub delivers the message again as long as the endpoint fails:
    [deliver n] is the run of [n] deliveries in a row, with the answer to
    each. *)
Fixpoint deliver (E : Env) (body : PubSubMessage) (n : nat) (w : World)
    : list response * World :=
  match n with
  | O => ([], w)
  | S n' =>
      let (r, w1) := pubsub_push E body w in
      let (rs, w2) := deliver E body n' w1 in
      (r :: rs, w2)
  end.

(** * Vocabulary of the specification *)

(** The writes and generation calls of a run, the latest first. *)
Definition effects (w : World) : list event := List.filter is_effect (trace w).

(** The briefs handed to the orchestrator during a run. *)
Definition briefs (w : World) : list doc :=
  omap (fun ev => match ev with EvOrchestrate _ d => Some d | _ => None end)
       (trace w).

(** A [set] in the job collection: the only way a job record comes to be. *)
Definition creates_job (ev : event) : bool :=
  match ev with
  | EvSet c _ _ => String.eqb c "posts"
  | _ => false
  end.

Definition creations (w : World) : list event :=
  List.filter creates_job (trace w).

(** A write that carries the given status. *)
Definition writes_status (s : string) (ev : event) : bool :=
  match ev with
  | EvSet _ _ d | EvUpdate _ _ d => str_is (dict_get d "status" VNone) s
  | _ => false
  end.

(** A stored job record with its status and its two counters. *)
Definition job_record (r : doc) (st : string) (rc mr : Z) : Prop :=
  r !! "status" = Some (VStr st) /\
  r !! "retry_count" = Some (VInt rc) /\
  r !! "max_retries" = Some (VInt mr).

(** The dictionaries that [process_message] passes to [update_document]. *)

(** lines 117-122 *)
Definition exceeded_payload (now : string) (rc mr : Z) : doc :=
  <["status" := VStr "failed_permanently"]>
  (<["errorAt" := VStr now]>
  (<["error" := VStr ("Exceeded maximum retry attempts (" +:+ pretty mr
                      +:+ ")")]>
  (<["retry_count" := VInt rc]> ∅))).

(** lines 130-134, with the counter already incremented *)
Definition retry_payload (now : string) (rc : Z) : doc :=
  <["status" := VStr "processing"]>
  (<["retry_count" := VInt (rc + 1)]>
  (<["processedAt" := VStr now]> ∅)).

(** lines 180-186 *)
Definition completed_payload (now post_id text : string) (sections : value)
    : doc :=
  <["status" := VStr "completed"]>
  (<["completedAt" := VStr now]>
  (<["generatedPostId" := VStr post_id]>
  (<["generatedContent" := VStr text]>
  (<["sections" := sections]> ∅)))).

(** lines 191-195 *)
Definition generation_error_payload (now msg : string) : doc :=
  <["status" := VStr "error"]>
  (<["errorAt" := VStr now]>
  (<["error" := VStr msg]> ∅)).

(** lines 210-215 *)
Definition failed_payload (now : string) (rc mr : Z) (msg : string) : doc :=
  <["status" := VStr "failed_permanently"]>
  (<["errorAt" := VStr now]>
  (<["error" := VStr ("Permanently failed after " +:+ pretty mr
                      +:+ " retries. Last error: " +:+ msg)]>
  (<["retry_count" := VInt rc]> ∅))).

(** lines 219-224 *)
Definition error_payload (now : string) (rc : Z) (msg : string) : doc :=
  <["status" := VStr "error"]>
  (<["errorAt" := VStr now]>
  (<["error" := VStr msg]>
  (<["retry_count" := VInt rc]> ∅))).

(** The nine attributes of [BlogPostData]. *)
Definition brief_keys : list string :=
  ["id"; "title"; "content"; "keywords"; "focus"; "regeneration_instructions";
   "selected_sections"; "original_content"; "feedback"].

(** The brief after lines 86-89 and the number of clock readings then. *)
Definition titled (E : Env) (post_id : string) (data : doc) (k : nat)
    : doc * nat :=
  if truthy (dict_get data "title" VNone) then (data, k)
  else (<["title" := VStr ("Generated content for " +:+ post_id +:+ " at "
                           +:+ utc_now_iso E k)]> data, S k).

(** The value stored under [sections] by line 185. *)
Definition sections_value (sections : option (list value)) : value :=
  match sections with
  | Some (s :: ss) => VList (s :: ss)
  | _ => VNone
  end.

(** The four fields that the regeneration merge touches. *)
Definition merged_fields : list string :=
  ["title"; "content"; "keywords"; "focus"].

(** What the generation block (lines 157-237) may do for post [pid] and
    its brief: read, update the job record, overwrite the generated post,
    call the orchestrator with that brief, call the provider. *)
Definition allowed (E : Env) (pid : string) (brief : doc) (ev : event)
    : Prop :=
  match ev with
  | EvGet _ _ => True
  | EvSet c i _ => c = FIRESTORE_GENERATED_POSTS_COLLECTION E /\ i = pid
  | EvUpdate c i _ => c = "posts" /\ i = pid
  | EvOrchestrate p d => p = pid /\ d = brief
  | EvProvider _ => True
  end.

Definition evolves (E : Env) (pid : string) (brief : doc) (w w' : World)
    : Prop :=
  (exists new, trace w' = new ++ trace w /\ Forall (allowed E pid brief) new) /\
  (forall key, key <> ("posts", pid) ->
               key <> (FIRESTORE_GENERATED_POSTS_COLLECTION E, pid) ->
               store w' !! key = store w !! key) /\
  (forall key, is_Some (store w !! key) -> is_Some (store w' !! key)).

(** A step that reads and writes the store without reaching the
    orchestrator. *)
Definition quiet (w w' : World) : Prop :=
  exists new, trace w' = new ++ trace w /\
              forall p d, EvOrchestrate p d ∉ new.

(** A computation all of whose runs are related by [R]. *)
Definition respects {A} (R : World -> World -> Prop) (m : M A) : Prop :=
  forall w r w', m w = (r, w') -> R w w'.

(** What a message must satisfy for lines 68-97 to hand it on: it decodes,
    it validates and, for a regeneration, the original post is there. *)
Definition original_found (E : Env) (w : World) (m : BlogPostMessage)
    : Prop :=
  action m = "regenerate" ->
  exists original_post,
    store w !! (FIRESTORE_POSTS_COLLECTION E, post_id m) = Some original_post /\
    doc_truthy original_post = true.

(** A payload with a required field missing or mistyped. *)
Definition malformed (E : Env) (payload : value) : Prop :=
  match payload with
  | VDict d =>
      (forall s, aliased d "postId" "post_id" <> Some (VStr s)) \/
      (forall s, d !! "action" <> Some (VStr s)) \/
      d !! "timestamp" ≫= validate_int E = None \/
      d !! "data" ≫= BlogPostData = None
  | _ => True
  end.

(** The calls to the provider during a run. *)
Definition provider_calls (w : World) : nat :=
  length (List.filter (fun ev => match ev with
                                 | EvProvider _ => true
                                 | _ => false
                                 end) (trace w)).

(** The retry counter and the ceiling stored for a post, if any. *)
Definition stored_field (w : World) (pid field : string) : option value :=
  store w !! ("posts", pid) ≫= (fun r => r !! field).

(** * A sample deployment

    A concrete environment, messages and stores, on which the handler can
    be run.  Its codec knows the handful of texts below: each base64 string
    is the encoding of the JSON text next to it, and each JSON text parses to
    the value next to it; on a number of 5000 digits [json.loads] raises the
    [ValueError] of the integer conversion, and any other text is not
    JSON. *)

(** JSON texts are written with apostrophes for their double quotes. *)
Fixpoint dq (s : string) : string :=
  match s with
  | EmptyString => EmptyString
  | String c s' =>
      String (if Ascii.eqb c "'"%char then "034"%char else c) (dq s')
  end.

Definition dict (l : list (string * value)) : doc := list_to_map l.

Definition lookup_text {A} (k : string) (l : list (string * A)) : option A :=
  snd <$> List.find (fun p => String.eqb (fst p) k) l.

Definition message_of (post action : string) (brief : list (string * value))
    : value :=
  VDict (dict [("postId", VStr post); ("action", VStr action);
               ("timestamp", VInt 1700000000000); ("data", VDict (dict brief))]).

Definition hello_brief : list (string * value) :=
  [("id", VStr "p1"); ("title", VStr "Hello");
   ("keywords", VList [VStr "a"; VStr "b"]); ("focus", VStr "f")].

Definition created_payload : value := message_of "p1" "created" hello_brief.
Definition created_text : string :=
  dq "{'postId': 'p1', 'action': 'created', 'timestamp': 1700000000000, 'data': {'id': 'p1', 'title': 'Hello', 'keywords': ['a', 'b'], 'focus': 'f'}}".
Definition created_b64 : string :=
  "eyJwb3N0SWQiOiAicDEiLCAiYWN0aW9uIjogImNyZWF0ZWQiLCAidGltZXN0YW1wIjogMTcwMDAwMDAwMDAwMCwgImRhdGEiOiB7ImlkIjogInAxIiwgInRpdGxlIjogIkhlbGxvIiwgImtleXdvcmRzIjogWyJhIiwgImIiXSwgImZvY3VzIjogImYifX0=".

Definition regenerate_payload : value :=
  message_of "p1" "regenerate"
    [("id", VStr "p1"); ("title", VStr "New"); ("feedback", VStr "shorter")].
Definition regenerate_text : string :=
  dq "{'postId': 'p1', 'action': 'regenerate', 'timestamp': 1700000000000, 'data': {'id': 'p1', 'title': 'New', 'feedback': 'shorter'}}".
Definition regenerate_b64 : string :=
  "eyJwb3N0SWQiOiAicDEiLCAiYWN0aW9uIjogInJlZ2VuZXJhdGUiLCAidGltZXN0YW1wIjogMTcwMDAwMDAwMDAwMCwgImRhdGEiOiB7ImlkIjogInAxIiwgInRpdGxlIjogIk5ldyIsICJmZWVkYmFjayI6ICJzaG9ydGVyIn19".

Definition publish_payload : value :=
  message_of "p1" "publish" [("id", VStr "p1"); ("title", VStr "Hello")].
Definition publish_text : string :=
  dq "{'postId': 'p1', 'action': 'publish', 'timestamp': 1700000000000, 'data': {'id': 'p1', 'title': 'Hello'}}".
Definition publish_b64 : string :=
  "eyJwb3N0SWQiOiAicDEiLCAiYWN0aW9uIjogInB1Ymxpc2giLCAidGltZXN0YW1wIjogMTcwMDAwMDAwMDAwMCwgImRhdGEiOiB7ImlkIjogInAxIiwgInRpdGxlIjogIkhlbGxvIn19".

Definition noid_payload : value :=
  message_of "p1" "created"
    [("title", VStr "Hello"); ("keywords", VList [VStr "a"; VStr "b"]);
     ("focus", VStr "f")].
Definition noid_text : string :=
  dq "{'postId': 'p1', 'action': 'created', 'timestamp': 1700000000000, 'data': {'title': 'Hello', 'keywords': ['a', 'b'], 'focus': 'f'}}".
Definition noid_b64 : string :=
  "eyJwb3N0SWQiOiAicDEiLCAiYWN0aW9uIjogImNyZWF0ZWQiLCAidGltZXN0YW1wIjogMTcwMDAwMDAwMDAwMCwgImRhdGEiOiB7InRpdGxlIjogIkhlbGxvIiwgImtleXdvcmRzIjogWyJhIiwgImIiXSwgImZvY3VzIjogImYifX0=".

(** Three answers of a provider: free text, a JSON object whose only
    section has no [content], and a number of 5000 digits, on which
    [json.loads] raises a [ValueError] that is no [JSONDecodeError]. *)
Fixpoint ones (n : nat) : string :=
  match n with
  | O => EmptyString
  | S n' => String "1"%char (ones n')
  end.
Definition long_number : string := ones (50 * 100).
Definition plain_answer : string := "Hello, this is the article.".
Definition broken_answer : string := dq "{'sections': [{'subtitle': 'S1'}]}".
Definition broken_answer_json : value :=
  VDict (dict [("sections", VList [VDict (dict [("subtitle", VStr "S1")])])]).

Definition sample_env (source_posts : string)
    (adapter : result (doc -> result string)) : Env :=
  {| FIRESTORE_POSTS_COLLECTION := source_posts;
     FIRESTORE_GENERATED_POSTS_COLLECTION := default_generated_posts_collection;
     b64decode_utf8 := fun v =>
       match v with
       | VStr s =>
           lookup_text s [(created_b64, created_text);
                          (regenerate_b64, regenerate_text);
                          (publish_b64, publish_text);
                          (noid_b64, noid_text)]
       | _ => None
       end;
     json_loads := fun s =>
       if String.eqb s long_number then
         Raise (Exn ValueError
                  "Exceeds the limit (4300 digits) for integer string conversion: value has 5000 digits; use sys.set_int_max_str_digits() to increase the limit")
       else
         Ok (lookup_text s [(created_text, created_payload);
                            (regenerate_text, regenerate_payload);
                            (publish_text, publish_payload);
                            (noid_text, noid_payload);
                            (broken_answer, broken_answer_json)]);
     validate_int := fun v => match v with VInt n => Some n | _ => None end;
     describe := fun c =>
       match c with
       | ValidationError => "validation error"
       | StoreError => "503 service unavailable"
       | _ => "error"
       end;
     utc_now_iso := fun k => "2024-01-01T00:00:0" +:+ pretty k +:+ "+00:00";
     fromtimestamp_iso := fun _ => Some "2023-11-14T22:13:20+00:00";
     get_ai_adapter := adapter |}.

Definition answering (text : string) : result (doc -> result string) :=
  Ok (fun _ => Ok text).
Definition failing (msg : string) : result (doc -> result string) :=
  Ok (fun _ => Raise (Exn ProviderError msg)).

(** The push envelope around a base64 payload. *)
Definition envelope (b64 : string) : doc :=
  dict [("data", VStr b64); ("messageId", VStr "1")].

Definition stored_job (st : string) (rc mr : Z) : doc :=
  dict [("status", VStr st); ("retry_count", VInt rc);
        ("max_retries", VInt mr)].

(** A store that holds one job record for post p1, and an empty one. *)
Definition world_with (job : doc) (fs : list bool) : World :=
  mkWorld {[ ("posts", "p1") := job ]} fs 0 [].
Definition empty_world : World := mkWorld ∅ [] 0 [].

(** The default configuration: the original posts are read from the
    collection that also holds the job records. *)
Definition default_env : Env :=
  sample_env default_posts_collection (answering plain_answer).
(** A configuration with a collection of its own for the original posts. *)
Definition separate_env : Env :=
  sample_env "source_posts" (answering plain_answer).
Definition failing_env : Env :=
  sample_env default_posts_collection (failing "quota exceeded").
Definition broken_env : Env :=
  sample_env default_posts_collection (answering broken_answer).
Definition overlong_env : Env :=
  sample_env default_posts_collection (answering long_number).

(** A store that holds the original post of p1 and no job record. *)
Definition source_world : World :=
  mkWorld {[ ("source_posts", "p1") :=
               dict [("title", VStr "T"); ("content", VStr "C")] ]} [] 0 [].

(** A store whose original post of p1 has a number for its title. *)
Definition numbered_world : World :=
  mkWorld {[ ("source_posts", "p1") := dict [("title", VInt 5)] ]} [] 0 [].

(** * Further vocabulary and samples *)

(** Settings that select OpenAI and hold no key, and providers that are
    never reached. *)
Definition keyless_settings : Settings :=
  {| AI_PROVIDER := "OPENAI"; OPENAI_API_KEY_SECRET := "";
     GCP_PROJECT_ID := "your-project-id"; GCP_REGION := "your-region" |}.
Definition no_providers : Providers :=
  {| openai_generate_content := fun _ => Ok plain_answer;
     genai_Client := Ok tt;
     google_generate_content := fun _ => Ok plain_answer |}.

(** A brief whose keywords are null. *)
Definition null_keywords_brief : list (string * value) :=
  [("id", VStr "p1"); ("title", VStr "Hello"); ("keywords", VNone)].

(** A message whose brief carries an original content, and an environment
    whose codec knows it as well. *)
Definition draft_payload : value :=
  message_of "p1" "created"
    [("id", VStr "p1"); ("title", VStr "Hello");
     ("originalContent", VStr "Once upon a time")].
Definition draft_text : string :=
  dq "{'postId': 'p1', 'action': 'created', 'timestamp': 1700000000000, 'data': {'id': 'p1', 'title': 'Hello', 'originalContent': 'Once upon a time'}}".
Definition draft_b64 : string :=
  "eyJwb3N0SWQiOiAicDEiLCAiYWN0aW9uIjogImNyZWF0ZWQiLCAidGltZXN0YW1wIjogMTcwMDAwMDAwMDAwMCwgImRhdGEiOiB7ImlkIjogInAxIiwgInRpdGxlIjogIkhlbGxvIiwgIm9yaWdpbmFsQ29udGVudCI6ICJPbmNlIHVwb24gYSB0aW1lIn19".

Definition with_codec (E : Env) (b64 text : string) (payload : value) : Env :=
  {| FIRESTORE_POSTS_COLLECTION := FIRESTORE_POSTS_COLLECTION E;
     FIRESTORE_GENERATED_POSTS_COLLECTION :=
       FIRESTORE_GENERATED_POSTS_COLLECTION E;
     b64decode_utf8 := fun v =>
       if str_is v b64 then Some text else b64decode_utf8 E v;
     json_loads := fun s =>
       if String.eqb s text then Ok (Some payload) else json_loads E s;
     validate_int := validate_int E;
     describe := describe E;
     utc_now_iso := utc_now_iso E;
     fromtimestamp_iso := fromtimestamp_iso E;
     get_ai_adapter := get_ai_adapter E |}.

Definition draft_env : Env :=
  with_codec default_env draft_b64 draft_text draft_payload.

(** The value that a run returns, for the runs that return one. *)
Definition returns {A} (r : result A) : bool :=
  match r with Ok _ => true | Raise _ => false end.
Definition the_result {A} (a0 : A) (r : result A) : A :=
  match r with Ok a => a | Raise _ => a0 end.

Definition no_output : BlogGenerationOutput :=
  {| original_post_id := ""; title := ""; original_content := "";
     generated_content := ""; generated_at := ""; generated_post_id := "";
     status := error; error_message := None |}.
Definition no_message : BlogPostMessage :=
  {| post_id := ""; action := ""; timestamp := 0; data := ∅ |}.

(** The job record of a post as a run finds it: the store answers, and the
    record has this status and these counters. *)
Definition job_at (w : World) (pid st : string) (rc mr : Z) : Prop :=
  faults w = [] /\
  exists r, store w !! ("posts", pid) = Some r /\ job_record r st rc mr.

(** The message under which the handler records and raises the failure
    [e] of the provider (lines 194 and 198). *)
Definition reported (e : exn) : string :=
  error_or_unknown (Some (exn_str e)).

(** What the endpoint answers when the handler raises [e]. *)
Definition failed_to_process (e : exn) : response :=
  HTTPException 500 ("Failed to process message: " +:+ exn_str e).

(** A push request with the created message for p1. *)
Definition created_push : PubSubMessage :=
  {| message := envelope created_b64; subscription := "blog-posts-sub" |}.

(** An environment whose provider answers with a JSON text that the codec
    knows. *)
Definition with_answer (E : Env) (text : string) (json : value) : Env :=
  {| FIRESTORE_POSTS_COLLECTION := FIRESTORE_POSTS_COLLECTION E;
     FIRESTORE_GENERATED_POSTS_COLLECTION :=
       FIRESTORE_GENERATED_POSTS_COLLECTION E;
     b64decode_utf8 := b64decode_utf8 E;
     json_loads := fun s =>
       if String.eqb s text then Ok (Some json) else json_loads E s;
     validate_int := validate_int E;
     describe := describe E;
     utc_now_iso := utc_now_iso E;
     fromtimestamp_iso := fromtimestamp_iso E;
     get_ai_adapter := answering text |}.

(** An answer with an empty list of sections. *)
Definition no_sections_answer : string := dq "{'sections': []}".
Definition no_sections_env : Env :=
  with_answer default_env no_sections_answer
    (VDict (dict [("sections", VList [])])).

(** The field of the generated post stored for a post, if any. *)
Definition generated_field (E : Env) (w : World) (pid field : string)
    : option value :=
  store w !! (FIRESTORE_GENERATED_POSTS_COLLECTION E, pid)
    ≫= (fun g => g !! field).

(** The job record that the first delivery of the created message
    writes. *)
Definition first_job : doc :=
  default ∅
    (ProcessedBlogPost "p1" "created" 1700000000000
       (default ∅ (BlogPostData (VDict (dict hello_brief))))
       "2024-01-01T00:00:00+00:00").

(** [existing_record.get('retry_count', 0)] *)
Definition counter (r : doc) : value := dict_get r "retry_count" (VInt 0).

(** The counter is as it was, or one more. *)
Definition counter_step (old new : value) : Prop :=
  new = old \/ exists x, as_number old = Some x /\ new = VInt (x + 1).

(** What lasts of a job record through a run: it is still there and not
    empty, and its ceiling is as it was. *)
Definition record_kept (pid : string) (step : value -> value -> Prop)
    (w w' : World) : Prop :=
  forall r,
    store w !! ("posts", pid) = Some r -> doc_truthy r = true ->
    exists r',
      store w' !! ("posts", pid) = Some r' /\ doc_truthy r' = true /\
      r' !! "max_retries" = r !! "max_retries" /\
      step (counter r) (counter r').

(** * Stepping through the monad *)

Ltac mred := cbv beta iota.
Section Run.
Context (E : Env).
Implicit Types (st : gmap (string * string) doc) (k : nat) (tr : list event).

Lemma run_bind {A B} (m : M A) (f : A -> M B) w :
  bind m f w = match m w with
               | (Ok a, w') => f a w'
               | (Raise e, w') => (Raise e, w')
               end.
Proof. reflexivity. Qed.

Lemma run_try {A} (m : M A) (h : exn -> M A) w :
  try_except m h w = match m w with
                     | (Ok a, w') => (Ok a, w')
                     | (Raise e, w') => h e w'
                     end.
Proof. reflexivity. Qed.

Lemma run_ret {A} (a : A) w : ret a w = (Ok a, w).
Proof. reflexivity. Qed.

Lemma run_raise {A} e w : @raise A e w = (Raise e, w).
Proof. reflexivity. Qed.

Lemma run_lift {A} (r : result A) w : lift r w = (r, w).
Proof. reflexivity. Qed.

Lemma run_emit ev st fs k tr :
  emit ev (mkWorld st fs k tr) = (Ok tt, mkWorld st fs k (ev :: tr)).
Proof. reflexivity. Qed.

Lemma run_now st fs k tr :
  utc_now E (mkWorld st fs k tr) =
  (Ok (utc_now_iso E k), mkWorld st fs (S k) tr).
Proof. reflexivity. Qed.

Lemma run_get c i st k tr :
  get_document E c i (mkWorld st [] k tr) =
  (Ok (st !! (c, i)), mkWorld st [] k (EvGet c i :: tr)).
Proof. reflexivity. Qed.

Lemma run_save c i d st k tr :
  save_document E c i d (mkWorld st [] k tr) =
  (Ok tt, mkWorld (<[(c, i) := d]> st) [] k (EvSet c i d :: tr)).
Proof. reflexivity. Qed.

Lemma run_update c i d old st k tr :
  st !! (c, i) = Some old ->
  update_document E c i d (mkWorld st [] k tr) =
  (Ok tt, mkWorld (<[(c, i) := d ∪ old]> st) [] k (EvUpdate c i d :: tr)).
Proof.
  intros H. unfold update_document. rewrite run_bind.
  cbn [store_call faults]. mred. cbn [store faults ticks trace].
  by rewrite H.
Qed.

(** A store call that the fault schedule makes fail. *)
Lemma run_get_fault c i st fs k tr :
  get_document E c i (mkWorld st (true :: fs) k tr) =
  (Raise (Exn StoreError (describe E StoreError)), mkWorld st fs k tr).
Proof. reflexivity. Qed.

Lemma run_save_fault c i d st fs k tr :
  save_document E c i d (mkWorld st (true :: fs) k tr) =
  (Raise (Exn StoreError (describe E StoreError)), mkWorld st fs k tr).
Proof. reflexivity. Qed.

Lemma run_update_fault c i d st fs k tr :
  update_document E c i d (mkWorld st (true :: fs) k tr) =
  (Raise (Exn StoreError (describe E StoreError)), mkWorld st fs k tr).
Proof. reflexivity. Qed.

Lemma run_get_pass c i st fs k tr :
  get_document E c i (mkWorld st (false :: fs) k tr) =
  (Ok (st !! (c, i)), mkWorld st fs k (EvGet c i :: tr)).
Proof. reflexivity. Qed.
End Run.

Ltac mstep :=
  repeat first
    [ rewrite run_bind
    | rewrite run_try
    | rewrite run_ret
    | rewrite run_raise
    | rewrite run_lift
    | rewrite run_emit
    | rewrite run_now
    | rewrite run_get
    | rewrite run_save
    | progress mred ].

(** ** Dictionaries *)

Lemma doc_truthy_lookup (d : doc) k v : d !! k = Some v -> doc_truthy d = true.
Proof.
  intros Hk. unfold doc_truthy.
  destruct (Nat.eqb_spec (size d) 0) as [H0|]; [|done].
  apply map_size_empty_iff in H0. subst d. by rewrite lookup_empty in Hk.
Qed.

Lemma found_lookup (d : doc) k v : d !! k = Some v -> found (Some d) = Some d.
Proof. intros Hk. unfold found. by rewrite (doc_truthy_lookup d k v Hk). Qed.

Lemma found_Some o d : found o = Some d -> o = Some d /\ doc_truthy d = true.
Proof.
  destruct o as [d'|]; [|done]. unfold found.
  destruct (doc_truthy d') eqn:Ht; [|done]. by intros [= ->].
Qed.

(** ** How the world may evolve *)

Section Respects.
Context {R : World -> World -> Prop} `{!Reflexive R} `{!Transitive R}.

Lemma respects_ret {A} (a : A) : respects R (ret a).
Proof. intros w r w' [= <- <-]. reflexivity. Qed.

Lemma respects_raise {A} e : respects R (@raise A e).
Proof. intros w r w' [= <- <-]. reflexivity. Qed.

Lemma respects_lift {A} (x : result A) : respects R (lift x).
Proof. intros w r w' [= <- <-]. reflexivity. Qed.

Lemma respects_bind {A B} (m : M A) (f : A -> M B) :
  respects R m -> (forall a, respects R (f a)) -> respects R (bind m f).
Proof.
  intros Hm Hf w r w'. rewrite run_bind.
  destruct (m w) as [[a|e] w1] eqn:Hw.
  - intros H. etransitivity; [by eapply Hm | by eapply Hf].
  - intros [= <- <-]. by eapply Hm.
Qed.

Lemma respects_try {A} (m : M A) (h : exn -> M A) :
  respects R m -> (forall e, respects R (h e)) -> respects R (try_except m h).
Proof.
  intros Hm Hh w r w'. rewrite run_try.
  destruct (m w) as [[a|e] w1] eqn:Hw.
  - intros [= <- <-]. by eapply Hm.
  - intros H. etransitivity; [by eapply Hm | by eapply Hh].
Qed.
End Respects.

#[global] Instance evolves_refl E pid b : Reflexive (evolves E pid b).
Proof.
  intros w. split; [|done]. exists []. by split; [|constructor].
Qed.

#[global] Instance evolves_trans E pid b : Transitive (evolves E pid b).
Proof.
  intros w1 w2 w3 ((n1 & Ht1 & Hn1) & Hs1 & Hp1) ((n2 & Ht2 & Hn2) & Hs2 & Hp2).
  split; [|split].
  - exists (n2 ++ n1). split.
    + by rewrite Ht2, Ht1, app_assoc.
    + by apply Forall_app.
  - intros key H1 H2. by rewrite Hs2, Hs1.
  - intros key H. by apply Hp2, Hp1.
Qed.

Lemma evolves_store_call E pid b : respects (evolves E pid b) (store_call E).
Proof.
  intros [st fs k tr] r w'. unfold store_call. cbn [faults].
  destruct fs as [|[] fs]; intros [= <- <-];
    (split; [exists []; by split; [|constructor] | done]).
Qed.

Lemma evolves_now E pid b : respects (evolves E pid b) (utc_now E).
Proof.
  intros w r w' [= <- <-].
  split; [exists []; by split; [|constructor] | done].
Qed.

Lemma evolves_emit E pid b ev :
  allowed E pid b ev -> respects (evolves E pid b) (emit ev).
Proof.
  intros Hev w r w' [= <- <-].
  split; [exists [ev]; split; [done | by constructor] | done].
Qed.

Lemma evolves_get E pid b c i :
  respects (evolves E pid b) (get_document E c i).
Proof.
  apply respects_bind; [apply evolves_store_call|]. intros _ w r w' [= <- <-].
  split; [exists [EvGet c i]; split; [done | by constructor] | done].
Qed.

Lemma evolves_update E pid b d :
  respects (evolves E pid b) (update_document E "posts" pid d).
Proof.
  apply respects_bind; [apply evolves_store_call|]. intros _ w r w'. mred.
  destruct (store w !! ("posts", pid)) as [old|] eqn:Hold.
  - intros [= <- <-]. split; [|split]; cbn [store trace].
    + exists [EvUpdate "posts" pid d]. split; [done | by constructor].
    + intros key H1 _. by rewrite lookup_insert_ne.
    + intros key H. destruct (decide (key = ("posts", pid))) as [->|Hne].
      * rewrite lookup_insert_eq. eauto.
      * by rewrite lookup_insert_ne.
  - intros [= <- <-]. reflexivity.
Qed.

Lemma evolves_save E pid b d :
  respects (evolves E pid b)
    (save_document E (FIRESTORE_GENERATED_POSTS_COLLECTION E) pid d).
Proof.
  apply respects_bind; [apply evolves_store_call|]. intros _ w r w' [= <- <-].
  split; [|split]; cbn [store trace].
  - eexists [_]. split; [done | by constructor].
  - intros key _ H2. by rewrite lookup_insert_ne.
  - intros key H.
    destruct (decide (key = (FIRESTORE_GENERATED_POSTS_COLLECTION E, pid)))
      as [->|Hne].
    + rewrite lookup_insert_eq. eauto.
    + by rewrite lookup_insert_ne.
Qed.

Ltac evolve :=
  repeat first
    [ apply respects_ret
    | apply respects_raise
    | apply respects_lift
    | apply evolves_now
    | apply evolves_get
    | apply evolves_update
    | apply evolves_save
    | apply evolves_emit; done
    | apply respects_bind; [|intros ?]
    | apply respects_try; [|intros ?]
    | match goal with
      | |- respects _ (if ?b then _ else _) => destruct b
      | |- respects _ (match ?x with _ => _ end) => destruct x
      end ].

Lemma evolves_generate_blog_post E pid d ctx :
  respects (evolves E pid d) (generate_blog_post E pid d ctx).
Proof.
  unfold generate_blog_post, ensure_title, generate_blog_post_body,
    generate_blog_post_except.
  evolve.
Qed.

Lemma evolves_generate_and_record E m :
  respects (evolves E (post_id m) (data m)) (generate_and_record E m).
Proof.
  unfold generate_and_record.
  apply respects_bind; [evolve|]. intros at_time.
  apply respects_bind; [apply evolves_generate_blog_post|]. intros out.
  evolve.
Qed.

Lemma evolves_on_failure E m e :
  respects (evolves E (post_id m) (data m)) (on_failure E m e).
Proof. unfold on_failure. evolve. Qed.

(** Whatever happens in lines 157-237, only the job record of the post and
    its generated post are written, and nothing is deleted. *)
Lemma generation_block_evolves E m :
  respects (evolves E (post_id m) (data m))
    (try_except (generate_and_record E m) (on_failure E m)).
Proof.
  apply respects_try; [apply evolves_generate_and_record|].
  intros e. apply evolves_on_failure.
Qed.

(** ** Intake (lines 68-97) *)

(** Intake reads at most one document and changes nothing else. *)
Lemma receive_message_frame E md w r w1 :
  receive_message E md w = (r, w1) ->
  store w1 = store w /\ ticks w1 = ticks w /\ effects w1 = effects w /\
  creations w1 = creations w /\ (faults w = [] -> faults w1 = []).
Proof.
  unfold receive_message. rewrite !run_bind, !run_lift.
  destruct (decode_payload E md) as [payload|e]; [|intros [= <- <-]; done].
  rewrite !run_bind, !run_lift.
  destruct (BlogPostMessage_validate E payload) as [m|];
    [|intros [= <- <-]; done].
  cbn [of_option]. mred.
  destruct (String.eqb (action m) "regenerate"); [|intros [= <- <-]; done].
  destruct w as [st fs k tr].
  unfold get_document, store_call. rewrite !run_bind. cbn [faults].
  destruct fs as [|[] fs]; mred; cbn [store faults ticks trace log].
  - destruct (found _); intros [= <- <-]; done.
  - intros [= <- <-]; done.
  - destruct (found _); intros [= <- <-]; done.
Qed.

Lemma receive_message_rejects E md w payload :
  decode_payload E md = Ok payload ->
  BlogPostMessage_validate E payload = None ->
  receive_message E md w =
  (Raise (Exn ValidationError (describe E ValidationError)), w).
Proof.
  intros Hd Hv. unfold receive_message.
  rewrite run_bind, run_lift, Hd. mred. by rewrite run_bind, run_lift, Hv.
Qed.

Lemma receive_message_plain E md w payload m :
  decode_payload E md = Ok payload ->
  BlogPostMessage_validate E payload = Some m ->
  action m <> "regenerate" ->
  receive_message E md w = (Ok m, w).
Proof.
  intros Hd Hv Ha. unfold receive_message.
  rewrite run_bind, run_lift, Hd. mred. rewrite run_bind, run_lift, Hv.
  cbn [of_option]. mred.
  by destruct (String.eqb_spec (action m) "regenerate").
Qed.

Lemma receive_message_regenerate E md st k tr payload m original_post :
  decode_payload E md = Ok payload ->
  BlogPostMessage_validate E payload = Some m ->
  action m = "regenerate" ->
  st !! (FIRESTORE_POSTS_COLLECTION E, post_id m) = Some original_post ->
  doc_truthy original_post = true ->
  receive_message E md (mkWorld st [] k tr) =
  (Ok {| post_id := post_id m; action := action m; timestamp := timestamp m;
         data := merge_original original_post (data m) |},
   mkWorld st [] k (EvGet (FIRESTORE_POSTS_COLLECTION E) (post_id m) :: tr)).
Proof.
  intros Hd Hv Ha Ho Ht. unfold receive_message.
  rewrite run_bind, run_lift, Hd. mred. rewrite run_bind, run_lift, Hv.
  cbn [of_option]. mred. rewrite Ha. cbn [String.eqb Ascii.eqb Bool.eqb].
  mstep. rewrite Ho. unfold found. rewrite Ht. by mstep.
Qed.

Lemma receive_message_not_found E md st k tr payload m :
  decode_payload E md = Ok payload ->
  BlogPostMessage_validate E payload = Some m ->
  action m = "regenerate" ->
  found (st !! (FIRESTORE_POSTS_COLLECTION E, post_id m)) = None ->
  receive_message E md (mkWorld st [] k tr) =
  (Raise (Exn ValueError ("Original post not found for regeneration: "
                          +:+ post_id m)),
   mkWorld st [] k (EvGet (FIRESTORE_POSTS_COLLECTION E) (post_id m) :: tr)).
Proof.
  intros Hd Hv Ha Ho. unfold receive_message.
  rewrite run_bind, run_lift, Hd. mred. rewrite run_bind, run_lift, Hv.
  cbn [of_option]. mred. rewrite Ha. cbn [String.eqb Ascii.eqb Bool.eqb].
  mstep. rewrite Ho. by mstep.
Qed.

(** A message is accepted as soon as it decodes, validates and, for a
    regeneration, finds its original post; the accepted message keeps the
    post id, the action and the time stamp. *)
Lemma receive_message_accepts E md w payload m0 :
  faults w = [] ->
  decode_payload E md = Ok payload ->
  BlogPostMessage_validate E payload = Some m0 ->
  original_found E w m0 ->
  exists m w1,
    receive_message E md w = (Ok m, w1) /\
    post_id m = post_id m0 /\ action m = action m0 /\
    timestamp m = timestamp m0.
Proof.
  intros Hf Hd Hv Ho. destruct w as [st fs k tr]. cbn [faults] in Hf. subst fs.
  destruct (decide (action m0 = "regenerate")) as [Ha|Ha].
  - destruct (Ho Ha) as (o & Hlook & Ht). cbn [store] in Hlook.
    eexists _, _. split;
      [by eapply receive_message_regenerate | done].
  - eexists _, _. split; [by eapply receive_message_plain | done].
Qed.

(** ** Validation of the payload *)

Lemma bind_None {A B} (o : option A) (f : A -> option B) :
  o ≫= f = None <-> o = None \/ exists a, o = Some a /\ f a = None.
Proof.
  destruct o as [a|]; cbn; [|by intuition].
  split; [by eauto | intros [|(a' & [= <-] & ?)]; done].
Qed.

Lemma malformed_rejected E payload :
  malformed E payload -> BlogPostMessage_validate E payload = None.
Proof.
  destruct payload as [| | | |l|d]; try done. cbn [malformed].
  unfold BlogPostMessage_validate.
  intros [H|[H|[H|H]]].
  - destruct (aliased d "postId" "post_id") as [[| | |s'| |]|]; try done.
    by destruct (H s').
  - destruct (aliased d "postId" "post_id" ≫= _); [|done]. cbn.
    destruct (d !! "action") as [[| | |s'| |]|]; try done. by destruct (H s').
  - destruct (aliased d "postId" "post_id" ≫= _); [|done]. cbn.
    destruct (d !! "action" ≫= _); [|done]. cbn. by rewrite H.
  - destruct (aliased d "postId" "post_id" ≫= _); [|done]. cbn.
    destruct (d !! "action" ≫= _); [|done]. cbn.
    destruct (d !! "timestamp" ≫= _); [|done]. cbn. by rewrite H.
Qed.

Lemma rejected_malformed E payload :
  BlogPostMessage_validate E payload = None -> malformed E payload.
Proof.
  destruct payload as [| | | |l|d]; try done. cbn [malformed].
  unfold BlogPostMessage_validate.
  destruct (aliased d "postId" "post_id") as [v|] eqn:Hp; cbn;
    [|intros _; by left].
  destruct v; cbn; try (intros _; left; by intros ? ?).
  destruct (d !! "action") as [v|] eqn:Ha; cbn;
    [|intros _; right; by left].
  destruct v; cbn; try (intros _; right; left; by intros ? ?).
  destruct (d !! "timestamp" ≫= validate_int E) eqn:Hts; cbn;
    [|intros _; right; right; by left].
  destruct (d !! "data" ≫= BlogPostData) eqn:Hdata; cbn; [done|].
  intros _. by do 3 right.
Qed.

(** The brief must carry a string [id]. *)
Lemma BlogPostData_needs_id (d : doc) :
  (forall s, d !! "id" <> Some (VStr s)) -> BlogPostData (VDict d) = None.
Proof.
  intros H. unfold BlogPostData.
  destruct (d !! "id") as [[| | |s'| |]|]; try done. by destruct (H s').
Qed.

(** A validated brief has no key outside the attributes of
    [BlogPostData]. *)
Lemma BlogPostData_keys v d k :
  BlogPostData v = Some d -> k ∉ brief_keys -> d !! k = None.
Proof.
  destruct v as [| | | |l|d0]; try done. unfold BlogPostData.
  intros H Hk.
  repeat match type of H with
         | (?o ≫= _) = Some _ =>
             destruct o; cbn [mbind option_bind] in H; [|done]
         end.
  injection H as <-.
  unfold brief_keys in Hk. rewrite !not_elem_of_cons in Hk.
  destruct Hk as (?&?&?&?&?&?&?&?&?&_).
  rewrite !lookup_insert_ne by done. apply lookup_empty.
Qed.

Lemma merge_original_other o d k :
  k ∉ merged_fields -> merge_original o d !! k = d !! k.
Proof.
  unfold merged_fields. rewrite !not_elem_of_cons. intros (?&?&?&?&_).
  unfold merge_original. cbv beta zeta. by rewrite !lookup_insert_ne.
Qed.

Lemma dict_get_insert_ne (d : doc) k k' v x :
  k <> k' -> dict_get (<[k' := v]> d) k x = dict_get d k x.
Proof. intros H. unfold dict_get. by rewrite lookup_insert_ne. Qed.

Lemma merge_original_field o d k :
  k ∈ merged_fields ->
  merge_original o d !! k = Some (dict_get o k (dict_get d k VNone)).
Proof.
  unfold merged_fields. rewrite !elem_of_cons, elem_of_nil.
  unfold merge_original. cbv beta zeta.
  intros [->|[->|[->|[->|[]]]]];
    rewrite ?lookup_insert_ne by done; rewrite lookup_insert_eq;
    by rewrite ?dict_get_insert_ne by done.
Qed.

Lemma BlogPostMessage_validate_data E payload m k :
  BlogPostMessage_validate E payload = Some m ->
  k ∉ brief_keys -> data m !! k = None.
Proof.
  destruct payload as [| | | |l|d]; try done. unfold BlogPostMessage_validate.
  intros H Hk.
  destruct (aliased d "postId" "post_id" ≫= _); [|done]. cbn in H.
  destruct (d !! "action" ≫= _); [|done]. cbn in H.
  destruct (d !! "timestamp" ≫= _); [|done]. cbn in H.
  destruct (d !! "data") as [v|]; [|done]. cbn in H.
  destruct (BlogPostData v) as [b|] eqn:Hb; [|done]. cbn in H.
  injection H as <-. cbn [data]. by eapply BlogPostData_keys.
Qed.

(** A brief that intake hands on has no key outside the attributes of
    [BlogPostData]: in particular no [previousGeneration] and no
    [originalContent]. *)
Lemma receive_message_data E md w m w1 k :
  receive_message E md w = (Ok m, w1) ->
  k ∉ brief_keys -> data m !! k = None.
Proof.
  unfold receive_message. rewrite !run_bind, !run_lift.
  destruct (decode_payload E md) as [payload|e]; [|done].
  rewrite !run_bind, !run_lift.
  destruct (BlogPostMessage_validate E payload) as [m0|] eqn:Hv; [|done].
  cbn [of_option]. mred. intros H Hk.
  pose proof (BlogPostMessage_validate_data E payload m0 k Hv Hk) as H0.
  destruct (String.eqb (action m0) "regenerate").
  - rewrite run_bind in H.
    destruct (get_document _ _ _ w) as [[o|e] w2]; [|done].
    destruct (found o) as [orig|]; [|done].
    injection H as <- <-. cbn [data].
    rewrite merge_original_other; [done|].
    unfold merged_fields, brief_keys in *.
    rewrite !not_elem_of_cons in *. tauto.
  - by injection H as <- <-.
Qed.

(** ** Admission (lines 99-155) *)

Section Admission.
Context (E : Env) (m : BlogPostMessage).
Implicit Types (st : gmap (string * string) doc) (k : nat) (tr : list event).

Lemma admit_terminal st k tr r :
  st !! ("posts", post_id m) = Some r ->
  r !! "status" = Some (VStr "failed_permanently") ->
  admit_job E m (mkWorld st [] k tr) =
  (Ok (Return (post_id m)),
   mkWorld st [] k (EvGet "posts" (post_id m) :: tr)).
Proof.
  intros Hr Hst. unfold admit_job. mstep.
  rewrite Hr, (found_lookup _ _ _ Hst).
  unfold dict_get. rewrite Hst. cbn [default from_option id str_is].
  by rewrite String.eqb_refl.
Qed.

Lemma admit_exceeded st k tr r s rc mr :
  st !! ("posts", post_id m) = Some r ->
  job_record r s rc mr ->
  s <> "failed_permanently" ->
  mr <= rc ->
  admit_job E m (mkWorld st [] k tr) =
  (Ok (Return (post_id m)),
   mkWorld (<[("posts", post_id m) :=
                exceeded_payload (utc_now_iso E k) rc mr ∪ r]> st)
           [] (S k)
           (EvUpdate "posts" (post_id m)
              (exceeded_payload (utc_now_iso E k) rc mr)
            :: EvGet "posts" (post_id m) :: tr)).
Proof.
  intros Hr (Hst & Hrc & Hmr) Hne Hle. unfold admit_job. mstep.
  rewrite Hr, (found_lookup _ _ _ Hst).
  unfold dict_get. rewrite Hst, Hrc, Hmr. cbn [default from_option id str_is].
  destruct (String.eqb_spec s "failed_permanently") as [|_]; [done|].
  cbn [py_ge as_number]. destruct (Z.leb_spec mr rc) as [_|]; [|lia].
  mstep. rewrite (run_update _ _ _ _ r) by done. by mstep.
Qed.

Lemma admit_retry st k tr r s rc mr :
  st !! ("posts", post_id m) = Some r ->
  job_record r s rc mr ->
  s <> "failed_permanently" ->
  rc < mr ->
  admit_job E m (mkWorld st [] k tr) =
  (Ok Continue,
   mkWorld (<[("posts", post_id m) :=
                retry_payload (utc_now_iso E k) rc ∪ r]> st)
           [] (S k)
           (EvUpdate "posts" (post_id m) (retry_payload (utc_now_iso E k) rc)
            :: EvGet "posts" (post_id m) :: tr)).
Proof.
  intros Hr (Hst & Hrc & Hmr) Hne Hlt. unfold admit_job. mstep.
  rewrite Hr, (found_lookup _ _ _ Hst).
  unfold dict_get. rewrite Hst, Hrc, Hmr. cbn [default from_option id str_is].
  destruct (String.eqb_spec s "failed_permanently") as [|_]; [done|].
  cbn [py_ge as_number]. destruct (Z.leb_spec mr rc) as [|_]; [lia|].
  mstep. cbn [py_incr as_number]. mstep.
  rewrite (run_update _ _ _ _ r) by done. by mstep.
Qed.

Lemma admit_create st k tr job :
  found (st !! ("posts", post_id m)) = None ->
  ProcessedBlogPost (post_id m) (action m) (timestamp m) (data m)
    (utc_now_iso E k) = Some job ->
  admit_job E m (mkWorld st [] k tr) =
  (Ok Continue,
   mkWorld (<[("posts", post_id m) := job]> st) [] (S k)
           (EvSet "posts" (post_id m) job
            :: EvGet "posts" (post_id m) :: tr)).
Proof.
  intros Hr Hjob. unfold admit_job. mstep. rewrite Hr. mstep.
  rewrite Hjob. cbn [of_option]. by mstep.
Qed.

Lemma admit_create_fault st fs k tr job :
  found (st !! ("posts", post_id m)) = None ->
  ProcessedBlogPost (post_id m) (action m) (timestamp m) (data m)
    (utc_now_iso E k) = Some job ->
  admit_job E m (mkWorld st (false :: true :: fs) k tr) =
  (Raise (Exn StoreError (describe E StoreError)),
   mkWorld st fs (S k) (EvGet "posts" (post_id m) :: tr)).
Proof.
  intros Hr Hjob. unfold admit_job.
  rewrite run_bind, run_get_pass. mred. rewrite Hr. mstep.
  rewrite Hjob. cbn [of_option]. mstep. by rewrite run_save_fault.
Qed.

Lemma admit_create_invalid st k tr :
  found (st !! ("posts", post_id m)) = None ->
  is_action (action m) = false ->
  admit_job E m (mkWorld st [] k tr) =
  (Raise (Exn ValidationError (describe E ValidationError)),
   mkWorld st [] (S k) (EvGet "posts" (post_id m) :: tr)).
Proof.
  intros Hr Ha. unfold admit_job. mstep. rewrite Hr. mstep.
  unfold ProcessedBlogPost. rewrite Ha. cbn [of_option]. by mstep.
Qed.
End Admission.

Lemma ProcessedBlogPost_fields pid a ts d now job :
  ProcessedBlogPost pid a ts d now = Some job ->
  is_action a = true /\
  job !! "postId" = Some (VStr pid) /\
  job !! "status" = Some (VStr "processing") /\
  job !! "retry_count" = Some (VInt 0) /\
  job !! "max_retries" = Some (VInt 3) /\
  job !! "processedAt" = Some (VStr now).
Proof.
  unfold ProcessedBlogPost. destruct (is_action a); [|done].
  intros [= <-]. repeat split;
    by repeat first [rewrite lookup_insert_eq | rewrite lookup_insert_ne by done].
Qed.

(** ** Orchestrator *)

Lemma run_ensure_title E pid d st fs k tr :
  ensure_title E pid d (mkWorld st fs k tr) =
  (Ok (fst (titled E pid d k)), mkWorld st fs (snd (titled E pid d k)) tr).
Proof.
  unfold ensure_title, titled.
  destruct (truthy (dict_get d "title" VNone)); by mstep.
Qed.

Lemma GeneratedPost_fields pid t oc kw f text secs now g :
  GeneratedPost pid t oc kw f text secs now = Some g ->
  is_str t = true /\ is_str oc = true /\
  g !! "original_post_id" = Some (VStr pid) /\
  g !! "generatedContent" = Some (VStr text) /\
  g !! "sections" = Some secs /\
  g !! "generatedAt" = Some (VStr now) /\
  g !! "status" = Some (VStr "generated").
Proof.
  unfold GeneratedPost.
  destruct t; try done. destruct oc; try done. cbn.
  destruct (check_str_list kw); [|done]. cbn.
  destruct f; try done. cbn. intros [= <-]. repeat split;
    by repeat first [rewrite lookup_insert_eq | rewrite lookup_insert_ne by done].
Qed.

Section Orchestrator.
Context (E : Env) (pid : string).
Implicit Types (st : gmap (string * string) doc) (k : nat) (tr : list event).

(** The run of the orchestrator when every step succeeds. *)
Lemma generate_blog_post_generated d ctx st k tr adapter text secs g :
  let d' := fst (titled E pid d k) in
  let k' := snd (titled E pid d k) in
  get_ai_adapter E = Ok adapter ->
  adapter d' = Ok text ->
  extract_sections E text = Ok secs ->
  GeneratedPost pid (dict_get d' "title" (VStr ""))
    (dict_get d' "originalContent" (VStr ""))
    (dict_get d' "keywords" (VList [])) (dict_get d' "focus" (VStr ""))
    text (from_option VList VNone secs) (utc_now_iso E k') = Some g ->
  d' !! "previousGeneration" = None ->
  exists out,
    generate_blog_post E pid d ctx (mkWorld st [] k tr) =
    (Ok out,
     mkWorld (<[(FIRESTORE_GENERATED_POSTS_COLLECTION E, pid) := g]> st)
             [] (S (S k'))
             (EvSet (FIRESTORE_GENERATED_POSTS_COLLECTION E) pid g
              :: EvProvider d' :: EvOrchestrate pid d :: tr)) /\
    status out = generated /\ generated_content out = text /\
    generated_post_id out = pid.
Proof.
  intros d' k' Ha Ht Hs Hg Hp.
  destruct (GeneratedPost_fields _ _ _ _ _ _ _ _ _ Hg) as (Htitle & Hoc & _).
  unfold generate_blog_post. mstep. rewrite run_ensure_title. mstep.
  fold d' k'. unfold generate_blog_post_body. mstep.
  rewrite Ha. mstep. rewrite Ht. mstep. rewrite Hs. mstep.
  rewrite Hg. cbn [of_option]. mstep.
  unfold with_previous_generation. rewrite Hp. mstep.
  unfold BlogGenerationOutput_validate.
  destruct (dict_get d' "title" (VStr "")); try done.
  destruct (dict_get d' "originalContent" (VStr "")); try done.
  eexists. split; [reflexivity|]. done.
Qed.

(** Once the title is a string, every failure of the body comes back as
    the error variant. *)
Lemma generate_blog_post_except_total d e w t :
  dict_get d "title" (VStr ("Error generating content for " +:+ pid))
    = VStr t ->
  exists out w',
    generate_blog_post_except E pid d e w = (Ok out, w') /\
    status out = error /\ error_message out = Some (exn_str e) /\
    generated_content out = "".
Proof.
  intros Ht. destruct w as [st fs k tr].
  unfold generate_blog_post_except. mstep.
  unfold BlogGenerationOutput_validate. rewrite Ht.
  eexists _, _. split; [reflexivity|]. done.
Qed.
End Orchestrator.

(** ** The handler as the sequence of its three blocks *)

Lemma process_message_rejected E md w e w1 :
  receive_message E md w = (Raise e, w1) ->
  process_message E md w = (Raise e, w1).
Proof. intros H. unfold process_message. by rewrite run_bind, H. Qed.

Lemma process_message_returns E md w m w1 p w2 :
  receive_message E md w = (Ok m, w1) ->
  admit_job E m w1 = (Ok (Return p), w2) ->
  process_message E md w = (Ok (Some p), w2).
Proof.
  intros H1 H2. unfold process_message.
  rewrite run_bind, H1. mred. by rewrite run_bind, H2.
Qed.

Lemma process_message_not_admitted E md w m w1 e w2 :
  receive_message E md w = (Ok m, w1) ->
  admit_job E m w1 = (Raise e, w2) ->
  process_message E md w = (Raise e, w2).
Proof.
  intros H1 H2. unfold process_message.
  rewrite run_bind, H1. mred. by rewrite run_bind, H2.
Qed.

Lemma process_message_continues E md w m w1 w2 :
  receive_message E md w = (Ok m, w1) ->
  admit_job E m w1 = (Ok Continue, w2) ->
  process_message E md w =
  try_except (generate_and_record E m) (on_failure E m) w2.
Proof.
  intros H1 H2. unfold process_message.
  rewrite run_bind, H1. mred. by rewrite run_bind, H2.
Qed.

(** The world that intake leaves when the store does not fail. *)
Lemma receive_message_world E md w m w1 :
  receive_message E md w = (Ok m, w1) ->
  faults w = [] ->
  exists tr1,
    w1 = mkWorld (store w) [] (ticks w) tr1 /\
    List.filter is_effect tr1 = effects w /\
    List.filter creates_job tr1 = creations w /\
    exists new, tr1 = new ++ trace w.
Proof.
  intros H Hf.
  destruct (receive_message_frame _ _ _ _ _ H) as (Hs & Hk & He & Hc & Hf1).
  specialize (Hf1 Hf). destruct w1 as [st1 fs1 k1 tr1].
  cbn [store faults ticks] in *. subst. exists tr1. repeat split; try done.
  revert H. unfold receive_message. rewrite !run_bind, !run_lift.
  destruct (decode_payload E md) as [payload|e]; [|done].
  rewrite !run_bind, !run_lift.
  destruct (BlogPostMessage_validate E payload) as [m0|]; [|done].
  cbn [of_option]. mred.
  destruct (String.eqb (action m0) "regenerate").
  - destruct w as [st fs k tr]. cbn [faults] in Hf. subst fs.
    mstep. destruct (found _); [|done]. intros [= _ <-]. by eexists [_].
  - intros [= _ H]. rewrite H. by exists [].
Qed.

(** ** Generation and its failure (lines 157-237) *)

(** The orchestrator does not look at the additional context. *)
Lemma generate_blog_post_context E pid d ctx ctx' :
  generate_blog_post E pid d ctx = generate_blog_post E pid d ctx'.
Proof. reflexivity. Qed.

Section Generation.
Context (E : Env) (m : BlogPostMessage).
Implicit Types (st : gmap (string * string) doc) (k : nat) (tr : list event).

Lemma extract_sections_none text :
  extract_sections E text = Ok None <->
  json_loads E text = Ok None \/
  (exists v, json_loads E text = Ok (Some v) /\
             forall d, v = VDict d -> d !! "sections" = None).
Proof.
  unfold extract_sections.
  destruct (json_loads E text) as [[v|]|e]; [|by intuition|].
  2: { split; [done|]. by intros [|(v & ? & _)]. }
  split.
  - intros H. right. exists v. split; [done|]. intros d ->.
    destruct (d !! "sections"); [|done].
    by destruct (sections_from E v).
  - intros [|(v' & [= <-] & Hv)]; [done|].
    destruct v; try done. by rewrite (Hv d).
Qed.

(** The run of lines 158-188 when generation and both writes succeed. *)
Lemma generate_and_record_completes st k tr at_time adapter text secs g r :
  let d' := fst (titled E (post_id m) (data m) k) in
  let k' := snd (titled E (post_id m) (data m) k) in
  let st' := <[(FIRESTORE_GENERATED_POSTS_COLLECTION E, post_id m) := g]> st in
  let done_payload :=
    completed_payload (utc_now_iso E (S (S k'))) (post_id m) text
      (sections_value secs) in
  fromtimestamp_iso E (timestamp m) = Some at_time ->
  get_ai_adapter E = Ok adapter ->
  adapter d' = Ok text ->
  extract_sections E text = Ok secs ->
  GeneratedPost (post_id m) (dict_get d' "title" (VStr ""))
    (dict_get d' "originalContent" (VStr ""))
    (dict_get d' "keywords" (VList [])) (dict_get d' "focus" (VStr ""))
    text (from_option VList VNone secs) (utc_now_iso E k') = Some g ->
  d' !! "previousGeneration" = None ->
  st' !! ("posts", post_id m) = Some r ->
  try_except (generate_and_record E m) (on_failure E m)
    (mkWorld st [] k tr) =
  (Ok None,
   mkWorld (<[("posts", post_id m) := done_payload ∪ r]> st') []
           (S (S (S k')))
           (EvUpdate "posts" (post_id m) done_payload
            :: EvSet (FIRESTORE_GENERATED_POSTS_COLLECTION E) (post_id m) g
            :: EvProvider d' :: EvOrchestrate (post_id m) (data m) :: tr)).
Proof.
  intros d' k' st' done_payload Hts Ha Ht Hs Hg Hp Hr.
  destruct (generate_blog_post_generated E (post_id m) (data m)
              (Some ("This post was " +:+ action m +:+ " at " +:+ at_time
                     +:+ "."))
              st k tr adapter text secs g Ha Ht Hs Hg Hp)
    as (out & Hout & Hst & Hgc & Hid).
  rewrite run_try. unfold generate_and_record.
  rewrite run_bind, run_lift, Hts. cbn [of_option]. mred.
  rewrite run_bind, Hout. mred. rewrite run_bind, run_lift, Hgc, Hs. mred.
  rewrite Hst, Hid. mstep.
  rewrite (run_update _ _ _ _ r) by done. mstep.
  unfold done_payload, completed_payload, sections_value.
  by destruct secs as [[|s ss]|].
Qed.

Lemma on_failure_exceeded e st k tr r rc mr :
  st !! ("posts", post_id m) = Some r ->
  r !! "retry_count" = Some (VInt rc) ->
  r !! "max_retries" = Some (VInt mr) ->
  mr <= rc ->
  on_failure E m e (mkWorld st [] k tr) =
  (Ok (Some (post_id m)),
   mkWorld (<[("posts", post_id m) :=
                failed_payload (utc_now_iso E k) rc mr (exn_str e) ∪ r]> st)
           [] (S k)
           (EvUpdate "posts" (post_id m)
              (failed_payload (utc_now_iso E k) rc mr (exn_str e))
            :: EvGet "posts" (post_id m) :: tr)).
Proof.
  intros Hr Hrc Hmr Hle. unfold on_failure. mstep.
  rewrite Hr, (found_lookup _ _ _ Hrc). unfold dict_get. rewrite Hrc, Hmr.
  cbn [default from_option id py_ge py_lt as_number].
  destruct (Z.leb_spec mr rc) as [_|]; [|lia].
  destruct (Z.ltb_spec rc mr) as [|_]; [lia|].
  mstep. rewrite (run_update _ _ _ _ r) by done. by mstep.
Qed.

Lemma on_failure_retry e st k tr r rc mr :
  st !! ("posts", post_id m) = Some r ->
  r !! "retry_count" = Some (VInt rc) ->
  r !! "max_retries" = Some (VInt mr) ->
  rc < mr ->
  on_failure E m e (mkWorld st [] k tr) =
  (Raise e,
   mkWorld (<[("posts", post_id m) :=
                error_payload (utc_now_iso E k) rc (exn_str e) ∪ r]> st)
           [] (S k)
           (EvUpdate "posts" (post_id m)
              (error_payload (utc_now_iso E k) rc (exn_str e))
            :: EvGet "posts" (post_id m) :: tr)).
Proof.
  intros Hr Hrc Hmr Hlt. unfold on_failure. mstep.
  rewrite Hr, (found_lookup _ _ _ Hrc). unfold dict_get. rewrite Hrc, Hmr.
  cbn [default from_option id py_ge py_lt as_number].
  destruct (Z.leb_spec mr rc) as [|_]; [lia|].
  destruct (Z.ltb_spec rc mr) as [_|]; [|lia].
  mstep. rewrite (run_update _ _ _ _ r) by done. by mstep.
Qed.

(** Lines 165-198 once the orchestrator has returned the error variant:
    the error is recorded and raised. *)
Lemma generate_and_record_error w2 at_time ctx out st3 k3 tr3 secs r :
  let msg := error_or_unknown (error_message out) in
  fromtimestamp_iso E (timestamp m) = Some at_time ->
  generate_blog_post E (post_id m) (data m) ctx w2 =
    (Ok out, mkWorld st3 [] k3 tr3) ->
  status out = error ->
  extract_sections E (generated_content out) = Ok secs ->
  st3 !! ("posts", post_id m) = Some r ->
  generate_and_record E m w2 =
  (Raise (Exn PlainException msg),
   mkWorld (<[("posts", post_id m) :=
                generation_error_payload (utc_now_iso E k3) msg ∪ r]> st3)
           [] (S k3)
           (EvUpdate "posts" (post_id m)
              (generation_error_payload (utc_now_iso E k3) msg) :: tr3)).
Proof.
  intros msg Hts Hout Hst Hs Hr. unfold generate_and_record.
  rewrite run_bind, run_lift, Hts. cbn [of_option]. mred.
  rewrite run_bind, (generate_blog_post_context _ _ _ _ ctx), Hout. mred.
  rewrite run_bind, run_lift, Hs. mred.
  rewrite Hst. mstep. rewrite (run_update _ _ _ _ r) by done. by mstep.
Qed.

(** Lines 165-188 when the orchestrator succeeded and the final update
    fails. *)
Lemma generate_and_record_persist_fails w2 at_time ctx out st3 fs k3 tr3
    secs :
  fromtimestamp_iso E (timestamp m) = Some at_time ->
  generate_blog_post E (post_id m) (data m) ctx w2 =
    (Ok out, mkWorld st3 (true :: fs) k3 tr3) ->
  status out = generated ->
  extract_sections E (generated_content out) = Ok secs ->
  generate_and_record E m w2 =
  (Raise (Exn StoreError (describe E StoreError)),
   mkWorld st3 fs (S k3) tr3).
Proof.
  intros Hts Hout Hst Hs. unfold generate_and_record.
  rewrite run_bind, run_lift, Hts. cbn [of_option]. mred.
  rewrite run_bind, (generate_blog_post_context _ _ _ _ ctx), Hout. mred.
  rewrite run_bind, run_lift, Hs. mred.
  rewrite Hst. mstep. by rewrite run_update_fault.
Qed.
End Generation.

(** ** Admission stays away from the orchestrator *)

#[global] Instance quiet_refl : Reflexive quiet.
Proof.
  intros w. exists []. split; [done|]. intros p d. apply not_elem_of_nil.
Qed.

#[global] Instance quiet_trans : Transitive quiet.
Proof.
  intros a b c (n1 & H1 & Hn1) (n2 & H2 & Hn2). exists (n2 ++ n1). split.
  - by rewrite H2, H1, app_assoc.
  - intros p d. rewrite elem_of_app. intros [H|H];
      [by eapply Hn2 | by eapply Hn1].
Qed.

Lemma quiet_event ev w :
  is_generation ev = false ->
  quiet w (mkWorld (store w) (faults w) (ticks w) (ev :: trace w)).
Proof.
  intros Hev. exists [ev]. split; [done|]. intros p d.
  rewrite list_elem_of_singleton. intros <-. discriminate Hev.
Qed.

Lemma quiet_store_call E : respects quiet (store_call E).
Proof.
  intros [st fs k tr] r w'. unfold store_call. cbn [faults].
  destruct fs as [|[] fs]; intros [= <- <-];
    (exists []; split; [done | intros p d; apply not_elem_of_nil]).
Qed.

Lemma quiet_get E c i : respects quiet (get_document E c i).
Proof.
  apply respects_bind; [apply quiet_store_call|].
  intros _ w r w' [= <- <-]. by apply quiet_event.
Qed.

Lemma quiet_update E c i d : respects quiet (update_document E c i d).
Proof.
  apply respects_bind; [apply quiet_store_call|].
  intros _ w r w'. mred. destruct (store w !! (c, i)).
  - intros [= <- <-]. exists [EvUpdate c i d]. split; [done|].
    intros p d'. rewrite list_elem_of_singleton. discriminate.
  - intros [= <- <-]. reflexivity.
Qed.

Lemma quiet_save E c i d : respects quiet (save_document E c i d).
Proof.
  apply respects_bind; [apply quiet_store_call|].
  intros _ w r w' [= <- <-]. exists [EvSet c i d]. split; [done|].
  intros p d'. rewrite list_elem_of_singleton. discriminate.
Qed.

Lemma quiet_now E : respects quiet (utc_now E).
Proof.
  intros w r w' [= <- <-].
  exists []. split; [done | intros p d; apply not_elem_of_nil].
Qed.

Lemma admit_job_quiet E m : respects quiet (admit_job E m).
Proof.
  unfold admit_job.
  repeat first
    [ apply respects_ret | apply respects_raise | apply respects_lift
    | apply quiet_now | apply quiet_get | apply quiet_update
    | apply quiet_save
    | apply respects_bind; [|intros ?]
    | match goal with
      | |- respects _ (if ?b then _ else _) => destruct b
      | |- respects _ (match ?x with _ => _ end) => destruct x
      end ].
Qed.

(** ** What a run leaves in the trace *)

Lemma evolves_keeps_event E pid b w w' ev :
  evolves E pid b w w' -> ev ∈ trace w -> ev ∈ trace w'.
Proof.
  intros ((new & -> & _) & _) H. rewrite elem_of_app. by right.
Qed.

Lemma allowed_no_creation E pid b new :
  FIRESTORE_GENERATED_POSTS_COLLECTION E <> "posts" ->
  Forall (allowed E pid b) new -> List.filter creates_job new = [].
Proof.
  intros Hne. induction 1 as [|ev new Hev _ IH]; [done|].
  cbn [List.filter]. rewrite IH. destruct ev as [| c i d | | |]; try done.
  cbn [creates_job]. destruct Hev as [-> _].
  by destruct (String.eqb_spec (FIRESTORE_GENERATED_POSTS_COLLECTION E) "posts").
Qed.

(** A computation after which [P] holds, whatever its outcome. *)
Lemma establishes_bind {A B} (P : World -> Prop) (m : M A) (f : A -> M B) :
  (forall w r w', m w = (r, w') -> P w') ->
  (forall a w r w', f a w = (r, w') -> P w -> P w') ->
  forall w r w', bind m f w = (r, w') -> P w'.
Proof.
  intros Hm Hf w r w'. rewrite run_bind.
  destruct (m w) as [[a|e] w1] eqn:Hw.
  - intros H. eapply Hf; [done|]. by eapply Hm.
  - intros [= <- <-]. by eapply Hm.
Qed.

Lemma establishes_try {A} (P : World -> Prop) (m : M A) (h : exn -> M A) :
  (forall w r w', m w = (r, w') -> P w') ->
  (forall e w r w', h e w = (r, w') -> P w -> P w') ->
  forall w r w', try_except m h w = (r, w') -> P w'.
Proof.
  intros Hm Hh w r w'. rewrite run_try.
  destruct (m w) as [[a|e] w1] eqn:Hw.
  - intros [= <- <-]. by eapply Hm.
  - intros H. eapply Hh; [done|]. by eapply Hm.
Qed.

Lemma establishes_emit ev w r w' : emit ev w = (r, w') -> ev ∈ trace w'.
Proof. intros [= <- <-]. cbn [log trace]. apply elem_of_cons. by left. Qed.

Lemma respects_keeps {A} E pid b (f : M A) ev :
  respects (evolves E pid b) f ->
  forall w r w', f w = (r, w') -> ev ∈ trace w -> ev ∈ trace w'.
Proof. intros Hf w r w' H. eapply evolves_keeps_event. by eapply Hf. Qed.

(** Once the time stamp of the message converts, the generation block
    reaches the orchestrator with the brief of the message. *)
Lemma generation_block_orchestrates E m at_time :
  fromtimestamp_iso E (timestamp m) = Some at_time ->
  forall w r w',
    try_except (generate_and_record E m) (on_failure E m) w = (r, w') ->
    EvOrchestrate (post_id m) (data m) ∈ trace w'.
Proof.
  intros Hts. apply establishes_try.
  - intros w r w'. unfold generate_and_record.
    rewrite run_bind, run_lift, Hts. cbn [of_option]. mred.
    revert w r w'. apply establishes_bind.
    + unfold generate_blog_post. apply establishes_bind.
      * apply establishes_emit.
      * intros _. apply (respects_keeps E (post_id m) (data m)).
        unfold ensure_title, generate_blog_post_body,
          generate_blog_post_except.
        evolve.
    + intros out. apply (respects_keeps E (post_id m) (data m)). evolve.
  - intros e. apply (respects_keeps E (post_id m) (data m)).
    apply evolves_on_failure.
Qed.

(** Admission leaves a job record behind whenever it lets the message
    through. *)
Lemma admit_job_leaves_record E m w w2 :
  admit_job E m w = (Ok Continue, w2) ->
  is_Some (store w2 !! ("posts", post_id m)).
Proof.
  unfold admit_job. rewrite run_bind.
  destruct (get_document E "posts" (post_id m) w) as [[o|e] wa]; [|done].
  destruct (found o) as [r|].
  - destruct (str_is _ _); [done|].
    rewrite run_bind, run_lift. destruct (py_ge E _ _) as [[]|]; [| |done].
    + rewrite run_bind. destruct (utc_now E wa) as [[now|] wb]; [|done].
      rewrite run_bind. by destruct (update_document _ _ _ _ wb) as [[]]. 
    + rewrite run_bind, run_lift. destruct (py_incr E _); [|done]. mred.
      rewrite run_bind. destruct (utc_now E wa) as [[now|] wb]; [|done].
      rewrite run_bind. unfold update_document at 1. rewrite run_bind.
      destruct (store_call E wb) as [[[]|] wc]; [|done]. mred.
      destruct (store wc !! ("posts", post_id m)) as [old|]; [|done].
      rewrite run_ret. intros [= <-]. cbn [store].
      rewrite lookup_insert_eq. eauto.
  - rewrite run_bind. destruct (utc_now E wa) as [[now|] wb]; [|done].
    rewrite run_bind, run_lift. destruct (of_option _ _ _); [|done]. mred.
    rewrite run_bind. unfold save_document at 1. rewrite run_bind.
    destruct (store_call E wb) as [[[]|] wc]; [|done]. mred.
    rewrite run_ret. intros [= <-]. cbn [store].
    rewrite lookup_insert_eq. eauto.
Qed.

(** * The claims *)

Lemma lookup_payload (p r : doc) k v :
  p !! k = Some v -> (p ∪ r) !! k = Some v.
Proof. intros H. by apply lookup_union_Some_l. Qed.

(** ** Terminal records *)

(** C2 (as stated, refuted).  With a collection of its own for the original
    posts, a regeneration message for a post whose job record is
    failed_permanently raises, because the original post is looked up, and
    missed, before the job record is read. *)
Lemma terminal_regenerate_counterexample :
  (store (world_with (stored_job "failed_permanently" 3 3) [])
     !! ("posts", "p1")) ≫= (fun r => r !! "status")
  = Some (VStr "failed_permanently") /\
  decode_payload separate_env (envelope regenerate_b64)
  = Ok regenerate_payload /\
  fst (process_message separate_env (envelope regenerate_b64)
         (world_with (stored_job "failed_permanently" 3 3) []))
  = Raise (Exn ValueError "Original post not found for regeneration: p1").
Proof. split_and!; vm_compute; reflexivity. Qed.

(** C2 (amended).  For every valid message whose post has a job record with
    status failed_permanently and, when the action is regenerate, whose
    original post is found, the handler returns the post id without raising,
    leaves the store as it was and neither writes nor reaches the
    orchestrator or the provider, whatever the action. *)
Theorem failed_permanently_is_terminal E md w payload m r :
  faults w = [] ->
  decode_payload E md = Ok payload ->
  BlogPostMessage_validate E payload = Some m ->
  original_found E w m ->
  store w !! ("posts", post_id m) = Some r ->
  r !! "status" = Some (VStr "failed_permanently") ->
  exists w',
    process_message E md w = (Ok (Some (post_id m)), w') /\
    store w' = store w /\
    effects w' = effects w.
Proof.
  intros Hf Hd Hv Ho Hr Hst.
  destruct (receive_message_accepts E md w payload m Hf Hd Hv Ho)
    as (m' & w1 & Hrecv & Hp & _).
  destruct (receive_message_world _ _ _ _ _ Hrecv Hf)
    as (tr1 & -> & He1 & _).
  rewrite <- Hp in Hr |- *.
  eexists. split.
  - eapply process_message_returns; [done|]. by eapply admit_terminal.
  - split; [done|]. unfold effects at 1. cbn [trace List.filter is_effect].
    done.
Qed.

Lemma failed_permanently_is_terminal_witness :
  exists w',
    process_message default_env (envelope regenerate_b64)
      (world_with (stored_job "failed_permanently" 3 3) [])
    = (Ok (Some "p1"), w') /\
    store w' = store (world_with (stored_job "failed_permanently" 3 3) []) /\
    effects w' = [].
Proof.
  destruct (failed_permanently_is_terminal default_env
              (envelope regenerate_b64)
              (world_with (stored_job "failed_permanently" 3 3) [])
              regenerate_payload
              {| post_id := "p1"; action := "regenerate";
                 timestamp := 1700000000000;
                 data := default ∅ (BlogPostData
                           (VDict (dict [("id", VStr "p1");
                                         ("title", VStr "New");
                                         ("feedback", VStr "shorter")]))) |}
              (stored_job "failed_permanently" 3 3))
    as (w' & H1 & H2 & H3).
  - reflexivity.
  - vm_compute; reflexivity.
  - vm_compute; reflexivity.
  - intros _. exists (stored_job "failed_permanently" 3 3).
    split; vm_compute; reflexivity.
  - vm_compute; reflexivity.
  - vm_compute; reflexivity.
  - exists w'. auto.
Defined.

(** ** The retry ceiling *)

(** C3 (as stated, refuted).  With a collection of its own for the original
    posts, a regeneration message for a post whose job record is at the
    ceiling raises, because the original post is looked up, and missed,
    before the job record is read: the record keeps its status. *)
Lemma ceiling_regenerate_counterexample :
  (store (world_with (stored_job "error" 3 3) [])
     !! ("posts", "p1")) ≫= (fun r => r !! "status")
  = Some (VStr "error") /\
  (store (world_with (stored_job "error" 3 3) [])
     !! ("posts", "p1")) ≫= (fun r => r !! "retry_count")
  = Some (VInt 3) /\
  (store (world_with (stored_job "error" 3 3) [])
     !! ("posts", "p1")) ≫= (fun r => r !! "max_retries")
  = Some (VInt 3) /\
  decode_payload separate_env (envelope regenerate_b64)
  = Ok regenerate_payload /\
  fst (process_message separate_env (envelope regenerate_b64)
         (world_with (stored_job "error" 3 3) []))
  = Raise (Exn ValueError "Original post not found for regeneration: p1") /\
  (store (snd (process_message separate_env (envelope regenerate_b64)
                 (world_with (stored_job "error" 3 3) [])))
     !! ("posts", "p1")) ≫= (fun r => r !! "status")
  = Some (VStr "error").
Proof. split_and!; vm_compute; reflexivity. Qed.

(** C3 (amended).  For every valid message whose post has a job record with
    a status other than failed_permanently and retryCount >= maxRetries and,
    when the action is regenerate, whose original post is found, the handler
    updates the record to failed_permanently with errorAt set to the current
    time and error 'Exceeded maximum retry attempts (N)', N = maxRetries,
    returns the post id, and performs no other write nor any generation. *)
Theorem retry_ceiling_gives_up E md w payload m r s rc mr :
  faults w = [] ->
  decode_payload E md = Ok payload ->
  BlogPostMessage_validate E payload = Some m ->
  original_found E w m ->
  store w !! ("posts", post_id m) = Some r ->
  job_record r s rc mr ->
  s <> "failed_permanently" ->
  mr <= rc ->
  exists w' job,
    process_message E md w = (Ok (Some (post_id m)), w') /\
    store w' = <[("posts", post_id m) := job]> (store w) /\
    job = exceeded_payload (utc_now_iso E (ticks w)) rc mr ∪ r /\
    job !! "status" = Some (VStr "failed_permanently") /\
    job !! "errorAt" = Some (VStr (utc_now_iso E (ticks w))) /\
    job !! "error"
      = Some (VStr ("Exceeded maximum retry attempts (" +:+ pretty mr
                    +:+ ")")) /\
    effects w'
      = EvUpdate "posts" (post_id m)
          (exceeded_payload (utc_now_iso E (ticks w)) rc mr) :: effects w.
Proof.
  intros Hf Hd Hv Ho Hr Hjob Hne Hle.
  destruct (receive_message_accepts E md w payload m Hf Hd Hv Ho)
    as (m' & w1 & Hrecv & Hp & _).
  destruct (receive_message_world _ _ _ _ _ Hrecv Hf)
    as (tr1 & -> & He1 & _).
  rewrite <- Hp in Hr |- *.
  eexists _, _. split.
  - eapply process_message_returns; [done|]. by eapply admit_exceeded.
  - cbn [store]. split; [done|]. split; [done|].
    split_and!; try by apply lookup_payload.
    unfold effects at 1. cbn [trace List.filter is_effect]. by rewrite He1.
Qed.

Lemma retry_ceiling_gives_up_witness :
  exists w' job,
    process_message default_env (envelope regenerate_b64)
      (world_with (stored_job "error" 3 3) [])
    = (Ok (Some "p1"), w') /\
    store w' !! ("posts", "p1") = Some job /\
    job !! "status" = Some (VStr "failed_permanently") /\
    job !! "error" = Some (VStr "Exceeded maximum retry attempts (3)").
Proof.
  destruct (retry_ceiling_gives_up default_env (envelope regenerate_b64)
              (world_with (stored_job "error" 3 3) [])
              regenerate_payload
              {| post_id := "p1"; action := "regenerate";
                 timestamp := 1700000000000;
                 data := default ∅ (BlogPostData
                           (VDict (dict [("id", VStr "p1");
                                         ("title", VStr "New");
                                         ("feedback", VStr "shorter")]))) |}
              (stored_job "error" 3 3) "error" 3 3)
    as (w' & job & H1 & H2 & _ & H3 & _ & H4 & _).
  - reflexivity.
  - vm_compute; reflexivity.
  - vm_compute; reflexivity.
  - intros _. exists (stored_job "error" 3 3).
    split; vm_compute; reflexivity.
  - vm_compute; reflexivity.
  - split_and!; vm_compute; reflexivity.
  - discriminate.
  - lia.
  - exists w', job. split; [exact H1|]. split; [|split; [exact H3|exact H4]].
    rewrite H2. apply lookup_insert_eq.
Defined.

(** ** Validation *)

(** C10.  A message whose brief has no string [id] is rejected by
    validation, whatever its other fields, and the error reaches the
    caller with nothing read or written. *)
Theorem brief_without_id_is_rejected E md w p d :
  decode_payload E md = Ok (VDict p) ->
  p !! "data" = Some (VDict d) ->
  (forall s, d !! "id" <> Some (VStr s)) ->
  process_message E md w =
  (Raise (Exn ValidationError (describe E ValidationError)), w).
Proof.
  intros Hd Hp Hid. apply process_message_rejected.
  eapply receive_message_rejects; [done|]. apply malformed_rejected.
  cbn [malformed]. do 3 right. rewrite Hp. cbn.
  by apply BlogPostData_needs_id.
Qed.

Lemma brief_without_id_is_rejected_witness :
  process_message default_env (envelope noid_b64) empty_world =
  (Raise (Exn ValidationError "validation error"), empty_world).
Proof.
  apply (brief_without_id_is_rejected default_env (envelope noid_b64)
           empty_world
           (dict [("postId", VStr "p1"); ("action", VStr "created");
                  ("timestamp", VInt 1700000000000);
                  ("data", VDict (dict [("title", VStr "Hello");
                                        ("keywords", VList [VStr "a"; VStr "b"]);
                                        ("focus", VStr "f")]))])
           (dict [("title", VStr "Hello");
                  ("keywords", VList [VStr "a"; VStr "b"]);
                  ("focus", VStr "f")])).
  - vm_compute; reflexivity.
  - vm_compute; reflexivity.
  - intros s H. vm_compute in H. discriminate H.
Defined.

(** C9 (as stated, refuted).  The action "publish" is none of the four
    values, and yet, when the post already has a job record, the message is
    processed to completion. *)
Lemma unknown_action_counterexample :
  decode_payload default_env (envelope publish_b64) = Ok publish_payload /\
  is_action "publish" = false /\
  fst (process_message default_env (envelope publish_b64)
         (world_with (stored_job "error" 0 3) [])) = Ok None /\
  (store (snd (process_message default_env (envelope publish_b64)
                 (world_with (stored_job "error" 0 3) [])))
     !! ("posts", "p1")) ≫= (fun r => r !! "status")
  = Some (VStr "completed").
Proof. split_and!; vm_compute; reflexivity. Qed.

(** C9 (amended).  A payload in which postId (a string), action (a string),
    timestamp (an integer) or data (a brief) is missing or mistyped is
    rejected with a validation error that reaches the caller.  A message
    whose action is a string outside the four values passes this
    validation; it is rejected, with a validation error that reaches the
    caller and nothing written, when its post has no job record: the action
    is checked where the job record is created. *)
Theorem invalid_message_is_rejected E md w payload :
  decode_payload E md = Ok payload ->
  (malformed E payload ->
   process_message E md w =
   (Raise (Exn ValidationError (describe E ValidationError)), w)) /\
  (forall m,
     BlogPostMessage_validate E payload = Some m ->
     is_action (action m) = false ->
     faults w = [] ->
     found (store w !! ("posts", post_id m)) = None ->
     exists w',
       process_message E md w =
       (Raise (Exn ValidationError (describe E ValidationError)), w') /\
       store w' = store w /\ effects w' = effects w).
Proof.
  intros Hd. split.
  - intros Hm. apply process_message_rejected.
    eapply receive_message_rejects; [done|]. by apply malformed_rejected.
  - intros m Hv Ha Hf Hr.
    assert (Hne : action m <> "regenerate").
    { intros Heq. rewrite Heq in Ha. discriminate Ha. }
    pose proof (receive_message_plain E md w payload m Hd Hv Hne) as Hrecv.
    destruct w as [st fs k tr]. cbn [faults store] in *. subst fs.
    eexists. split.
    + eapply process_message_not_admitted; [done|].
      by apply admit_create_invalid.
    + done.
Qed.

Lemma invalid_message_is_rejected_witness :
  process_message default_env (envelope noid_b64) empty_world =
  (Raise (Exn ValidationError "validation error"), empty_world) /\
  exists w',
    process_message default_env (envelope publish_b64) empty_world =
    (Raise (Exn ValidationError "validation error"), w') /\
    store w' = ∅.
Proof.
  split.
  - apply (invalid_message_is_rejected default_env (envelope noid_b64)
             empty_world noid_payload).
    + vm_compute; reflexivity.
    + do 3 right. vm_compute; reflexivity.
  - destruct (invalid_message_is_rejected default_env (envelope publish_b64)
                empty_world publish_payload) as [_ H].
    + vm_compute; reflexivity.
    + destruct (H {| post_id := "p1"; action := "publish";
                     timestamp := 1700000000000;
                     data := default ∅ (BlogPostData
                               (VDict (dict [("id", VStr "p1");
                                             ("title", VStr "Hello")]))) |})
        as (w' & H1 & H2 & _).
      * vm_compute; reflexivity.
      * reflexivity.
      * reflexivity.
      * vm_compute; reflexivity.
      * exists w'. split; [exact H1 | exact H2].
Defined.

(** ** Regeneration *)

(** C4 (as stated, refuted).  The incoming brief has the title "New"; the
    original post has the title "T"; the brief handed to the orchestrator
    has the title "T": the supplied title is not kept. *)
Lemma regeneration_merge_counterexample :
  BlogPostMessage_validate separate_env regenerate_payload
    ≫= (fun m => data m !! "title") = Some (VStr "New") /\
  store source_world !! ("source_posts", "p1")
    ≫= (fun o => o !! "title") = Some (VStr "T") /\
  (fun d : doc => d !! "title")
    <$> briefs (snd (process_message separate_env (envelope regenerate_b64)
                       source_world))
  = [Some (VStr "T")].
Proof. split_and!; vm_compute; reflexivity. Qed.

(** C4 (amended).  For every regeneration message whose original post is
    found, each of title, content, keywords and focus of the brief used from
    then on is the original post's value when the original post has that
    field, and the incoming value only when it has not; every other field
    of the incoming brief, feedback among them, is kept unchanged. *)
Theorem regeneration_takes_original E md w payload m0 original_post :
  faults w = [] ->
  decode_payload E md = Ok payload ->
  BlogPostMessage_validate E payload = Some m0 ->
  action m0 = "regenerate" ->
  store w !! (FIRESTORE_POSTS_COLLECTION E, post_id m0) = Some original_post ->
  doc_truthy original_post = true ->
  exists m w1,
    receive_message E md w = (Ok m, w1) /\
    post_id m = post_id m0 /\
    (forall k, k ∈ merged_fields ->
       data m !! k
       = Some (default (dict_get (data m0) k VNone) (original_post !! k))) /\
    (forall k, k ∉ merged_fields -> data m !! k = data m0 !! k) /\
    (forall res w',
       process_message E md w = (res, w') ->
       exists new, trace w' = new ++ trace w /\
                   forall p d, EvOrchestrate p d ∈ new -> d = data m).
Proof.
  intros Hf Hd Hv Ha Ho Ht. destruct w as [st fs k tr].
  cbn [faults store] in *. subst fs.
  pose proof (receive_message_regenerate E md st k tr payload m0
                original_post Hd Hv Ha Ho Ht) as Hrecv.
  eexists _, _. split; [exact Hrecv|]. cbn [post_id data].
  split; [done|]. split; [|split].
  - intros key Hk. by rewrite merge_original_field.
  - intros key Hk. by apply merge_original_other.
  - intros res w'. cbn [trace].
    set (m := {| post_id := post_id m0; action := action m0;
                 timestamp := timestamp m0;
                 data := merge_original original_post (data m0) |}) in *.
    unfold process_message. rewrite run_bind, Hrecv. mred.
    rewrite run_bind.
    destruct (admit_job E m _) as [[[p|]|e] w2] eqn:Hadm; mred.
    + rewrite run_ret. intros [= <- <-].
      destruct (admit_job_quiet _ _ _ _ _ Hadm) as (new & Hn & Hnew).
      cbn [trace] in Hn. exists (new ++ [EvGet (FIRESTORE_POSTS_COLLECTION E)
                                            (post_id m0)]).
      split; [by rewrite Hn, <- app_assoc|].
      intros p' d. rewrite elem_of_app, list_elem_of_singleton.
      intros [Hin|[=]]. by destruct (Hnew _ _ Hin).
    + intros Hblock.
      destruct (admit_job_quiet _ _ _ _ _ Hadm) as (new & Hn & Hnew).
      destruct (generation_block_evolves E m _ _ _ Hblock)
        as ((new' & Hn' & Hall) & _).
      cbn [trace] in Hn.
      exists (new' ++ new ++ [EvGet (FIRESTORE_POSTS_COLLECTION E)
                                 (post_id m0)]).
      split; [by rewrite Hn', Hn, <- !app_assoc|].
      intros p' d. rewrite !elem_of_app, list_elem_of_singleton.
      intros [Hin|[Hin|[=]]].
      * rewrite Forall_forall in Hall. by destruct (Hall _ Hin).
      * by destruct (Hnew _ _ Hin).
    + intros [= <- <-].
      destruct (admit_job_quiet _ _ _ _ _ Hadm) as (new & Hn & Hnew).
      cbn [trace] in Hn. exists (new ++ [EvGet (FIRESTORE_POSTS_COLLECTION E)
                                            (post_id m0)]).
      split; [by rewrite Hn, <- app_assoc|].
      intros p' d. rewrite elem_of_app, list_elem_of_singleton.
      intros [Hin|[=]]. by destruct (Hnew _ _ Hin).
Qed.

Lemma regeneration_takes_original_witness :
  exists m w1,
    receive_message separate_env (envelope regenerate_b64) source_world
    = (Ok m, w1) /\
    data m !! "title" = Some (VStr "T") /\
    data m !! "content" = Some (VStr "C") /\
    data m !! "feedback" = Some (VStr "shorter").
Proof.
  pose proof (regeneration_takes_original separate_env
                (envelope regenerate_b64) source_world regenerate_payload
                {| post_id := "p1"; action := "regenerate";
                   timestamp := 1700000000000;
                   data := default ∅ (BlogPostData
                             (VDict (dict [("id", VStr "p1");
                                           ("title", VStr "New");
                                           ("feedback", VStr "shorter")]))) |}
                (dict [("title", VStr "T"); ("content", VStr "C")])) as H.
  assert (H1 : faults source_world = []) by reflexivity.
  specialize (H H1).
  assert (H2 : decode_payload separate_env (envelope regenerate_b64)
               = Ok regenerate_payload) by (vm_compute; reflexivity).
  specialize (H H2).
  lapply H; [clear H; intros H | vm_compute; reflexivity].
  specialize (H eq_refl).
  lapply H; [clear H; intros H | vm_compute; reflexivity].
  lapply H; [clear H; intros H | vm_compute; reflexivity].
  destruct H as (m & w1 & H & _ & Hm & Ho & _).
  exists m, w1. split; [exact H|]. split; [|split].
  - rewrite (Hm "title") by (unfold merged_fields; rewrite !elem_of_cons; auto).
    vm_compute; reflexivity.
  - rewrite (Hm "content")
      by (unfold merged_fields; rewrite !elem_of_cons; auto).
    vm_compute; reflexivity.
  - rewrite (Ho "feedback").
    + vm_compute; reflexivity.
    + unfold merged_fields. rewrite !not_elem_of_cons.
      split_and!; try apply not_elem_of_nil; intros Hk; discriminate Hk.
Defined.

(** ** First delivery *)

(** C5 (as stated, refuted).  Under the default configuration a valid
    regeneration message for a post without a job record creates no job
    record: the original post is looked for in the very collection of the
    job records, is not there, and the handler raises. *)
Lemma first_delivery_counterexample :
  decode_payload default_env (envelope regenerate_b64)
  = Ok regenerate_payload /\
  is_Some (BlogPostMessage_validate default_env regenerate_payload) /\
  is_action "regenerate" = true /\
  store empty_world !! ("posts", "p1") = None /\
  fst (process_message default_env (envelope regenerate_b64) empty_world)
  = Raise (Exn ValueError "Original post not found for regeneration: p1") /\
  store (snd (process_message default_env (envelope regenerate_b64)
                empty_world)) = ∅.
Proof.
  split_and!; try (vm_compute; reflexivity).
  vm_compute. eauto.
Qed.

(** C5 (amended).  For every message that passes intake (for a
    regeneration this requires the original post to be found), whose action
    is one of the four values and whose post has no job record: the handler
    stores, under the post id, a job record with status processing,
    retry_count 0, max_retries 3 and processedAt the current time; it is
    the only job record created by the invocation, which leaves the job
    records of the other posts alone; and when this first write fails, the
    failure reaches the caller with nothing written. *)
Theorem first_delivery_creates_job E md w m w1 :
  receive_message E md w = (Ok m, w1) ->
  is_action (action m) = true ->
  found (store w !! ("posts", post_id m)) = None ->
  exists job,
    ProcessedBlogPost (post_id m) (action m) (timestamp m) (data m)
      (utc_now_iso E (ticks w)) = Some job /\
    job !! "status" = Some (VStr "processing") /\
    job !! "retry_count" = Some (VInt 0) /\
    job !! "max_retries" = Some (VInt 3) /\
    job !! "processedAt" = Some (VStr (utc_now_iso E (ticks w))) /\
    (faults w = [] ->
     FIRESTORE_GENERATED_POSTS_COLLECTION E <> "posts" ->
     forall res w',
       process_message E md w = (res, w') ->
       creations w' = EvSet "posts" (post_id m) job :: creations w /\
       is_Some (store w' !! ("posts", post_id m)) /\
       forall id, id <> post_id m ->
                  store w' !! ("posts", id) = store w !! ("posts", id)) /\
    (forall fs,
       faults w1 = false :: true :: fs ->
       exists w',
         process_message E md w =
         (Raise (Exn StoreError (describe E StoreError)), w') /\
         store w' = store w /\ effects w' = effects w).
Proof.
  intros Hrecv Ha Hr.
  destruct (ProcessedBlogPost (post_id m) (action m) (timestamp m) (data m)
              (utc_now_iso E (ticks w))) as [job|] eqn:Hjob;
    [|unfold ProcessedBlogPost in Hjob; by rewrite Ha in Hjob].
  destruct (ProcessedBlogPost_fields _ _ _ _ _ _ Hjob)
    as (_ & _ & Hst & Hrc & Hmr & Hat).
  exists job. split_and!; try done.
  - intros Hf Hgen res w' Hrun.
    destruct (receive_message_world _ _ _ _ _ Hrecv Hf)
      as (tr1 & -> & _ & Hc1 & _).
    pose proof (admit_create E m (store w) (ticks w) tr1 job Hr Hjob) as Hadm.
    rewrite (process_message_continues _ _ _ _ _ _ Hrecv Hadm) in Hrun.
    destruct (generation_block_evolves E m _ _ _ Hrun)
      as ((new & Hn & Hall) & Hframe & Hsome).
    cbn [trace store] in *. split_and!.
    + unfold creations. rewrite Hn, List.filter_app.
      rewrite (allowed_no_creation _ _ _ _ Hgen Hall).
      cbn [app List.filter creates_job String.eqb Ascii.eqb Bool.eqb].
      by rewrite Hc1.
    + apply Hsome. rewrite lookup_insert_eq. eauto.
    + intros id Hid. rewrite Hframe by congruence.
      rewrite lookup_insert_ne by congruence. done.
  - intros fs Hfs.
    destruct (receive_message_frame _ _ _ _ _ Hrecv) as (Hs & Hk & He & _).
    destruct w1 as [st1 fs1 k1 tr1]. cbn [store faults ticks] in *. subst.
    eexists. split.
    + eapply process_message_not_admitted; [done|].
      by eapply admit_create_fault.
    + split; [done|]. rewrite <- He. done.
Qed.

Lemma first_delivery_creates_job_witness :
  (forall res w',
     process_message default_env (envelope created_b64) empty_world
     = (res, w') ->
     exists job,
       creations w' = [EvSet "posts" "p1" job] /\
       job !! "status" = Some (VStr "processing") /\
       job !! "retry_count" = Some (VInt 0) /\
       is_Some (store w' !! ("posts", "p1"))) /\
  (exists w',
     process_message default_env (envelope created_b64)
       (mkWorld ∅ [false; true] 0 [])
     = (Raise (Exn StoreError "503 service unavailable"), w') /\
     store w' = ∅).
Proof.
  split.
  - pose proof (first_delivery_creates_job default_env
                  (envelope created_b64) empty_world
                  {| post_id := "p1"; action := "created";
                     timestamp := 1700000000000;
                     data := default ∅ (BlogPostData
                                          (VDict (dict hello_brief))) |}
                  empty_world) as H.
    lapply H; [clear H; intros H | vm_compute; reflexivity].
    specialize (H eq_refl).
    lapply H; [clear H; intros H | vm_compute; reflexivity].
    destruct H as (job & _ & Hst & Hrc & _ & _ & H & _).
    intros res w' Hrun.
    destruct (H eq_refl) with (res := res) (w' := w') as (H1 & H2 & _);
      [discriminate | exact Hrun |].
    exists job. split_and!; done.
  - pose proof (first_delivery_creates_job default_env
                  (envelope created_b64) (mkWorld ∅ [false; true] 0 [])
                  {| post_id := "p1"; action := "created";
                     timestamp := 1700000000000;
                     data := default ∅ (BlogPostData
                                          (VDict (dict hello_brief))) |}
                  (mkWorld ∅ [false; true] 0 [])) as H.
    lapply H; [clear H; intros H | vm_compute; reflexivity].
    specialize (H eq_refl).
    lapply H; [clear H; intros H | vm_compute; reflexivity].
    destruct H as (job & _ & _ & _ & _ & _ & _ & H).
    destruct (H [] eq_refl) as (w' & H1 & H2 & _).
    exists w'. split; [exact H1 | exact H2].
Defined.

(** ** Replays and unstructured answers *)

Lemma titled_no_previous E pid d k :
  d !! "previousGeneration" = None ->
  fst (titled E pid d k) !! "previousGeneration" = None.
Proof.
  intros H. unfold titled. destruct (truthy _); cbn [fst]; [done|].
  by rewrite lookup_insert_ne.
Qed.

Lemma receive_message_no_previous E md w m w1 :
  receive_message E md w = (Ok m, w1) ->
  data m !! "previousGeneration" = None.
Proof.
  intros H. eapply receive_message_data; [done|].
  unfold brief_keys. rewrite !not_elem_of_cons.
  split_and!; try apply not_elem_of_nil; intros Hk; discriminate Hk.
Qed.

(** C6.  For every replay of a message that passes intake, whose post has a
    job record with status completed and retryCount < maxRetries: the job
    record is updated to status processing with retry_count one higher, the
    orchestrator is called again with the brief of the message, and, when
    generation and both writes succeed, the generated post stored for the
    post is the new one, built from this run alone. *)
Theorem completed_job_is_reprocessed E md w m w1 r rc mr at_time :
  receive_message E md w = (Ok m, w1) ->
  faults w = [] ->
  store w !! ("posts", post_id m) = Some r ->
  job_record r "completed" rc mr ->
  rc < mr ->
  fromtimestamp_iso E (timestamp m) = Some at_time ->
  let retry := retry_payload (utc_now_iso E (ticks w)) rc in
  let d' := fst (titled E (post_id m) (data m) (S (ticks w))) in
  let k' := snd (titled E (post_id m) (data m) (S (ticks w))) in
  (retry ∪ r) !! "retry_count" = Some (VInt (rc + 1)) /\
  (retry ∪ r) !! "status" = Some (VStr "processing") /\
  (forall res w',
     process_message E md w = (res, w') ->
     EvUpdate "posts" (post_id m) retry ∈ trace w' /\
     EvOrchestrate (post_id m) (data m) ∈ trace w') /\
  (forall adapter text secs g,
     get_ai_adapter E = Ok adapter ->
     adapter d' = Ok text ->
     extract_sections E text = Ok secs ->
     GeneratedPost (post_id m) (dict_get d' "title" (VStr ""))
       (dict_get d' "originalContent" (VStr ""))
       (dict_get d' "keywords" (VList [])) (dict_get d' "focus" (VStr ""))
       text (from_option VList VNone secs) (utc_now_iso E k') = Some g ->
     FIRESTORE_GENERATED_POSTS_COLLECTION E <> "posts" ->
     exists w',
       process_message E md w = (Ok None, w') /\
       store w' !! (FIRESTORE_GENERATED_POSTS_COLLECTION E, post_id m)
       = Some g /\
       store w' !! ("posts", post_id m)
       = Some (completed_payload (utc_now_iso E (S (S k'))) (post_id m) text
                 (sections_value secs) ∪ (retry ∪ r))).
Proof.
  intros Hrecv Hf Hr Hjob Hlt Hts retry d' k'.
  destruct (receive_message_world _ _ _ _ _ Hrecv Hf)
    as (tr1 & -> & _ & _ & _).
  assert (Hne : "completed" <> "failed_permanently") by discriminate.
  pose proof (admit_retry E m (store w) (ticks w) tr1 r "completed" rc mr
                Hr Hjob Hne Hlt) as Hadm.
  pose proof (process_message_continues _ _ _ _ _ _ Hrecv Hadm) as Hrun.
  split_and!.
  - by apply lookup_payload.
  - by apply lookup_payload.
  - intros res w'. rewrite Hrun. intros Hblock. split.
    + eapply evolves_keeps_event;
        [by eapply generation_block_evolves|].
      cbn [trace]. apply elem_of_cons. by left.
    + by eapply generation_block_orchestrates.
  - intros adapter text secs g Ha Htext Hs Hg Hgen.
    eexists. rewrite Hrun. split.
    + eapply generate_and_record_completes; try done.
      * apply titled_no_previous. by eapply receive_message_no_previous.
      * rewrite lookup_insert_ne by congruence. apply lookup_insert_eq.
    + cbn [store]. split.
      * rewrite lookup_insert_ne by congruence. apply lookup_insert_eq.
      * apply lookup_insert_eq.
Qed.

Lemma completed_job_is_reprocessed_witness :
  exists w' job g,
    process_message default_env (envelope created_b64)
      (mkWorld {[ ("posts", "p1") := stored_job "completed" 0 3;
                  ("generated_posts", "p1")
                    := dict [("generatedContent", VStr "old")] ]} [] 0 [])
    = (Ok None, w') /\
    store w' !! ("posts", "p1") = Some job /\
    job !! "retry_count" = Some (VInt 1) /\
    store w' !! ("generated_posts", "p1") = Some g /\
    g !! "generatedContent" = Some (VStr plain_answer).
Proof.
  pose proof (completed_job_is_reprocessed default_env
                (envelope created_b64)
                (mkWorld {[ ("posts", "p1") := stored_job "completed" 0 3;
                            ("generated_posts", "p1")
                              := dict [("generatedContent", VStr "old")] ]}
                         [] 0 [])
                {| post_id := "p1"; action := "created";
                   timestamp := 1700000000000;
                   data := default ∅ (BlogPostData
                                        (VDict (dict hello_brief))) |}
                (mkWorld {[ ("posts", "p1") := stored_job "completed" 0 3;
                            ("generated_posts", "p1")
                              := dict [("generatedContent", VStr "old")] ]}
                         [] 0 [])
                (stored_job "completed" 0 3) 0 3
                "2023-11-14T22:13:20+00:00") as H.
  lapply H; [clear H; intros H | vm_compute; reflexivity].
  specialize (H eq_refl).
  lapply H; [clear H; intros H | vm_compute; reflexivity].
  lapply H; [clear H; intros H | split_and!; vm_compute; reflexivity].
  lapply H; [clear H; intros H | lia].
  specialize (H eq_refl).
  destruct H as (_ & _ & _ & H).
  set (g := default ∅
              (GeneratedPost "p1" (VStr "Hello") (VStr "")
                 (VList [VStr "a"; VStr "b"]) (VStr "f") plain_answer VNone
                 (utc_now_iso default_env 1))).
  assert (Hg : GeneratedPost "p1" (VStr "Hello") (VStr "")
                 (VList [VStr "a"; VStr "b"]) (VStr "f") plain_answer VNone
                 (utc_now_iso default_env 1) = Some g)
    by (vm_compute; reflexivity).
  destruct (H (fun _ => Ok plain_answer) plain_answer None g)
    as (w' & H1 & H2 & H3).
  - reflexivity.
  - reflexivity.
  - vm_compute; reflexivity.
  - exact Hg.
  - discriminate.
  - destruct (GeneratedPost_fields _ _ _ _ _ _ _ _ _ Hg)
      as (_ & _ & _ & Hgc & _).
    eexists w', _, g. split; [exact H1|]. split; [exact H3|].
    split; [|split; [exact H2|exact Hgc]].
    vm_compute; reflexivity.
Defined.

(** C8 (as stated, refuted).  The provider answers with a JSON object
    whose only section has no content: this is no object with a sections
    array of subtitle and content pairs, and yet the orchestrator returns
    the error variant and the job ends with status error. *)
Lemma malformed_sections_counterexample :
  json_loads broken_env broken_answer = Ok (Some broken_answer_json) /\
  fst (process_message broken_env (envelope created_b64) empty_world)
  = Raise (Exn PlainException "validation error") /\
  (store (snd (process_message broken_env (envelope created_b64)
                 empty_world))
     !! ("posts", "p1")) ≫= (fun r => r !! "status")
  = Some (VStr "error").
Proof. split_and!; vm_compute; reflexivity. Qed.

(** The same happens with a text on which [json.loads] raises an exception
    that is no [JSONDecodeError]: a number of 5000 digits is not an object
    with sections either, and the [ValueError] of the integer conversion
    leaves the inner [try]. *)
Lemma overlong_number_is_an_error :
  String.length long_number = 5000%nat /\
  returns (json_loads overlong_env long_number) = false /\
  returns (fst (process_message overlong_env (envelope created_b64)
                  empty_world)) = false /\
  (store (snd (process_message overlong_env (envelope created_b64)
                 empty_world))
     !! ("posts", "p1")) ≫= (fun r => r !! "status")
  = Some (VStr "error").
Proof. split_and!; vm_compute; reflexivity. Qed.

(** C8 (amended).  For every text returned by the provider on which
    [json.loads] raises [JSONDecodeError], or returns a value that is no
    object with a key sections: the text is kept as the generated content
    with sections left empty, in the generated post and in the job record,
    and, the brief passing the schema of the generated post and the writes
    succeeding, generation ends with the generated outcome and the job with
    status completed.  (A JSON object with malformed sections, for example a
    section without content, makes the orchestrator return the error
    variant, and so does a text on which [json.loads] raises anything
    else.) *)
Theorem unstructured_answer_completes
    E md w m w1 st k tr at_time adapter text g :
  receive_message E md w = (Ok m, w1) ->
  admit_job E m w1 = (Ok Continue, mkWorld st [] k tr) ->
  FIRESTORE_GENERATED_POSTS_COLLECTION E <> "posts" ->
  fromtimestamp_iso E (timestamp m) = Some at_time ->
  let d' := fst (titled E (post_id m) (data m) k) in
  let k' := snd (titled E (post_id m) (data m) k) in
  get_ai_adapter E = Ok adapter ->
  adapter d' = Ok text ->
  (json_loads E text = Ok None \/
   exists v, json_loads E text = Ok (Some v) /\
             forall d, v = VDict d -> d !! "sections" = None) ->
  GeneratedPost (post_id m) (dict_get d' "title" (VStr ""))
    (dict_get d' "originalContent" (VStr ""))
    (dict_get d' "keywords" (VList [])) (dict_get d' "focus" (VStr ""))
    text VNone (utc_now_iso E k') = Some g ->
  exists w' job,
    process_message E md w = (Ok None, w') /\
    store w' !! ("posts", post_id m) = Some job /\
    job !! "status" = Some (VStr "completed") /\
    job !! "generatedContent" = Some (VStr text) /\
    job !! "sections" = Some VNone /\
    store w' !! (FIRESTORE_GENERATED_POSTS_COLLECTION E, post_id m) = Some g /\
    g !! "status" = Some (VStr "generated") /\
    g !! "generatedContent" = Some (VStr text) /\
    g !! "sections" = Some VNone.
Proof.
  intros Hrecv Hadm Hgen Hts d' k' Ha Htext Hjson Hg.
  destruct (admit_job_leaves_record _ _ _ _ Hadm) as (r & Hr).
  cbn [store] in Hr.
  apply extract_sections_none in Hjson.
  destruct (GeneratedPost_fields _ _ _ _ _ _ _ _ _ Hg)
    as (_ & _ & _ & Hgc & Hgs & _ & Hgst).
  eexists _, _.
  rewrite (process_message_continues _ _ _ _ _ _ Hrecv Hadm). split.
  - eapply (generate_and_record_completes E m st k tr at_time adapter text
              None g r); try done.
    + apply titled_no_previous. by eapply receive_message_no_previous.
    + by rewrite lookup_insert_ne by congruence.
  - cbn [store sections_value]. split; [apply lookup_insert_eq|].
    split_and!; try (by apply lookup_payload).
    + rewrite lookup_insert_ne by congruence. apply lookup_insert_eq.
    + done.
    + done.
    + done.
Qed.

Lemma unstructured_answer_completes_witness :
  json_loads default_env plain_answer = Ok None /\
  exists w' job,
    process_message default_env (envelope created_b64) empty_world
    = (Ok None, w') /\
    store w' !! ("posts", "p1") = Some job /\
    job !! "status" = Some (VStr "completed") /\
    job !! "generatedContent" = Some (VStr plain_answer) /\
    job !! "sections" = Some VNone.
Proof.
  split; [vm_compute; reflexivity|].
  set (m := {| post_id := "p1"; action := "created";
               timestamp := 1700000000000;
               data := default ∅ (BlogPostData (VDict (dict hello_brief))) |}).
  set (g := default ∅
              (GeneratedPost "p1" (VStr "Hello") (VStr "")
                 (VList [VStr "a"; VStr "b"]) (VStr "f") plain_answer VNone
                 (utc_now_iso default_env 1))).
  assert (Hg : GeneratedPost "p1" (VStr "Hello") (VStr "")
                 (VList [VStr "a"; VStr "b"]) (VStr "f") plain_answer VNone
                 (utc_now_iso default_env 1) = Some g)
    by (vm_compute; reflexivity).
  pose proof (unstructured_answer_completes default_env
                (envelope created_b64) empty_world m empty_world
                (store (snd (admit_job default_env m empty_world))) 1
                (trace (snd (admit_job default_env m empty_world)))
                "2023-11-14T22:13:20+00:00"
                (fun _ => Ok plain_answer) plain_answer g) as H.
  lapply H; [clear H; intros H | vm_compute; reflexivity].
  lapply H; [clear H; intros H | vm_compute; reflexivity].
  lapply H; [clear H; intros H | discriminate].
  specialize (H eq_refl eq_refl eq_refl).
  lapply H; [clear H; intros H | left; vm_compute; reflexivity].
  specialize (H Hg).
  destruct H as (w' & job & H1 & H2 & H3 & H4 & H5 & _).
  exists w', job. split_and!; done.
Defined.

(** ** Failures *)

(** C1 (as stated, refuted).  The orchestrator succeeds, the final update
    of the job record fails, and the record, at its last retry, goes
    straight to failed_permanently: no write of this invocation carries
    status error (nor status completed). *)
Lemma final_persist_counterexample :
  fst (process_message default_env (envelope created_b64)
         (world_with (stored_job "error" 2 3) [false; false; false; true]))
  = Ok (Some "p1") /\
  (store (snd (process_message default_env (envelope created_b64)
                 (world_with (stored_job "error" 2 3)
                    [false; false; false; true])))
     !! ("posts", "p1")) ≫= (fun r => r !! "status")
  = Some (VStr "failed_permanently") /\
  existsb (writes_status "completed")
    (trace (snd (process_message default_env (envelope created_b64)
                   (world_with (stored_job "error" 2 3)
                      [false; false; false; true])))) = false /\
  existsb (writes_status "error")
    (trace (snd (process_message default_env (envelope created_b64)
                   (world_with (stored_job "error" 2 3)
                      [false; false; false; true])))) = false.
Proof. split_and!; vm_compute; reflexivity. Qed.

(** C1 (amended).  On every invocation where generation fails, because the
    orchestrator returns the error variant or because the final update
    raises: when the orchestrator returned the error variant the handler
    first persists status error with errorAt and the error message; in both
    cases it then reads the job record again; if retryCount >= maxRetries
    it overwrites the record to failed_permanently with the error
    'Permanently failed after N retries. Last error: ...', N = maxRetries,
    and returns the post id without raising; if retryCount < maxRetries it
    persists status error with errorAt and the error message and raises the
    failure again. *)
Theorem generation_failure_is_bounded
    E md w m w1 w2 at_time ctx out st3 fs3 k3 tr3 secs r rc mr :
  receive_message E md w = (Ok m, w1) ->
  admit_job E m w1 = (Ok Continue, w2) ->
  fromtimestamp_iso E (timestamp m) = Some at_time ->
  generate_blog_post E (post_id m) (data m) ctx w2
  = (Ok out, mkWorld st3 fs3 k3 tr3) ->
  extract_sections E (generated_content out) = Ok secs ->
  st3 !! ("posts", post_id m) = Some r ->
  r !! "retry_count" = Some (VInt rc) ->
  r !! "max_retries" = Some (VInt mr) ->
  status out = error /\ fs3 = [] \/ status out = generated /\ fs3 = [true] ->
  let e := match status out with
           | error =>
               Exn PlainException (error_or_unknown (error_message out))
           | generated => Exn StoreError (describe E StoreError)
           end in
  let recorded := generation_error_payload (utc_now_iso E k3) (exn_str e) in
  let final :=
    if mr <=? rc
    then failed_payload (utc_now_iso E (S k3)) rc mr (exn_str e)
    else error_payload (utc_now_iso E (S k3)) rc (exn_str e) in
  process_message E md w =
  match status out with
  | error =>
      (if mr <=? rc then Ok (Some (post_id m)) else Raise e,
       mkWorld (<[("posts", post_id m) := final ∪ (recorded ∪ r)]>
                  (<[("posts", post_id m) := recorded ∪ r]> st3))
               [] (S (S k3))
               (EvUpdate "posts" (post_id m) final
                :: EvGet "posts" (post_id m)
                :: EvUpdate "posts" (post_id m) recorded :: tr3))
  | generated =>
      (if mr <=? rc then Ok (Some (post_id m)) else Raise e,
       mkWorld (<[("posts", post_id m) := final ∪ r]> st3)
               [] (S (S k3))
               (EvUpdate "posts" (post_id m) final
                :: EvGet "posts" (post_id m) :: tr3))
  end.
Proof.
  intros Hrecv Hadm Hts Hout Hs Hr Hrc Hmr Hmode e recorded final.
  assert (Hkeep : forall key v,
            key <> "status" -> key <> "errorAt" -> key <> "error" ->
            r !! key = Some v -> (recorded ∪ r) !! key = Some v).
  { intros key v H1 H2 H3 Hv. rewrite lookup_union_r; [done|].
    unfold recorded, generation_error_payload.
    by rewrite !lookup_insert_ne, lookup_empty by done. }
  rewrite (process_message_continues _ _ _ _ _ _ Hrecv Hadm), run_try.
  destruct Hmode as [[Hst ->]|[Hst ->]].
  - rewrite (generate_and_record_error E m w2 at_time ctx out st3 k3 tr3
               secs r Hts Hout Hst Hs Hr).
    mred. subst final. revert e recorded Hkeep. rewrite Hst.
    intros e recorded Hkeep. cbn [exn_str e].
    destruct (Z.leb_spec mr rc); mred.
    + apply (on_failure_exceeded E m e _ _ _ (recorded ∪ r) rc mr);
        [apply lookup_insert_eq | by apply Hkeep | by apply Hkeep | done].
    + apply (on_failure_retry E m e _ _ _ (recorded ∪ r) rc mr);
        [apply lookup_insert_eq | by apply Hkeep | by apply Hkeep | done].
  - rewrite (generate_and_record_persist_fails E m w2 at_time ctx out st3 []
               k3 tr3 secs Hts Hout Hst Hs).
    mred. subst final. revert e recorded Hkeep. rewrite Hst.
    intros e _ _. destruct (Z.leb_spec mr rc); mred.
    + by apply (on_failure_exceeded E m e _ _ _ r rc mr).
    + by apply (on_failure_retry E m e _ _ _ r rc mr).
Qed.

Lemma generation_failure_is_bounded_witness :
  exists w',
    process_message failing_env (envelope created_b64)
      (world_with (stored_job "error" 2 3) [])
    = (Ok (Some "p1"), w') /\
    (store w' !! ("posts", "p1")) ≫= (fun r => r !! "error")
    = Some (VStr
        "Permanently failed after 3 retries. Last error: quota exceeded").
Proof.
  set (m := {| post_id := "p1"; action := "created";
               timestamp := 1700000000000;
               data := default ∅ (BlogPostData (VDict (dict hello_brief))) |}).
  set (w := world_with (stored_job "error" 2 3) []).
  set (w2 := snd (admit_job failing_env m w)).
  set (out := {| original_post_id := "p1"; title := "Hello";
                 original_content := ""; generated_content := "";
                 generated_at := utc_now_iso failing_env 1;
                 generated_post_id := ""; status := error;
                 error_message := Some "quota exceeded" |}).
  pose proof (generation_failure_is_bounded failing_env
                (envelope created_b64) w m w w2
                "2023-11-14T22:13:20+00:00" None out
                (store w2) [] 2
                (trace (snd (generate_blog_post failing_env "p1" (data m)
                               None w2)))
                None (default ∅ (store w2 !! ("posts", "p1"))) 3 3) as H.
  lapply H; [clear H; intros H | vm_compute; reflexivity].
  lapply H; [clear H; intros H | vm_compute; reflexivity].
  specialize (H eq_refl).
  lapply H; [clear H; intros H | vm_compute; reflexivity].
  lapply H; [clear H; intros H | vm_compute; reflexivity].
  lapply H; [clear H; intros H | vm_compute; reflexivity].
  lapply H; [clear H; intros H | vm_compute; reflexivity].
  lapply H; [clear H; intros H | vm_compute; reflexivity].
  lapply H; [clear H; intros H | left; split; reflexivity].
  rewrite H. eexists. split; [vm_compute; reflexivity|].
  vm_compute; reflexivity.
Defined.

(** ** The boundary of the orchestrator *)

Lemma bind_Ok_inv {A B} (m : M A) (f : A -> M B) w b w' :
  bind m f w = (Ok b, w') ->
  exists a w1, m w = (Ok a, w1) /\ f a w1 = (Ok b, w').
Proof.
  rewrite run_bind. destruct (m w) as [[a|e] w1]; [|done]. by eauto.
Qed.

(** The body returns only the generated variant, and only for a brief
    whose title is a string. *)
Lemma generate_blog_post_body_Ok E pid d w out w' :
  generate_blog_post_body E pid d w = (Ok out, w') ->
  is_str (dict_get d "title" (VStr "")) = true /\ status out = generated.
Proof.
  unfold generate_blog_post_body. intros H.
  repeat (apply bind_Ok_inv in H; destruct H as (? & ? & _ & H)).
  rewrite run_lift in H. injection H as H _. revert H.
  unfold BlogGenerationOutput_validate.
  destruct (dict_get d "title" (VStr "")); try done.
  destruct (dict_get d "originalContent" (VStr "")); try done.
  by intros [= <-].
Qed.

Lemma truthy_title d :
  truthy (dict_get d "title" VNone) = true ->
  forall dflt, dict_get d "title" dflt = dict_get d "title" VNone.
Proof.
  unfold dict_get. by destruct (d !! "title").
Qed.

(** A brief whose title is truthy and not a string makes
    [generate_blog_post] raise: the body fails at the latest when it builds
    the generated post, and the [except] block fails on the same title. *)
Lemma generate_blog_post_raises E pid d ctx w :
  truthy (dict_get d "title" VNone) = true ->
  is_str (dict_get d "title" VNone) = false ->
  exists w',
    generate_blog_post E pid d ctx w =
    (Raise (Exn ValidationError (describe E ValidationError)), w').
Proof.
  intros Ht Hs. destruct w as [st fs k tr].
  unfold generate_blog_post. mstep. unfold ensure_title. rewrite Ht. mstep.
  destruct (generate_blog_post_body E pid d _) as [[out|e] w1] eqn:Hbody.
  - apply generate_blog_post_body_Ok in Hbody as [Hstr _].
    rewrite (truthy_title d Ht) in Hstr. congruence.
  - destruct w1 as [st1 fs1 k1 tr1].
    unfold generate_blog_post_except. mstep.
    unfold BlogGenerationOutput_validate. rewrite (truthy_title d Ht).
    eexists. by destruct (dict_get d "title" VNone).
Qed.

(** With a title that is a string, or absent, or falsy, the orchestrator
    always returns: the generated variant, or the error variant with its
    message. *)
Lemma generate_blog_post_returns E pid d ctx w :
  (truthy (dict_get d "title" VNone) = true ->
   is_str (dict_get d "title" VNone) = true) ->
  exists out w',
    generate_blog_post E pid d ctx w = (Ok out, w') /\
    (status out = generated \/
     status out = error /\ exists msg, error_message out = Some msg).
Proof.
  intros Ht. destruct w as [st fs k tr].
  unfold generate_blog_post. mstep. rewrite run_ensure_title. mstep.
  set (d' := fst (titled E pid d k)).
  assert (Hd' : exists t, forall dflt, dict_get d' "title" dflt = VStr t).
  { unfold d', titled. destruct (truthy (dict_get d "title" VNone)) eqn:Htr.
    - cbn [fst]. specialize (Ht eq_refl).
      pose proof (truthy_title d Htr) as Hsame.
      destruct (dict_get d "title" VNone) as [| | |t| |]; try done.
      by exists t.
    - cbn [fst]. eexists. intros dflt. unfold dict_get.
      by rewrite lookup_insert_eq. }
  destruct Hd' as (t & Hd').
  destruct (generate_blog_post_body E pid d' _) as [[out|e] w1] eqn:Hbody.
  - apply generate_blog_post_body_Ok in Hbody as [_ Hst]. eauto.
  - destruct (generate_blog_post_except_total E pid d' e w1 t (Hd' _))
      as (out & w' & H & Hst & Herr & _).
    rewrite H. eauto 10.
Qed.

(** Such a brief reaches the orchestrator from [process_message]: a
    regeneration takes the title of the original post as it is stored.  The
    handler catches what the orchestrator raises and records the failure. *)
Lemma nonstring_title_reaches_orchestrator :
  (fun d : doc => d !! "title")
    <$> briefs (snd (process_message separate_env (envelope regenerate_b64)
                       numbered_world))
  = [Some (VInt 5)] /\
  fst (process_message separate_env (envelope regenerate_b64) numbered_world)
  = Raise (Exn ValidationError "validation error").
Proof. split; vm_compute; reflexivity. Qed.

(** C7 (the code departs from the claim).  Called with a brief whose title
    is the number 5, [generate_blog_post] raises a validation error to its
    caller instead of returning the error variant. *)
Theorem generate_blog_post_escapes :
  fst (generate_blog_post default_env "p1" (dict [("title", VInt 5)]) None
         empty_world)
  = Raise (Exn ValidationError "validation error").
Proof. vm_compute; reflexivity. Qed.

(** * Further properties *)

Lemma run_returns {A} (m : M A) w (a0 : A) :
  returns (fst (m w)) = true ->
  m w = (Ok (the_result a0 (fst (m w))), snd (m w)).
Proof. by destruct (m w) as [[a|e] w']. Qed.

Lemma is_Some_default {A} (o : option A) (a : A) :
  is_Some o -> o = Some (default a o).
Proof. by intros [x ->]. Qed.

(** ** Intake *)

(** X1.  A message without a key data is taken as the payload itself and
    is always rejected by validation, with nothing read or written: only
    the base64 envelope can carry a valid message. *)
Theorem bare_message_is_rejected E md w :
  md !! "data" = None ->
  process_message E md w =
  (Raise (Exn ValidationError (describe E ValidationError)), w).
Proof.
  intros Hd. apply process_message_rejected.
  apply (receive_message_rejects E md w (VDict md)).
  - unfold decode_payload. by rewrite Hd.
  - apply malformed_rejected. cbn [malformed]. do 3 right. by rewrite Hd.
Qed.

Lemma bare_message_is_rejected_witness :
  process_message default_env
    (dict [("postId", VStr "p1"); ("action", VStr "created");
           ("timestamp", VInt 1700000000000)]) empty_world
  = (Raise (Exn ValidationError "validation error"), empty_world).
Proof.
  apply (bare_message_is_rejected default_env
           (dict [("postId", VStr "p1"); ("action", VStr "created");
                  ("timestamp", VInt 1700000000000)]) empty_world).
  vm_compute; reflexivity.
Defined.

(** X2.  A regeneration whose original post is missing, or stored empty,
    raises the ValueError of line 92 with the post id in its message; the
    job record is not read and nothing is written. *)
Theorem regeneration_needs_original E md w payload m :
  faults w = [] ->
  decode_payload E md = Ok payload ->
  BlogPostMessage_validate E payload = Some m ->
  action m = "regenerate" ->
  found (store w !! (FIRESTORE_POSTS_COLLECTION E, post_id m)) = None ->
  exists w',
    process_message E md w =
    (Raise (Exn ValueError ("Original post not found for regeneration: "
                            +:+ post_id m)), w') /\
    store w' = store w /\
    trace w' = EvGet (FIRESTORE_POSTS_COLLECTION E) (post_id m) :: trace w.
Proof.
  intros Hf Hd Hv Ha Ho. destruct w as [st fs k tr].
  cbn [faults store] in *. subst fs. eexists. split.
  - apply process_message_rejected. by eapply receive_message_not_found.
  - done.
Qed.

Lemma regeneration_needs_original_witness :
  exists w',
    process_message separate_env (envelope regenerate_b64)
      (world_with (stored_job "completed" 0 3) [])
    = (Raise (Exn ValueError "Original post not found for regeneration: p1"),
       w') /\
    store w' = store (world_with (stored_job "completed" 0 3) []).
Proof.
  pose proof (regeneration_needs_original separate_env
                (envelope regenerate_b64)
                (world_with (stored_job "completed" 0 3) [])
                regenerate_payload
                {| post_id := "p1"; action := "regenerate";
                   timestamp := 1700000000000;
                   data := default ∅ (BlogPostData
                             (VDict (dict [("id", VStr "p1");
                                           ("title", VStr "New");
                                           ("feedback", VStr "shorter")]))) |}
                eq_refl) as H.
  lapply H; [clear H; intros H | vm_compute; reflexivity].
  lapply H; [clear H; intros H | vm_compute; reflexivity].
  specialize (H eq_refl).
  lapply H; [clear H; intros H | vm_compute; reflexivity].
  destruct H as (w' & H1 & H2 & _). exists w'. split; [exact H1 | exact H2].
Defined.

(** X3.  Whatever makes intake fail (the envelope, the validation, the
    missing original post, the store), the failure reaches the caller of
    [process_message] as it is, and the store, the clock and the writes are
    as before. *)
Theorem rejection_leaves_no_trace E md w e w1 :
  receive_message E md w = (Raise e, w1) ->
  process_message E md w = (Raise e, w1) /\
  store w1 = store w /\ ticks w1 = ticks w /\ effects w1 = effects w.
Proof.
  intros H. split; [by apply process_message_rejected|].
  destruct (receive_message_frame _ _ _ _ _ H) as (? & ? & ? & _). done.
Qed.

Lemma rejection_leaves_no_trace_witness :
  exists w1,
    process_message default_env (envelope regenerate_b64)
      (mkWorld ∅ [true] 0 [])
    = (Raise (Exn StoreError "503 service unavailable"), w1) /\
    store w1 = ∅.
Proof.
  destruct (rejection_leaves_no_trace default_env (envelope regenerate_b64)
              (mkWorld ∅ [true] 0 [])
              (Exn StoreError "503 service unavailable")
              (mkWorld ∅ [] 0 [])) as (H1 & H2 & _).
  - vm_compute; reflexivity.
  - eexists. split; [exact H1 | exact H2].
Defined.

(** ** The orchestrator and what it stores *)

Lemma run_save_pass E c i d st fs k tr :
  save_document E c i d (mkWorld st (false :: fs) k tr) =
  (Ok tt, mkWorld (<[(c, i) := d]> st) fs k (EvSet c i d :: tr)).
Proof. reflexivity. Qed.

Lemma with_previous_generation_other E d g g' k :
  with_previous_generation E d g = Ok g' ->
  k <> "previousGeneration" -> g' !! k = g !! k.
Proof.
  unfold with_previous_generation.
  destruct (d !! "previousGeneration") as [[| | | | |p]|];
    try (by intros [=]); intros [= <-] Hk; [|done].
  by rewrite lookup_insert_ne.
Qed.

(** What the body of the [try] has done when it ends: a result means that
    the generated post is stored, an exception that nothing is. *)
Lemma generate_blog_post_body_inv E pid d w r w' :
  generate_blog_post_body E pid d w = (r, w') ->
  match r with
  | Ok out =>
      exists g,
        store w' =
          <[(FIRESTORE_GENERATED_POSTS_COLLECTION E, pid) := g]> (store w) /\
        g !! "generatedContent" = Some (VStr (generated_content out)) /\
        g !! "title" = Some (VStr (title out)) /\
        g !! "originalContent" = Some (VStr (original_content out)) /\
        g !! "keywords" = Some (dict_get d "keywords" (VList [])) /\
        g !! "focus" = Some (dict_get d "focus" (VStr "")) /\
        g !! "status" = Some (VStr "generated") /\
        dict_get d "title" (VStr "") = VStr (title out) /\
        dict_get d "originalContent" (VStr "") = VStr (original_content out) /\
        is_Some (check_str_list (dict_get d "keywords" (VList []))) /\
        is_str (dict_get d "focus" (VStr "")) = true /\
        (d !! "previousGeneration" = None ->
         g !! "previousGeneration" = Some VNone) /\
        status out = generated /\ generated_post_id out = pid /\
        error_message out = None
  | Raise e => store w' = store w
  end.
Proof.
  destruct w as [st fs k tr]. unfold generate_blog_post_body.
  rewrite run_bind, run_lift.
  destruct (get_ai_adapter E) as [adapter|e0]; mred; [|by intros [= <- <-]].
  rewrite run_bind, run_emit. mred. rewrite run_bind, run_lift.
  destruct (adapter d) as [text|e0]; mred; [|by intros [= <- <-]].
  rewrite run_bind, run_lift.
  destruct (extract_sections E text) as [secs|e0]; mred;
    [|by intros [= <- <-]].
  rewrite run_bind, run_now. mred. rewrite run_bind, run_lift.
  destruct (GeneratedPost pid (dict_get d "title" (VStr ""))
              (dict_get d "originalContent" (VStr ""))
              (dict_get d "keywords" (VList [])) (dict_get d "focus" (VStr ""))
              text (from_option VList VNone secs) (utc_now_iso E k))
    as [g|] eqn:Hg; cbn [of_option]; mred; [|by intros [= <- <-]].
  rewrite run_bind, run_lift.
  destruct (with_previous_generation E d g) as [g'|e0] eqn:Hg'; mred;
    [|by intros [= <- <-]].
  assert (Hval : exists t oc kw f,
             dict_get d "title" (VStr "") = VStr t /\
             dict_get d "originalContent" (VStr "") = VStr oc /\
             check_str_list (dict_get d "keywords" (VList [])) = Some kw /\
             kw = dict_get d "keywords" (VList []) /\
             dict_get d "focus" (VStr "") = VStr f /\
             g = <["original_post_id" := VStr pid]> (<["title" := VStr t]>
                 (<["originalContent" := VStr oc]> (<["keywords" := kw]>
                 (<["focus" := VStr f]> (<["generatedContent" := VStr text]>
                 (<["sections" := from_option VList VNone secs]>
                 (<["generatedAt" := VStr (utc_now_iso E k)]>
                 (<["status" := VStr "generated"]>
                 (<["previousGeneration" := VNone]> ∅)))))))))).
  { revert Hg. unfold GeneratedPost.
    destruct (dict_get d "title" (VStr "")) as [| | |t| |]; try done.
    destruct (dict_get d "originalContent" (VStr "")) as [| | |oc| |];
      try done.
    cbn [check_str mbind option_bind].
    destruct (check_str_list (dict_get d "keywords" (VList []))) as [kw|]
      eqn:Hkw; [|done].
    assert (kw = dict_get d "keywords" (VList [])) as Hkw'.
    { revert Hkw. unfold check_str_list.
      destruct (dict_get d "keywords" (VList [])) as [| | | |l|]; try done.
      destruct (forallb is_str l); [|done]. by intros [= <-]. }
    cbn [mbind option_bind].
    destruct (dict_get d "focus" (VStr "")) as [| | |f| |]; try done.
    cbn [check_str mbind option_bind]. intros [= <-].
    by exists t, oc, kw, f. }
  destruct Hval as (t & oc & kw & f & Ht & Hoc & Hkw & -> & Hf & ->).
  rewrite Ht, Hoc. cbn [BlogGenerationOutput_validate].
  rewrite run_bind.
  destruct fs as [|[] fs].
  - rewrite run_save. mred. rewrite run_bind, run_now. mred. rewrite run_lift.
    intros [= <- <-]. exists g'. cbn [store]. split; [done|].
    rewrite !(with_previous_generation_other _ _ _ _ _ Hg') by done.
    rewrite Hf, Hkw.
    split_and!; try done; try (by eexists).
    intros Hp. revert Hg'. unfold with_previous_generation. rewrite Hp.
    by intros [= <-].
  - rewrite run_save_fault. mred. by intros [= <- <-].
  - rewrite run_save_pass. mred. rewrite run_bind, run_now. mred.
    rewrite run_lift.
    intros [= <- <-]. exists g'. cbn [store]. split; [done|].
    rewrite !(with_previous_generation_other _ _ _ _ _ Hg') by done.
    rewrite Hf, Hkw.
    split_and!; try done; try (by eexists).
    intros Hp. revert Hg'. unfold with_previous_generation. rewrite Hp.
    by intros [= <-].
Qed.

Lemma generate_blog_post_except_inv E pid d e w r w' :
  generate_blog_post_except E pid d e w = (r, w') ->
  store w' = store w /\ faults w' = faults w /\ trace w' = trace w /\
  forall out, r = Ok out ->
    status out = error /\ error_message out = Some (exn_str e) /\
    generated_content out = "" /\ generated_post_id out = "".
Proof.
  destruct w as [st fs k tr]. unfold generate_blog_post_except.
  rewrite run_bind, run_now. mred. rewrite run_lift.
  destruct (dict_get d "title"
              (VStr ("Error generating content for " +:+ pid)))
    as [| | |t| |]; cbn [BlogGenerationOutput_validate raise_lib];
    intros [= <- <-]; split_and!; try done.
  by intros out [= <-].
Qed.

Lemma titled_other E pid d k key dflt :
  key <> "title" ->
  dict_get (fst (titled E pid d k)) key dflt = dict_get d key dflt.
Proof.
  intros Hk. unfold titled.
  destruct (truthy (dict_get d "title" VNone)); [done|].
  cbn [fst]. by apply dict_get_insert_ne.
Qed.

(** The orchestrator, split at its [try]. *)
Lemma generate_blog_post_split E pid d ctx st fs k tr :
  generate_blog_post E pid d ctx (mkWorld st fs k tr) =
  try_except
    (generate_blog_post_body E pid (fst (titled E pid d k)))
    (generate_blog_post_except E pid (fst (titled E pid d k)))
    (mkWorld st fs (snd (titled E pid d k)) (EvOrchestrate pid d :: tr)).
Proof.
  unfold generate_blog_post. rewrite run_bind, run_emit. mred.
  by rewrite run_bind, run_ensure_title.
Qed.

(** X5.  The outcome of the orchestrator tells what it stored: with the
    outcome generated, the generated post is stored under the post id, with
    the content that is returned; with the outcome error, nothing is
    stored.  This holds whether or not store calls fail. *)
Theorem outcome_tells_what_is_stored E pid d ctx w out w' :
  generate_blog_post E pid d ctx w = (Ok out, w') ->
  match status out with
  | generated =>
      exists g,
        store w' =
          <[(FIRESTORE_GENERATED_POSTS_COLLECTION E, pid) := g]> (store w) /\
        g !! "generatedContent" = Some (VStr (generated_content out)) /\
        g !! "title" = Some (VStr (title out)) /\
        g !! "status" = Some (VStr "generated") /\
        generated_post_id out = pid
  | error =>
      store w' = store w /\ generated_content out = "" /\
      generated_post_id out = "" /\ is_Some (error_message out)
  end.
Proof.
  destruct w as [st fs k tr]. rewrite generate_blog_post_split, run_try.
  destruct (generate_blog_post_body _ _ _ _) as [[out1|e] w1] eqn:Hb.
  - intros [= <- <-]. apply generate_blog_post_body_inv in Hb.
    destruct Hb as (g & Hs & Hc & Ht & _ & _ & _ & Hst & _ & _ & _ & _ & _
                    & -> & Hp & _).
    exists g. by split_and!.
  - intros Hx. apply generate_blog_post_body_inv in Hb. cbv beta iota in Hb.
    apply generate_blog_post_except_inv in Hx.
    destruct Hx as (Hs & _ & _ & Ho). destruct (Ho out eq_refl) as (-> & He & ? & ?).
    split_and!; [by rewrite Hs, Hb | done | done | rewrite He; by eexists].
Qed.

Lemma outcome_tells_what_is_stored_witness :
  exists g,
    store (snd (generate_blog_post default_env "p1" (dict hello_brief) None
                  empty_world))
    = <[("generated_posts", "p1") := g]> ∅ /\
    g !! "generatedContent" = Some (VStr plain_answer).
Proof.
  assert (Hrun : returns (fst (generate_blog_post default_env "p1"
                                 (dict hello_brief) None empty_world)) = true)
    by (vm_compute; reflexivity).
  pose proof (outcome_tells_what_is_stored _ _ _ _ _ _ _
                (run_returns _ _ no_output Hrun)) as H.
  assert (Hs : status (the_result no_output
                         (fst (generate_blog_post default_env "p1"
                                 (dict hello_brief) None empty_world)))
               = generated) by (vm_compute; reflexivity).
  rewrite Hs in H. destruct H as (g & Hst & Hc & _).
  exists g. split; [exact Hst|]. rewrite Hc. vm_compute; reflexivity.
Defined.

Lemma titled_title E pid d k :
  (truthy (dict_get d "title" VNone) = true ->
   is_str (dict_get d "title" VNone) = true) ->
  exists t, forall dflt,
    dict_get (fst (titled E pid d k)) "title" dflt = VStr t.
Proof.
  intros Ht. unfold titled.
  destruct (truthy (dict_get d "title" VNone)) eqn:Htr; cbn [fst].
  - specialize (Ht eq_refl). pose proof (truthy_title d Htr) as Hsame.
    destruct (dict_get d "title" VNone) as [| | |t| |]; try done.
    by exists t.
  - eexists. intros dflt. unfold dict_get. by rewrite lookup_insert_eq.
Qed.

(** When the body of the [try] raises, the [except] block turns the
    exception into the error variant and touches nothing. *)
Lemma generate_blog_post_caught E pid d ctx st fs k tr e w1 :
  (truthy (dict_get d "title" VNone) = true ->
   is_str (dict_get d "title" VNone) = true) ->
  generate_blog_post_body E pid (fst (titled E pid d k))
    (mkWorld st fs (snd (titled E pid d k)) (EvOrchestrate pid d :: tr))
  = (Raise e, w1) ->
  exists out w',
    generate_blog_post E pid d ctx (mkWorld st fs k tr) = (Ok out, w') /\
    status out = error /\ error_message out = Some (exn_str e) /\
    store w' = store w1 /\ faults w' = faults w1 /\ trace w' = trace w1.
Proof.
  intros Ht Hb. rewrite generate_blog_post_split, run_try, Hb.
  destruct (titled_title E pid d k Ht) as (t & Hd').
  destruct (generate_blog_post_except_total E pid (fst (titled E pid d k))
              e w1 t (Hd' _)) as (out & w' & H & Hst & Herr & _).
  exists out, w'. rewrite H.
  destruct (generate_blog_post_except_inv _ _ _ _ _ _ _ H) as (? & ? & ? & _).
  by split_and!.
Qed.

(** X6.  A provider that is not configured is found out for each message:
    the adapter is built inside the [try], so a missing OpenAI key, or a
    missing project or region for Vertex AI, gives the error variant with
    the message of the constructor; no store call is made and the provider
    is not called. *)
Theorem misconfigured_provider_is_reported E S P pid d ctx w :
  (truthy (dict_get d "title" VNone) = true ->
   is_str (dict_get d "title" VNone) = true) ->
  (AI_PROVIDER S = "OPENAI" /\ OPENAI_API_KEY_SECRET S = "") \/
  (AI_PROVIDER S <> "OPENAI" /\ (GCP_PROJECT_ID S = "" \/ GCP_REGION S = "")) ->
  exists out w',
    generate_blog_post (with_settings E S P) pid d ctx w = (Ok out, w') /\
    status out = error /\
    error_message out =
      Some (if String.eqb (AI_PROVIDER S) "OPENAI"
            then "OpenAI API key is required."
            else "GCP_PROJECT_ID and GCP_REGION must be set in the environment for Vertex AI.") /\
    store w' = store w /\ faults w' = faults w /\
    trace w' = EvOrchestrate pid d :: trace w.
Proof.
  intros Ht Hcfg. destruct w as [st fs k tr].
  set (msg := if String.eqb (AI_PROVIDER S) "OPENAI"
              then "OpenAI API key is required."
              else "GCP_PROJECT_ID and GCP_REGION must be set in the environment for Vertex AI.").
  assert (Ha : get_ai_adapter (with_settings E S P)
               = Raise (Exn ValueError msg)).
  { cbn [get_ai_adapter with_settings]. unfold get_ai_adapter_of, msg.
    destruct Hcfg as [[Hp Hk]|[Hp Hg]].
    - rewrite Hp, String.eqb_refl. unfold OpenAIAdapter. by rewrite Hk.
    - apply String.eqb_neq in Hp. rewrite Hp. unfold GoogleGenAIAdapter.
      destruct Hg as [-> | ->]; [done|].
      by rewrite orb_true_r. }
  edestruct (generate_blog_post_caught (with_settings E S P) pid d ctx st fs k
               tr (Exn ValueError msg)) as (out & w' & H & ? & ? & ? & ? & ?);
    [exact Ht | |].
  { unfold generate_blog_post_body. by rewrite run_bind, run_lift, Ha. }
  exists out, w'. by split_and!.
Qed.

Lemma misconfigured_provider_is_reported_witness :
  exists out w',
    generate_blog_post (with_settings default_env keyless_settings no_providers)
      "p1" (dict hello_brief) None empty_world = (Ok out, w') /\
    status out = error /\
    error_message out = Some "OpenAI API key is required." /\
    store w' = ∅.
Proof.
  destruct (misconfigured_provider_is_reported default_env keyless_settings
              no_providers "p1" (dict hello_brief) None empty_world)
    as (out & w' & H & Hs & He & Hst & _).
  - intros _. vm_compute; reflexivity.
  - left. split; reflexivity.
  - exists out, w'. by split_and!.
Defined.

Lemma BlogPostData_fields b d :
  BlogPostData (VDict b) = Some d ->
  (d !! "title" = Some VNone \/ exists s, d !! "title" = Some (VStr s)) /\
  optional check_str_list (VList []) (b !! "keywords") = d !! "keywords" /\
  optional check_str (VStr "") (b !! "focus") = d !! "focus".
Proof.
  unfold BlogPostData. intros H.
  repeat match type of H with
         | (?o ≫= _) = Some _ =>
             let x := fresh "x" in
             destruct o as [x|] eqn:?; cbn [mbind option_bind] in H; [|done]
         end.
  injection H as <-.
  rewrite !lookup_insert_ne by done. rewrite !lookup_insert_eq.
  split_and!; try done.
  match goal with
  | Ht : optional check_str VNone (b !! "title") = Some ?x |- _ =>
      revert Ht; unfold optional, check_str;
      destruct (b !! "title") as [[| | |s| |]|]; intros [= <-]; eauto
  end.
Qed.

(** X7.  [BlogPostData] admits a brief whose keywords or focus is null, and
    [GeneratedPost] does not.  Called with a brief as [BlogPostData]
    validated it from such a payload, the orchestrator returns the error
    variant and stores nothing, whatever the store and its failures.  (The
    merge of a regeneration may replace the two fields before the
    orchestrator is called.) *)
Theorem null_keywords_never_complete E b d pid ctx w :
  BlogPostData (VDict b) = Some d ->
  b !! "keywords" = Some VNone \/ b !! "focus" = Some VNone ->
  exists out w',
    generate_blog_post E pid d ctx w = (Ok out, w') /\
    status out = error /\ store w' = store w.
Proof.
  intros Hb Hnull. destruct w as [st fs k tr].
  destruct (BlogPostData_fields b d Hb) as (Ht & Hkw & Hf).
  assert (Htitle : truthy (dict_get d "title" VNone) = true ->
                   is_str (dict_get d "title" VNone) = true).
  { unfold dict_get. by destruct Ht as [-> | (s & ->)]. }
  destruct (generate_blog_post_body E pid (fst (titled E pid d k))
              (mkWorld st fs (snd (titled E pid d k))
                 (EvOrchestrate pid d :: tr))) as [[out|e] w1] eqn:Hbody.
  - apply generate_blog_post_body_inv in Hbody.
    destruct Hbody as (g & _ & _ & _ & _ & _ & _ & _ & _ & _ & Hk & Hfo & _).
    rewrite titled_other in Hk, Hfo by done. exfalso.
    destruct Hnull as [Hn|Hn]; rewrite Hn in *; cbn [optional] in *.
    + unfold dict_get in Hk. rewrite <- Hkw in Hk. by destruct Hk.
    + unfold dict_get in Hfo. by rewrite <- Hf in Hfo.
  - destruct (generate_blog_post_caught E pid d ctx st fs k tr e w1 Htitle
                Hbody) as (out & w' & H & Hs & _ & Hst & _).
    exists out, w'. split_and!; try done.
    apply generate_blog_post_body_inv in Hbody. by rewrite Hst.
Qed.

Lemma null_keywords_never_complete_witness :
  exists out w',
    generate_blog_post default_env "p1"
      (default ∅ (BlogPostData (VDict (dict null_keywords_brief)))) None
      empty_world = (Ok out, w') /\
    status out = error /\ store w' = ∅.
Proof.
  apply (null_keywords_never_complete default_env (dict null_keywords_brief)).
  - apply is_Some_default. unfold BlogPostData, dict, null_keywords_brief.
    cbn. by eexists.
  - left. reflexivity.
Defined.

(** X8.  The handler passes the brief to the orchestrator under its
    attribute names, and the orchestrator reads the original content and the
    previous generation under their aliases: whatever the message carried,
    a post generated for the handler has an empty original content and no
    previous generation. *)
Theorem original_content_is_dropped E md w0 m w1 ctx w out w' :
  receive_message E md w0 = (Ok m, w1) ->
  generate_blog_post E (post_id m) (data m) ctx w = (Ok out, w') ->
  status out = generated ->
  original_content out = "" /\
  exists g,
    store w' !! (FIRESTORE_GENERATED_POSTS_COLLECTION E, post_id m) = Some g /\
    g !! "originalContent" = Some (VStr "") /\
    g !! "previousGeneration" = Some VNone.
Proof.
  intros Hr. destruct w as [st fs k tr].
  rewrite generate_blog_post_split, run_try.
  destruct (generate_blog_post_body _ _ _ _) as [[out1|e] w2] eqn:Hbody.
  - intros [= <- <-] _. apply generate_blog_post_body_inv in Hbody.
    destruct Hbody as (g & Hs & _ & _ & Hoc & _ & _ & _ & _ & Hd & _ & _ & Hp
                       & _).
    rewrite titled_other in Hd by done.
    assert (Hempty : original_content out1 = "").
    { revert Hd. unfold dict_get.
      rewrite (receive_message_data E md w0 m w1 "originalContent" Hr).
      - by intros [= <-].
      - unfold brief_keys. rewrite !not_elem_of_cons.
        split_and!; try apply not_elem_of_nil; intros Hk; discriminate Hk. }
    split; [done|]. exists g. rewrite Hs, lookup_insert_eq.
    split_and!; [done | by rewrite Hoc, Hempty |].
    apply Hp, titled_no_previous. by eapply receive_message_no_previous.
  - intros Hx Hst. apply generate_blog_post_except_inv in Hx.
    destruct Hx as (_ & _ & _ & Ho). destruct (Ho out eq_refl) as (He & _).
    congruence.
Qed.

Lemma original_content_is_dropped_witness :
  dict_get (dict [("id", VStr "p1"); ("title", VStr "Hello");
                  ("originalContent", VStr "Once upon a time")])
    "originalContent" VNone = VStr "Once upon a time" /\
  exists g,
    store (snd (generate_blog_post draft_env "p1"
                  (data (the_result no_message
                           (fst (receive_message draft_env (envelope draft_b64)
                                   empty_world))))
                  None empty_world))
      !! ("generated_posts", "p1") = Some g /\
    g !! "originalContent" = Some (VStr "").
Proof.
  split; [reflexivity|].
  assert (Hrec : returns (fst (receive_message draft_env (envelope draft_b64)
                                 empty_world)) = true)
    by (vm_compute; reflexivity).
  set (m := the_result no_message
              (fst (receive_message draft_env (envelope draft_b64)
                      empty_world))).
  assert (Hpid : post_id m = "p1") by (vm_compute; reflexivity).
  assert (Hrun : returns (fst (generate_blog_post draft_env (post_id m)
                                 (data m) None empty_world)) = true)
    by (vm_compute; reflexivity).
  destruct (original_content_is_dropped draft_env (envelope draft_b64)
              empty_world m _ None empty_world _ _
              (run_returns _ _ no_message Hrec)
              (run_returns _ _ no_output Hrun)) as (_ & g & Hg & Hoc & _).
  - vm_compute; reflexivity.
  - exists g. rewrite Hpid in Hg. by split.
Defined.

(** X9.  A brief without a usable title (none, null, or an empty string)
    gets the fallback title before anything else: the provider is asked with
    it and the outcome carries it, whether the generation succeeds or
    fails. *)
Theorem fallback_title_is_used E pid d ctx st fs k tr adapter :
  truthy (dict_get d "title" VNone) = false ->
  get_ai_adapter E = Ok adapter ->
  let t := "Generated content for " +:+ pid +:+ " at " +:+ utc_now_iso E k in
  exists out w',
    generate_blog_post E pid d ctx (mkWorld st fs k tr) = (Ok out, w') /\
    title out = t /\
    EvProvider (<["title" := VStr t]> d) ∈ trace w'.
Proof.
  intros Ht Ha t. rewrite generate_blog_post_split, run_try.
  assert (Hd' : fst (titled E pid d k) = <["title" := VStr t]> d).
  { unfold titled. by rewrite Ht. }
  rewrite Hd'. set (d' := <["title" := VStr t]> d).
  set (w1 := mkWorld st fs (snd (titled E pid d k))
               (EvOrchestrate pid d :: tr)).
  assert (Hsub : forall r w2, generate_blog_post_body E pid d' w1 = (r, w2) ->
                   EvProvider d' ∈ trace w2 /\
                   forall out, r = Ok out -> title out = t).
  { intros r w2 Hb. split.
    - revert Hb. unfold generate_blog_post_body.
      rewrite run_bind, run_lift, Ha. mred. unfold w1.
      rewrite run_bind, run_emit. mred.
      set (rest := bind (lift (adapter d')) _).
      assert (Hkeep : respects (evolves E pid d) rest)
        by (unfold rest; evolve).
      intros Hb. eapply (respects_keeps E pid d rest); [exact Hkeep | exact Hb |].
      cbn [trace]. apply elem_of_cons. by left.
    - intros out ->. apply generate_blog_post_body_inv in Hb.
      destruct Hb as (g & _ & _ & _ & _ & _ & _ & _ & Hti & _).
      revert Hti. unfold d', dict_get. rewrite lookup_insert_eq.
      by intros [= <-]. }
  destruct (generate_blog_post_body E pid d' w1) as [[out|e] w2] eqn:Hb.
  - destruct (Hsub _ _ eq_refl) as (Hin & Hti). exists out, w2.
    split_and!; [done | by apply Hti | done].
  - destruct (Hsub _ _ eq_refl) as (Hin & _).
    destruct (generate_blog_post_except_total E pid d' e w2 t) as
      (out & w' & H & _).
    { unfold d', dict_get. by rewrite lookup_insert_eq. }
    exists out, w'. split; [done|].
    destruct (generate_blog_post_except_inv _ _ _ _ _ _ _ H) as (_ & _ & Htr & _).
    split; [|by rewrite Htr].
    revert H. unfold generate_blog_post_except. destruct w2 as [s2 f2 k2 t2].
    rewrite run_bind, run_now. mred. rewrite run_lift.
    unfold d', dict_get. rewrite lookup_insert_eq.
    cbn [default BlogGenerationOutput_validate]. by intros [= <- _].
Qed.

Lemma fallback_title_is_used_witness :
  exists out w',
    generate_blog_post default_env "p1"
      (dict [("id", VStr "p1"); ("title", VStr "")]) None empty_world
    = (Ok out, w') /\
    title out = "Generated content for p1 at 2024-01-01T00:00:00+00:00".
Proof.
  destruct (fallback_title_is_used default_env "p1"
              (dict [("id", VStr "p1"); ("title", VStr "")]) None ∅ [] 0%nat []
              (fun _ => Ok plain_answer)) as (out & w' & H & Ht & _).
  - reflexivity.
  - reflexivity.
  - exists out, w'. split; [exact H|]. rewrite Ht. vm_compute; reflexivity.
Defined.

(** ** Redelivery *)

Lemma BlogPostMessage_validate_title E payload m :
  BlogPostMessage_validate E payload = Some m ->
  truthy (dict_get (data m) "title" VNone) = true ->
  is_str (dict_get (data m) "title" VNone) = true.
Proof.
  destruct payload as [| | | |l|d]; try done. unfold BlogPostMessage_validate.
  intros H.
  destruct (aliased d "postId" "post_id" ≫= _); [|done]. cbn in H.
  destruct (d !! "action" ≫= _); [|done]. cbn in H.
  destruct (d !! "timestamp" ≫= _); [|done]. cbn in H.
  destruct (d !! "data") as [v|]; [|done]. cbn in H.
  destruct (BlogPostData v) as [b|] eqn:Hb; [|done]. cbn in H.
  injection H as <-. cbn [data].
  destruct v as [| | | | |bd]; try done.
  destruct (BlogPostData_fields bd b Hb) as (Ht & _).
  unfold dict_get. by destruct Ht as [-> | (t & ->)].
Qed.

Lemma deliver_app E body n1 n2 w :
  deliver E body (n1 + n2) w =
  let (rs1, w1) := deliver E body n1 w in
  let (rs2, w2) := deliver E body n2 w1 in
  (rs1 ++ rs2, w2).
Proof.
  revert w. induction n1 as [|n1 IH]; intros w; cbn [deliver Nat.add].
  - by destruct (deliver E body n2 w).
  - destruct (pubsub_push E body w) as [r w1]. rewrite IH.
    destruct (deliver E body n1 w1) as [rs1 w2].
    by destruct (deliver E body n2 w2).
Qed.

Lemma provider_calls_cons ev st fs k tr :
  provider_calls (mkWorld st fs k (ev :: tr)) =
  ((match ev with EvProvider _ => 1 | _ => 0 end)
   + provider_calls (mkWorld st fs k tr))%nat.
Proof. unfold provider_calls. cbn [trace List.filter]. by destruct ev. Qed.

(** The orchestrator when the provider fails: the error variant with the
    message of the provider, and nothing stored. *)
Lemma generate_blog_post_provider_fails E pid d ctx st k tr adapter e :
  (truthy (dict_get d "title" VNone) = true ->
   is_str (dict_get d "title" VNone) = true) ->
  get_ai_adapter E = Ok adapter ->
  adapter (fst (titled E pid d k)) = Raise e ->
  exists out,
    generate_blog_post E pid d ctx (mkWorld st [] k tr) =
    (Ok out,
     mkWorld st [] (S (snd (titled E pid d k)))
       (EvProvider (fst (titled E pid d k)) :: EvOrchestrate pid d :: tr)) /\
    status out = error /\ error_message out = Some (exn_str e) /\
    generated_content out = "".
Proof.
  intros Ht Ha Hf. rewrite generate_blog_post_split, run_try.
  unfold generate_blog_post_body at 1.
  rewrite run_bind, run_lift, Ha. mred. rewrite run_bind, run_emit. mred.
  rewrite run_bind, run_lift, Hf. mred.
  destruct (titled_title E pid d k Ht) as (t & Hd').
  unfold generate_blog_post_except. rewrite run_bind, run_now. mred.
  rewrite run_lift, Hd'. cbn [BlogGenerationOutput_validate].
  eexists. by split_and!.
Qed.

Section Redelivery.
Context (E : Env) (body : PubSubMessage) (payload : value)
  (m : BlogPostMessage) (at_time : string) (adapter : doc -> result string)
  (e : exn).
Hypothesis Hdecode : decode_payload E (message body) = Ok payload.
Hypothesis Hvalid : BlogPostMessage_validate E payload = Some m.
Hypothesis Haction : action m <> "regenerate".
Hypothesis Htime : fromtimestamp_iso E (timestamp m) = Some at_time.
Hypothesis Hadapter : get_ai_adapter E = Ok adapter.
Hypothesis Hfails : forall d, adapter d = Raise e.
Hypothesis Hjson : json_loads E "" = Ok None.

(** The generation block with such a provider: the provider is called
    once, and the failure is raised below the ceiling and recorded for good
    at the ceiling. *)
Lemma failing_generation st k tr r rc mr :
  st !! ("posts", post_id m) = Some r ->
  r !! "retry_count" = Some (VInt rc) ->
  r !! "max_retries" = Some (VInt mr) ->
  exists w',
    try_except (generate_and_record E m) (on_failure E m)
      (mkWorld st [] k tr) =
    (if rc <? mr then Raise (Exn PlainException (reported e))
     else Ok (Some (post_id m)), w') /\
    job_at w' (post_id m)
      (if rc <? mr then "error" else "failed_permanently") rc mr /\
    provider_calls w' = S (provider_calls (mkWorld st [] k tr)).
Proof.
  intros Hr Hrc Hmr.
  destruct (generate_blog_post_provider_fails E (post_id m) (data m) None
              st k tr adapter e
              (BlogPostMessage_validate_title E payload m Hvalid)
              Hadapter (Hfails _)) as (out & Hout & Hstat & Herr & Hgc).
  assert (Hsecs : extract_sections E (generated_content out) = Ok None).
  { rewrite Hgc. unfold extract_sections. by rewrite Hjson. }
  rewrite run_try.
  rewrite (generate_and_record_error E m _ at_time None out _ _ _ None r
             Htime Hout Hstat Hsecs Hr).
  rewrite Herr. fold (reported e).
  set (r3 := generation_error_payload _ (reported e) ∪ r).
  set (st3 := <[("posts", post_id m) := r3]> st).
  assert (Hrc3 : r3 !! "retry_count" = Some (VInt rc))
    by (unfold r3; by rewrite lookup_union_r).
  assert (Hmr3 : r3 !! "max_retries" = Some (VInt mr))
    by (unfold r3; by rewrite lookup_union_r).
  assert (Hr3 : st3 !! ("posts", post_id m) = Some r3)
    by (unfold st3; by rewrite lookup_insert_eq).
  destruct (Z.ltb_spec rc mr) as [Hlt|Hge].
  - rewrite (on_failure_retry E m _ _ _ _ r3 rc mr Hr3 Hrc3 Hmr3 Hlt).
    eexists. split; [done|]. split.
    + split; [done|]. cbn [store]. rewrite lookup_insert_eq. eexists.
      split; [done|]. split_and!.
      * by apply lookup_payload.
      * by apply lookup_payload.
      * by rewrite lookup_union_r.
    + by rewrite !provider_calls_cons.
  - rewrite (on_failure_exceeded E m _ _ _ _ r3 rc mr Hr3 Hrc3 Hmr3 Hge).
    eexists. split; [done|]. split.
    + split; [done|]. cbn [store]. rewrite lookup_insert_eq. eexists.
      split; [done|]. split_and!.
      * by apply lookup_payload.
      * by apply lookup_payload.
      * by rewrite lookup_union_r.
    + by rewrite !provider_calls_cons.
Qed.

(** One delivery while the counter is below the ceiling: the counter rises
    by one first. *)
Lemma failing_delivery w s rc mr :
  job_at w (post_id m) s rc mr ->
  s <> "failed_permanently" ->
  rc < mr ->
  exists w',
    process_message E (message body) w =
    (if rc + 1 <? mr then Raise (Exn PlainException (reported e))
     else Ok (Some (post_id m)), w') /\
    job_at w' (post_id m)
      (if rc + 1 <? mr then "error" else "failed_permanently") (rc + 1) mr /\
    provider_calls w' = S (provider_calls w).
Proof.
  intros (Hfs & r & Hr & Hjob) Hs Hlt. destruct w as [st fs k tr].
  cbn [faults store] in *. subst fs.
  rewrite (process_message_continues E (message body) _ m _ _
             (receive_message_plain E _ _ payload m Hdecode Hvalid Haction)
             (admit_retry E m st k tr r s rc mr Hr Hjob Hs Hlt)).
  destruct Hjob as (Hst & Hrc & Hmr).
  edestruct (failing_generation
               (<[("posts", post_id m) :=
                    retry_payload (utc_now_iso E k) rc ∪ r]> st) (S k)
               (EvUpdate "posts" (post_id m)
                  (retry_payload (utc_now_iso E k) rc)
                :: EvGet "posts" (post_id m) :: tr)
               (retry_payload (utc_now_iso E k) rc ∪ r) (rc + 1) mr)
    as (w' & H & Hj & Hp).
  - by rewrite lookup_insert_eq.
  - by apply lookup_payload.
  - by rewrite lookup_union_r.
  - exists w'. split_and!; [done | done |].
    rewrite Hp. by rewrite !provider_calls_cons.
Qed.

(** The first delivery for a post: the job record is created with the
    counter at zero and the ceiling at three, and the generation fails. *)
Lemma first_failing_delivery w :
  faults w = [] ->
  found (store w !! ("posts", post_id m)) = None ->
  is_action (action m) = true ->
  exists w',
    process_message E (message body) w =
    (Raise (Exn PlainException (reported e)), w') /\
    job_at w' (post_id m) "error" 0 3 /\
    provider_calls w' = S (provider_calls w).
Proof.
  intros Hfs Hnone Hact. destruct w as [st fs k tr].
  cbn [faults store] in *. subst fs.
  assert (Hjob : exists job,
             ProcessedBlogPost (post_id m) (action m) (timestamp m) (data m)
               (utc_now_iso E k) = Some job).
  { unfold ProcessedBlogPost. rewrite Hact. by eexists. }
  destruct Hjob as (job & Hjob).
  destruct (ProcessedBlogPost_fields _ _ _ _ _ _ Hjob)
    as (_ & _ & _ & Hrc & Hmr & _).
  rewrite (process_message_continues E (message body) _ m _ _
             (receive_message_plain E _ _ payload m Hdecode Hvalid Haction)
             (admit_create E m st k tr job Hnone Hjob)).
  edestruct (failing_generation (<[("posts", post_id m) := job]> st) (S k)
               (EvSet "posts" (post_id m) job
                :: EvGet "posts" (post_id m) :: tr) job 0 3)
    as (w' & H & Hj & Hp); [by rewrite lookup_insert_eq | done | done |].
  exists w'. split_and!; [done | done |].
  rewrite Hp. by rewrite !provider_calls_cons.
Qed.

(** One delivery once the record is failed for good: nothing happens. *)
Lemma terminal_delivery w rc mr :
  job_at w (post_id m) "failed_permanently" rc mr ->
  exists w',
    process_message E (message body) w = (Ok (Some (post_id m)), w') /\
    store w' = store w /\ faults w' = [] /\
    provider_calls w' = provider_calls w.
Proof.
  intros (Hfs & r & Hr & Hst & _). destruct w as [st fs k tr].
  cbn [faults store] in *. subst fs. eexists. split.
  - eapply process_message_returns.
    + by apply (receive_message_plain E _ _ payload m).
    + by eapply admit_terminal.
  - by rewrite provider_calls_cons.
Qed.

Lemma terminal_deliveries n w rc mr :
  job_at w (post_id m) "failed_permanently" rc mr ->
  exists w',
    deliver E body n w = (replicate n NoContent, w') /\
    store w' = store w /\ faults w' = [] /\
    provider_calls w' = provider_calls w.
Proof.
  revert w. induction n as [|n IH]; intros w Hjob.
  - exists w. by destruct Hjob.
  - destruct (terminal_delivery w rc mr Hjob) as (w1 & H1 & Hs1 & Hf1 & Hp1).
    cbn [deliver]. unfold pubsub_push. rewrite H1.
    destruct (IH w1) as (w2 & H2 & Hs2 & Hf2 & Hp2).
    { destruct Hjob as (_ & r & Hr & Hj). split; [done|]. exists r.
      by rewrite Hs1. }
    rewrite H2. exists w2. split_and!; [done | congruence | done | congruence].
Qed.

Lemma failing_deliveries n :
  forall w s rc mr,
    job_at w (post_id m) s rc mr ->
    s <> "failed_permanently" ->
    rc + Z.of_nat (S n) = mr ->
    exists w',
      deliver E body (S n) w =
      (replicate n (failed_to_process (Exn PlainException (reported e)))
       ++ [NoContent], w') /\
      job_at w' (post_id m) "failed_permanently" mr mr /\
      provider_calls w' = (provider_calls w + S n)%nat.
Proof.
  induction n as [|n IH]; intros w s rc mr Hjob Hs Hmr.
  - destruct (failing_delivery w s rc mr Hjob Hs) as (w1 & H1 & Hj1 & Hp1);
      [lia|].
    destruct (Z.ltb_spec (rc + 1) mr) as [|_]; [lia|].
    cbn [deliver]. unfold pubsub_push. rewrite H1. exists w1.
    replace (rc + 1) with mr in Hj1 by lia.
    split_and!; [done | done | lia].
  - destruct (failing_delivery w s rc mr Hjob Hs) as (w1 & H1 & Hj1 & Hp1);
      [lia|].
    destruct (Z.ltb_spec (rc + 1) mr) as [_|]; [|lia].
    destruct (IH w1 "error" (rc + 1) mr Hj1) as (w2 & H2 & Hj2 & Hp2);
      [done | lia |].
    change (deliver E body (S (S n)) w) with
      (let (r, w1) := pubsub_push E body w in
       let (rs, w2) := deliver E body (S n) w1 in (r :: rs, w2)).
    unfold pubsub_push at 1. rewrite H1, H2. exists w2.
    split_and!; [done | done | lia].
Qed.

(** X10.  Redelivery is bounded.  With a provider that fails on every
    call, a job whose counter is [n + 1] below its ceiling is answered with
    500 exactly [n] times, each after one call to the provider; the next
    delivery reaches the ceiling, records the job as failed for good and is
    acknowledged; every later delivery is acknowledged without a call to
    the provider or a change of the store. *)
Theorem redelivery_is_bounded n later w s rc mr :
  job_at w (post_id m) s rc mr ->
  s <> "failed_permanently" ->
  rc + Z.of_nat (S n) = mr ->
  exists w',
    deliver E body (S n + later) w =
    (replicate n (failed_to_process (Exn PlainException (reported e)))
     ++ replicate (S later) NoContent, w') /\
    job_at w' (post_id m) "failed_permanently" mr mr /\
    provider_calls w' = (provider_calls w + S n)%nat.
Proof.
  intros Hjob Hs Hmr.
  destruct (failing_deliveries n w s rc mr Hjob Hs Hmr)
    as (w1 & H1 & Hj1 & Hp1).
  destruct (terminal_deliveries later w1 mr mr Hj1)
    as (w2 & H2 & Hs2 & Hf2 & Hp2).
  exists w2. rewrite deliver_app, H1, H2. split_and!.
  - by rewrite <- app_assoc.
  - destruct Hj1 as (_ & r & Hr & Hj). split; [done|]. exists r.
    by rewrite Hs2.
  - congruence.
Qed.
(** X11.  A post that is delivered for the first time is tried four times
    when the provider keeps failing: the record is created with a ceiling
    of three, the first delivery does not count as a retry, and the fourth
    call to the provider is the last.  Three deliveries are answered with
    500 and every delivery from the fourth on is acknowledged. *)
Theorem first_delivery_is_tried_four_times later w :
  faults w = [] ->
  found (store w !! ("posts", post_id m)) = None ->
  is_action (action m) = true ->
  exists w',
    deliver E body (4 + later) w =
    (replicate 3 (failed_to_process (Exn PlainException (reported e)))
     ++ replicate (S later) NoContent, w') /\
    job_at w' (post_id m) "failed_permanently" 3 3 /\
    provider_calls w' = (provider_calls w + 4)%nat.
Proof.
  intros Hfs Hnone Hact.
  destruct (first_failing_delivery w Hfs Hnone Hact) as (w1 & H1 & Hj1 & Hp1).
  destruct (failing_deliveries 2 w1 "error" 0 3 Hj1) as (w2 & H2 & Hj2 & Hp2);
    [done | done |].
  destruct (terminal_deliveries later w2 3 3 Hj2)
    as (w3 & H3 & Hs3 & Hf3 & Hp3).
  exists w3.
  change (4 + later)%nat with (S (3 + later)).
  change (deliver E body (S (3 + later)) w) with
    (let (r, w1) := pubsub_push E body w in
     let (rs, w2) := deliver E body (3 + later) w1 in (r :: rs, w2)).
  unfold pubsub_push at 1. rewrite H1, deliver_app, H2, H3. split_and!.
  - cbn [replicate app]. done.
  - destruct Hj2 as (_ & r & Hr & Hj). split; [done|]. exists r.
    by rewrite Hs3.
  - lia.
Qed.
End Redelivery.

Lemma redelivery_is_bounded_witness :
  exists w',
    deliver failing_env created_push 4
      (world_with (stored_job "error" 0 3) []) =
    ([failed_to_process (Exn PlainException "quota exceeded");
      failed_to_process (Exn PlainException "quota exceeded");
      NoContent; NoContent], w') /\
    provider_calls w' = 3%nat.
Proof.
  destruct (redelivery_is_bounded failing_env created_push created_payload
              (the_result no_message
                 (fst (receive_message failing_env (envelope created_b64)
                         empty_world)))
              "2023-11-14T22:13:20+00:00"
              (fun _ => Raise (Exn ProviderError "quota exceeded"))
              (Exn ProviderError "quota exceeded"))
    with (n := 2%nat) (later := 1%nat)
         (w := world_with (stored_job "error" 0 3) [])
         (s := "error") (rc := 0) (mr := 3)
    as (w' & H & _ & Hp).
  - reflexivity.
  - vm_compute; reflexivity.
  - vm_compute. discriminate.
  - reflexivity.
  - reflexivity.
  - reflexivity.
  - reflexivity.
  - split; [reflexivity|]. eexists. split; [reflexivity|].
    split_and!; reflexivity.
  - discriminate.
  - reflexivity.
  - exists w'. split; [exact H | exact Hp].
Defined.

Lemma first_delivery_is_tried_four_times_witness :
  exists w',
    deliver failing_env created_push 5 empty_world =
    ([failed_to_process (Exn PlainException "quota exceeded");
      failed_to_process (Exn PlainException "quota exceeded");
      failed_to_process (Exn PlainException "quota exceeded");
      NoContent; NoContent], w') /\
    provider_calls w' = 4%nat.
Proof.
  destruct (first_delivery_is_tried_four_times failing_env created_push
              created_payload
              (the_result no_message
                 (fst (receive_message failing_env (envelope created_b64)
                         empty_world)))
              "2023-11-14T22:13:20+00:00"
              (fun _ => Raise (Exn ProviderError "quota exceeded"))
              (Exn ProviderError "quota exceeded"))
    with (later := 1%nat) (w := empty_world)
    as (w' & H & _ & Hp).
  - reflexivity.
  - vm_compute; reflexivity.
  - vm_compute. discriminate.
  - reflexivity.
  - reflexivity.
  - reflexivity.
  - reflexivity.
  - reflexivity.
  - reflexivity.
  - reflexivity.
  - exists w'. split; [exact H | exact Hp].
Defined.

(** ** Messages that can never be processed *)

Lemma receive_message_undecodable E md w e :
  decode_payload E md = Raise e -> receive_message E md w = (Raise e, w).
Proof. intros H. unfold receive_message. by rewrite run_bind, run_lift, H. Qed.

(** X12.  A message that cannot be decoded, or whose payload does not
    validate, is answered with 500 on every delivery, and no delivery reads
    or writes anything: the endpoint never acknowledges it. *)
Theorem malformed_message_is_never_acknowledged E body e n w :
  decode_payload E (message body) = Raise e \/
  (exists payload,
     decode_payload E (message body) = Ok payload /\
     BlogPostMessage_validate E payload = None /\
     e = Exn ValidationError (describe E ValidationError)) ->
  deliver E body n w = (replicate n (failed_to_process e), w).
Proof.
  intros H.
  assert (Hone : forall w, pubsub_push E body w = (failed_to_process e, w)).
  { intros w0. unfold pubsub_push.
    rewrite (process_message_rejected E (message body) w0 e w0); [done|].
    destruct H as [H | (payload & Hd & Hv & ->)].
    - by apply receive_message_undecodable.
    - by eapply receive_message_rejects. }
  induction n as [|n IH]; [done|].
  cbn [deliver replicate]. by rewrite Hone, IH.
Qed.

Lemma malformed_message_is_never_acknowledged_witness :
  deliver default_env
    {| message := envelope noid_b64; subscription := "blog-posts-sub" |} 3
    (world_with (stored_job "completed" 0 3) [])
  = (replicate 3 (HTTPException 500
                    "Failed to process message: validation error"),
     world_with (stored_job "completed" 0 3) []).
Proof.
  apply (malformed_message_is_never_acknowledged default_env
           {| message := envelope noid_b64; subscription := "blog-posts-sub" |}
           (Exn ValidationError "validation error")).
  right. exists noid_payload. split_and!; reflexivity.
Defined.

(** ** Admission of records that were not written by the handler *)

(** X13.  For a message that has passed intake, a job document that
    exists and is empty counts as absent: admission overwrites it with a
    fresh job record and the handler goes on to the generation.  (Under the
    default settings a regeneration does not pass intake on such a
    document, which is then also its original post.) *)
Theorem empty_record_is_replaced E md w m st k tr :
  receive_message E md w = (Ok m, mkWorld st [] k tr) ->
  st !! ("posts", post_id m) = Some ∅ ->
  is_action (action m) = true ->
  exists job,
    job_record job "processing" 0 3 /\
    process_message E md w =
    try_except (generate_and_record E m) (on_failure E m)
      (mkWorld (<[("posts", post_id m) := job]> st) [] (S k)
         (EvSet "posts" (post_id m) job :: EvGet "posts" (post_id m) :: tr)).
Proof.
  intros Hrecv Hr Ha.
  assert (Hjob : exists job,
             ProcessedBlogPost (post_id m) (action m) (timestamp m) (data m)
               (utc_now_iso E k) = Some job).
  { unfold ProcessedBlogPost. rewrite Ha. by eexists. }
  destruct Hjob as (job & Hjob). exists job. split.
  - destruct (ProcessedBlogPost_fields _ _ _ _ _ _ Hjob)
      as (_ & _ & ? & ? & ? & _).
    by split_and!.
  - eapply process_message_continues; [exact Hrecv|].
    apply admit_create; [by rewrite Hr | done].
Qed.

Lemma empty_record_is_replaced_witness :
  exists job w',
    job_record job "processing" 0 3 /\
    process_message default_env (envelope created_b64)
      (mkWorld {[ ("posts", "p1") := ∅ ]} [] 0 [])
    = try_except
        (generate_and_record default_env
           (the_result no_message
              (fst (receive_message default_env (envelope created_b64)
                      empty_world))))
        (on_failure default_env
           (the_result no_message
              (fst (receive_message default_env (envelope created_b64)
                      empty_world))))
        w' /\
    store w' !! ("posts", "p1") = Some job.
Proof.
  destruct (empty_record_is_replaced default_env (envelope created_b64)
              (mkWorld {[ ("posts", "p1") := ∅ ]} [] 0 [])
              (the_result no_message
                 (fst (receive_message default_env (envelope created_b64)
                         empty_world)))
              {[ ("posts", "p1") := ∅ ]} 0%nat [])
    as (job & Hj & H).
  - vm_compute; reflexivity.
  - reflexivity.
  - reflexivity.
  - exists job. eexists. split; [exact Hj|]. split; [exact H|].
    cbn [store]. apply lookup_insert_eq.
Defined.

(** X14.  A record without counters is read with a counter of zero and a
    ceiling of three: the delivery is admitted as the first retry, the
    counter is written as one, and the ceiling is still not written. *)
Theorem missing_counters_default E m st k tr r :
  st !! ("posts", post_id m) = Some r ->
  doc_truthy r = true ->
  r !! "retry_count" = None ->
  r !! "max_retries" = None ->
  str_is (dict_get r "status" (VStr "processing")) "failed_permanently"
    = false ->
  exists w',
    admit_job E m (mkWorld st [] k tr) = (Ok Continue, w') /\
    stored_field w' (post_id m) "retry_count" = Some (VInt 1) /\
    stored_field w' (post_id m) "status" = Some (VStr "processing") /\
    stored_field w' (post_id m) "max_retries" = None.
Proof.
  intros Hr Ht Hrc Hmr Hs. unfold admit_job. mstep.
  rewrite Hr. unfold found. rewrite Ht. mred.
  rewrite Hs. unfold dict_get at 1 2. rewrite Hrc, Hmr.
  cbn [default from_option id py_ge as_number Z.leb Z.compare]. mstep.
  unfold dict_get at 1. rewrite Hrc.
  cbn [default from_option id py_incr as_number]. mstep.
  rewrite (run_update _ _ _ _ r) by done. mstep.
  eexists. split; [done|]. unfold stored_field. cbn [store].
  rewrite lookup_insert_eq. cbn [mbind option_bind].
  split_and!.
  - by apply lookup_payload.
  - by apply lookup_payload.
  - by rewrite lookup_union_r.
Qed.

Lemma missing_counters_default_witness :
  exists w',
    admit_job default_env
      {| post_id := "p1"; action := "created"; timestamp := 1700000000000;
         data := dict hello_brief |}
      (world_with (dict [("status", VStr "completed")]) [])
    = (Ok Continue, w') /\
    stored_field w' "p1" "retry_count" = Some (VInt 1).
Proof.
  destruct (missing_counters_default default_env
              {| post_id := "p1"; action := "created";
                 timestamp := 1700000000000; data := dict hello_brief |}
              {[ ("posts", "p1") := dict [("status", VStr "completed")] ]}
              0%nat [] (dict [("status", VStr "completed")]))
    as (w' & H & Hrc & _); try reflexivity.
  exists w'. split; [exact H | exact Hrc].
Defined.

(** ** A failure that cannot be recorded *)

(** X15.  When the update that records a failure fails itself, that second
    failure is dropped: below the ceiling the first failure is raised as
    usual, and at the ceiling the delivery is acknowledged although the
    record was not marked as failed for good. *)
Theorem unrecorded_failure_is_dropped E m e st fs k tr r rc mr :
  st !! ("posts", post_id m) = Some r ->
  r !! "retry_count" = Some (VInt rc) ->
  r !! "max_retries" = Some (VInt mr) ->
  on_failure E m e (mkWorld st (false :: true :: fs) k tr) =
  (if rc <? mr then Raise e else Ok (Some (post_id m)),
   mkWorld st fs (S k) (EvGet "posts" (post_id m) :: tr)).
Proof.
  intros Hr Hrc Hmr. unfold on_failure.
  rewrite run_bind, run_get_pass. mred.
  rewrite Hr, (found_lookup _ _ _ Hrc). unfold dict_get. rewrite Hrc, Hmr.
  cbn [default from_option id py_ge py_lt as_number]. mstep.
  rewrite run_update_fault. mstep.
  by destruct (rc <? mr).
Qed.

Lemma unrecorded_failure_is_dropped_witness :
  on_failure default_env
    {| post_id := "p1"; action := "created"; timestamp := 1700000000000;
       data := dict hello_brief |}
    (Exn PlainException "quota exceeded")
    (world_with (stored_job "processing" 3 3) [false; true])
  = (Ok (Some "p1"),
     mkWorld {[ ("posts", "p1") := stored_job "processing" 3 3 ]} [] 1
       [EvGet "posts" "p1"]).
Proof.
  apply (unrecorded_failure_is_dropped default_env
           {| post_id := "p1"; action := "created";
              timestamp := 1700000000000; data := dict hello_brief |}
           (Exn PlainException "quota exceeded")
           {[ ("posts", "p1") := stored_job "processing" 3 3 ]} [] 0%nat []
           (stored_job "processing" 3 3) 3 3); reflexivity.
Defined.

(** ** Replays of a job that succeeds *)

Section Replay.
Context (E : Env) (body : PubSubMessage) (payload : value)
  (m : BlogPostMessage) (at_time : string) (adapter : doc -> result string)
  (text : string) (secs : option (list value)).
Hypothesis Hdecode : decode_payload E (message body) = Ok payload.
Hypothesis Hvalid : BlogPostMessage_validate E payload = Some m.
Hypothesis Haction : action m <> "regenerate".
Hypothesis Htime : fromtimestamp_iso E (timestamp m) = Some at_time.
Hypothesis Hadapter : get_ai_adapter E = Ok adapter.
Hypothesis Hanswers : forall d, adapter d = Ok text.
Hypothesis Hsecs : extract_sections E text = Ok secs.
Hypothesis Hkeywords :
  is_Some (check_str_list (dict_get (data m) "keywords" (VList []))).
Hypothesis Hfocus : is_str (dict_get (data m) "focus" (VStr "")) = true.
Hypothesis Hseparate : FIRESTORE_GENERATED_POSTS_COLLECTION E <> "posts".

Lemma brief_outside k : k ∉ brief_keys -> data m !! k = None.
Proof. by apply (BlogPostMessage_validate_data E payload). Qed.

(** The generated post can be built from the brief of the message. *)
Lemma GeneratedPost_of_brief k now sections :
  is_Some (GeneratedPost (post_id m)
             (dict_get (fst (titled E (post_id m) (data m) k)) "title"
                (VStr ""))
             (dict_get (fst (titled E (post_id m) (data m) k))
                "originalContent" (VStr ""))
             (dict_get (fst (titled E (post_id m) (data m) k)) "keywords"
                (VList []))
             (dict_get (fst (titled E (post_id m) (data m) k)) "focus"
                (VStr ""))
             text sections now).
Proof.
  destruct (titled_title E (post_id m) (data m) k
              (BlogPostMessage_validate_title E payload m Hvalid))
    as (t & Ht).
  rewrite Ht, !titled_other by done. unfold GeneratedPost.
  assert (Hoc : dict_get (data m) "originalContent" (VStr "") = VStr "").
  { unfold dict_get. rewrite brief_outside; [done|].
    unfold brief_keys. rewrite !not_elem_of_cons.
    split_and!; try apply not_elem_of_nil; intros Hk; discriminate Hk. }
  rewrite Hoc. destruct Hkeywords as (kw & ->).
  destruct (dict_get (data m) "focus" (VStr "")) as [| | |f| |]; try done;
    by eexists.
Qed.

(** The generation block with a provider that answers: the provider is
    called once, both records are written, and the counters stay. *)
Lemma successful_generation st k tr r :
  st !! ("posts", post_id m) = Some r ->
  exists w' r',
    try_except (generate_and_record E m) (on_failure E m)
      (mkWorld st [] k tr) = (Ok None, w') /\
    faults w' = [] /\
    store w' !! ("posts", post_id m) = Some r' /\
    r' !! "status" = Some (VStr "completed") /\
    r' !! "sections" = Some (sections_value secs) /\
    r' !! "generatedContent" = Some (VStr text) /\
    r' !! "retry_count" = r !! "retry_count" /\
    r' !! "max_retries" = r !! "max_retries" /\
    generated_field E w' (post_id m) "sections"
      = Some (from_option VList VNone secs) /\
    provider_calls w' = S (provider_calls (mkWorld st [] k tr)).
Proof.
  intros Hr.
  destruct (GeneratedPost_of_brief k
              (utc_now_iso E (snd (titled E (post_id m) (data m) k)))
              (from_option VList VNone secs)) as (g & Hg).
  assert (Hp : fst (titled E (post_id m) (data m) k) !! "previousGeneration"
               = None).
  { apply titled_no_previous, brief_outside.
    unfold brief_keys. rewrite !not_elem_of_cons.
    split_and!; try apply not_elem_of_nil; intros Hk; discriminate Hk. }
  assert (Hne : (FIRESTORE_GENERATED_POSTS_COLLECTION E, post_id m)
                <> ("posts", post_id m)) by congruence.
  rewrite (generate_and_record_completes E m st k tr at_time adapter text
             secs g r Htime Hadapter (Hanswers _) Hsecs Hg Hp)
    by (by rewrite lookup_insert_ne).
  eexists _, _. split; [done|]. cbn [faults store].
  rewrite lookup_insert_eq.
  split_and!;
    first [ done | by apply lookup_payload | by rewrite lookup_union_r
          | by rewrite !provider_calls_cons | idtac ].
  unfold generated_field. cbn [store].
  rewrite lookup_insert_ne, lookup_insert_eq by done.
  cbn [mbind option_bind].
  by destruct (GeneratedPost_fields _ _ _ _ _ _ _ _ _ Hg)
    as (_ & _ & _ & _ & ? & _).
Qed.

Lemma successful_delivery w s rc mr :
  job_at w (post_id m) s rc mr ->
  s <> "failed_permanently" ->
  rc < mr ->
  exists w',
    process_message E (message body) w = (Ok None, w') /\
    job_at w' (post_id m) "completed" (rc + 1) mr /\
    provider_calls w' = S (provider_calls w).
Proof.
  intros (Hfs & r & Hr & Hjob) Hs Hlt. destruct w as [st fs k tr].
  cbn [faults store] in *. subst fs.
  rewrite (process_message_continues E (message body) _ m _ _
             (receive_message_plain E _ _ payload m Hdecode Hvalid Haction)
             (admit_retry E m st k tr r s rc mr Hr Hjob Hs Hlt)).
  destruct Hjob as (Hst & Hrc & Hmr).
  edestruct (successful_generation
               (<[("posts", post_id m) :=
                    retry_payload (utc_now_iso E k) rc ∪ r]> st) (S k)
               (EvUpdate "posts" (post_id m)
                  (retry_payload (utc_now_iso E k) rc)
                :: EvGet "posts" (post_id m) :: tr))
    as (w' & r' & H & Hf & Hr' & Hst' & _ & _ & Hrc' & Hmr' & _ & Hp).
  { by rewrite lookup_insert_eq. }
  exists w'. split_and!; [done | |].
  - split; [done|]. exists r'. split; [done|]. split_and!; [done | |].
    + rewrite Hrc'. by apply lookup_payload.
    + rewrite Hmr'. by rewrite lookup_union_r.
  - rewrite Hp. by rewrite !provider_calls_cons.
Qed.

Lemma first_successful_delivery w :
  faults w = [] ->
  found (store w !! ("posts", post_id m)) = None ->
  is_action (action m) = true ->
  exists w',
    process_message E (message body) w = (Ok None, w') /\
    job_at w' (post_id m) "completed" 0 3 /\
    provider_calls w' = S (provider_calls w).
Proof.
  intros Hfs Hnone Hact. destruct w as [st fs k tr].
  cbn [faults store] in *. subst fs.
  assert (Hjob : exists job,
             ProcessedBlogPost (post_id m) (action m) (timestamp m) (data m)
               (utc_now_iso E k) = Some job).
  { unfold ProcessedBlogPost. rewrite Hact. by eexists. }
  destruct Hjob as (job & Hjob).
  destruct (ProcessedBlogPost_fields _ _ _ _ _ _ Hjob)
    as (_ & _ & _ & Hrc & Hmr & _).
  rewrite (process_message_continues E (message body) _ m _ _
             (receive_message_plain E _ _ payload m Hdecode Hvalid Haction)
             (admit_create E m st k tr job Hnone Hjob)).
  edestruct (successful_generation (<[("posts", post_id m) := job]> st) (S k)
               (EvSet "posts" (post_id m) job
                :: EvGet "posts" (post_id m) :: tr))
    as (w' & r' & H & Hf & Hr' & Hst' & _ & _ & Hrc' & Hmr' & _ & Hp).
  { by rewrite lookup_insert_eq. }
  exists w'. split_and!; [done | |].
  - split; [done|]. exists r'. split; [done|]. split_and!; congruence.
  - rewrite Hp. by rewrite !provider_calls_cons.
Qed.

(** A delivery that finds the counter at the ceiling gives up without
    calling the provider. *)
Lemma exceeded_delivery w s rc mr :
  job_at w (post_id m) s rc mr ->
  s <> "failed_permanently" ->
  mr <= rc ->
  exists w',
    process_message E (message body) w = (Ok (Some (post_id m)), w') /\
    job_at w' (post_id m) "failed_permanently" rc mr /\
    provider_calls w' = provider_calls w.
Proof.
  intros (Hfs & r & Hr & Hjob) Hs Hle. destruct w as [st fs k tr].
  cbn [faults store] in *. subst fs.
  rewrite (process_message_returns E (message body) _ m _ _ _
             (receive_message_plain E _ _ payload m Hdecode Hvalid Haction)
             (admit_exceeded E m st k tr r s rc mr Hr Hjob Hs Hle)).
  destruct Hjob as (Hst & Hrc & Hmr).
  eexists. split; [done|]. split.
  - split; [done|]. cbn [store]. rewrite lookup_insert_eq. eexists.
    split; [done|]. split_and!.
    + by apply lookup_payload.
    + by apply lookup_payload.
    + by rewrite lookup_union_r.
  - by rewrite !provider_calls_cons.
Qed.

Lemma successful_deliveries n :
  forall w s rc mr,
    job_at w (post_id m) s rc mr ->
    s <> "failed_permanently" ->
    rc + Z.of_nat n = mr ->
    exists w' s',
      deliver E body n w = (replicate n NoContent, w') /\
      job_at w' (post_id m) s' mr mr /\ s' <> "failed_permanently" /\
      provider_calls w' = (provider_calls w + n)%nat.
Proof.
  induction n as [|n IH]; intros w s rc mr Hjob Hs Hmr.
  - cbn [Z.of_nat] in Hmr. rewrite Z.add_0_r in Hmr. subst mr. exists w, s.
    split_and!; [done | done | done | lia].
  - destruct (successful_delivery w s rc mr Hjob Hs) as (w1 & H1 & Hj1 & Hp1);
      [lia|].
    destruct (IH w1 "completed" (rc + 1) mr Hj1) as (w2 & s' & H2 & Hj2 & Hs' & Hp2);
      [done | lia |].
    exists w2, s'. cbn [deliver replicate]. unfold pubsub_push at 1.
    rewrite H1, H2. split_and!; [done | done | done | lia].
Qed.

(** X16.  Deliveries that succeed use the retries up as well.  Take a
    provider that answers every call with the same text, whose sections, if
    it has any, are well formed, a brief whose keywords are a list of
    strings and whose focus is a string, and generated posts kept apart from
    the job records, so that every generation succeeds.  Then a post is
    generated on its first delivery and on three replays; the fifth delivery
    finds the counter at the ceiling, overwrites the completed job with
    failed_permanently and does not generate, and no later message for the
    post is generated either.  Every delivery is acknowledged. *)
Theorem fifth_delivery_fails_for_good later w :
  faults w = [] ->
  found (store w !! ("posts", post_id m)) = None ->
  is_action (action m) = true ->
  exists w',
    deliver E body (5 + later) w = (replicate (5 + later) NoContent, w') /\
    job_at w' (post_id m) "failed_permanently" 3 3 /\
    provider_calls w' = (provider_calls w + 4)%nat.
Proof.
  intros Hfs Hnone Hact.
  destruct (first_successful_delivery w Hfs Hnone Hact)
    as (w1 & H1 & Hj1 & Hp1).
  destruct (successful_deliveries 3 w1 "completed" 0 3 Hj1)
    as (w2 & s' & H2 & Hj2 & Hs' & Hp2); [done | done |].
  destruct (exceeded_delivery w2 s' 3 3 Hj2 Hs') as (w3 & H3 & Hj3 & Hp3);
    [done|].
  destruct (terminal_deliveries E body payload m Hdecode Hvalid Haction later
              w3 3 3 Hj3) as (w4 & H4 & Hs4 & Hf4 & Hp4).
  exists w4.
  change (5 + later)%nat with (S (3 + S later)).
  change (deliver E body (S (3 + S later)) w) with
    (let (r, w1) := pubsub_push E body w in
     let (rs, w2) := deliver E body (3 + S later) w1 in (r :: rs, w2)).
  unfold pubsub_push at 1. rewrite H1, deliver_app, H2.
  cbn [deliver]. unfold pubsub_push at 1. rewrite H3, H4. split_and!.
  - cbn [replicate app Nat.add]. done.
  - destruct Hj3 as (_ & r & Hr & Hj). split; [done|]. exists r.
    by rewrite Hs4.
  - lia.
Qed.

(** X17.  What a successful generation records about sections.  The
    generated post stores the list of sections that was read from the
    answer, and no list when there was none to read; the job record stores
    the same, except for an empty list, which it stores as null. *)
Theorem sections_are_recorded st k tr r :
  st !! ("posts", post_id m) = Some r ->
  exists w',
    try_except (generate_and_record E m) (on_failure E m)
      (mkWorld st [] k tr) = (Ok None, w') /\
    generated_field E w' (post_id m) "sections"
      = Some (from_option VList VNone secs) /\
    stored_field w' (post_id m) "sections"
      = Some (match secs with
              | Some [] => VNone
              | _ => from_option VList VNone secs
              end) /\
    stored_field w' (post_id m) "generatedContent" = Some (VStr text).
Proof.
  intros Hr.
  destruct (successful_generation st k tr r Hr)
    as (w' & r' & H & _ & Hr' & _ & Hs & Hc & _ & _ & Hg & _).
  exists w'. unfold stored_field. rewrite Hr'. cbn [mbind option_bind].
  split_and!; [done | done | | done].
  rewrite Hs. by destruct secs as [[|]|].
Qed.
End Replay.

Lemma fifth_delivery_fails_for_good_witness :
  exists w',
    deliver default_env created_push 6 empty_world
    = (replicate 6 NoContent, w') /\
    job_at w' "p1" "failed_permanently" 3 3 /\
    provider_calls w' = 4%nat.
Proof.
  destruct (fifth_delivery_fails_for_good default_env created_push
              created_payload
              (the_result no_message
                 (fst (receive_message default_env (envelope created_b64)
                         empty_world)))
              "2023-11-14T22:13:20+00:00" (fun _ => Ok plain_answer)
              plain_answer None)
    with (later := 1%nat) (w := empty_world)
    as (w' & H & Hj & Hp).
  - reflexivity.
  - vm_compute; reflexivity.
  - vm_compute. discriminate.
  - reflexivity.
  - reflexivity.
  - reflexivity.
  - reflexivity.
  - vm_compute. by eexists.
  - reflexivity.
  - discriminate.
  - reflexivity.
  - reflexivity.
  - reflexivity.
  - exists w'. split_and!; [exact H | exact Hj | exact Hp].
Defined.

Lemma sections_are_recorded_witness :
  exists w',
    generated_field no_sections_env w' "p1" "sections" = Some (VList []) /\
    stored_field w' "p1" "sections" = Some VNone.
Proof.
  destruct (sections_are_recorded no_sections_env created_payload
              (the_result no_message
                 (fst (receive_message default_env (envelope created_b64)
                         empty_world)))
              "2023-11-14T22:13:20+00:00" (fun _ => Ok no_sections_answer)
              no_sections_answer (Some []))
    with (st := {[ ("posts", "p1") := stored_job "processing" 0 3 ]} :
                gmap (string * string) doc)
         (k := 0%nat) (tr := @nil event) (r := stored_job "processing" 0 3)
    as (w' & _ & Hg & Hs & _).
  - vm_compute; reflexivity.
  - reflexivity.
  - reflexivity.
  - reflexivity.
  - reflexivity.
  - vm_compute. by eexists.
  - reflexivity.
  - discriminate.
  - reflexivity.
  - exists w'. split; [exact Hg | exact Hs].
Defined.

(** ** Regeneration under the default settings *)

Lemma BlogPostData_has v d k :
  BlogPostData v = Some d -> k ∈ brief_keys -> is_Some (d !! k).
Proof.
  destruct v as [| | | | |b]; try done. unfold BlogPostData. intros H.
  repeat match type of H with
         | (?o ≫= _) = Some _ =>
             let x := fresh "x" in
             destruct o as [x|] eqn:?; cbn [mbind option_bind] in H; [|done]
         end.
  injection H as <-.
  unfold brief_keys. rewrite !elem_of_cons, elem_of_nil.
  intros [->|[->|[->|[->|[->|[->|[->|[->|[->|[]]]]]]]]]];
    rewrite ?lookup_insert_ne by done; rewrite lookup_insert_eq; by eexists.
Qed.

Lemma BlogPostMessage_validate_has E payload m k :
  BlogPostMessage_validate E payload = Some m ->
  k ∈ brief_keys -> is_Some (data m !! k).
Proof.
  destruct payload as [| | | |l|d]; try done. unfold BlogPostMessage_validate.
  intros H Hk.
  destruct (aliased d "postId" "post_id" ≫= _); [|done]. cbn in H.
  destruct (d !! "action" ≫= _); [|done]. cbn in H.
  destruct (d !! "timestamp" ≫= _); [|done]. cbn in H.
  destruct (d !! "data") as [v|]; [|done]. cbn in H.
  destruct (BlogPostData v) as [b|] eqn:Hb; [|done]. cbn in H.
  injection H as <-. cbn [data]. by eapply BlogPostData_has.
Qed.

Lemma keep_absent (o d : doc) k :
  o !! k = None -> is_Some (d !! k) ->
  <[k := dict_get o k (dict_get d k VNone)]> d = d.
Proof.
  intros Ho (v & Hd). unfold dict_get. rewrite Ho, Hd.
  by apply insert_id.
Qed.

(** X18.  Under the default settings the original post of a regeneration
    is read from the collection of the job records, under the same id: what
    is found there is the job record.  A job record has its brief under
    blogPost and none of title, content, keywords and focus, so the merge
    changes nothing and the brief is generated as it came. *)
Theorem regeneration_merges_nothing_by_default E md st k tr payload m r :
  FIRESTORE_POSTS_COLLECTION E = "posts" ->
  decode_payload E md = Ok payload ->
  BlogPostMessage_validate E payload = Some m ->
  action m = "regenerate" ->
  st !! ("posts", post_id m) = Some r ->
  doc_truthy r = true ->
  (forall key, key ∈ merged_fields -> r !! key = None) ->
  receive_message E md (mkWorld st [] k tr) =
  (Ok m, mkWorld st [] k (EvGet "posts" (post_id m) :: tr)).
Proof.
  intros Hc Hd Hv Ha Hr Ht Hnone.
  rewrite (receive_message_regenerate E md st k tr payload m r Hd Hv Ha)
    by (by rewrite ?Hc).
  rewrite Hc.
  assert (Hsame : merge_original r (data m) = data m).
  { assert (Hin : forall key, key ∈ merged_fields -> key ∈ brief_keys).
    { intros key. unfold merged_fields, brief_keys.
      rewrite !elem_of_cons, !elem_of_nil. tauto. }
    assert (Hhas : forall key, key ∈ merged_fields ->
                     is_Some (data m !! key)).
    { intros key Hk. eapply BlogPostMessage_validate_has; eauto. }
    assert (Ht1 : "title" ∈ merged_fields)
      by (unfold merged_fields; rewrite !elem_of_cons; auto).
    assert (Ht2 : "content" ∈ merged_fields)
      by (unfold merged_fields; rewrite !elem_of_cons; auto).
    assert (Ht3 : "keywords" ∈ merged_fields)
      by (unfold merged_fields; rewrite !elem_of_cons; auto).
    assert (Ht4 : "focus" ∈ merged_fields)
      by (unfold merged_fields; rewrite !elem_of_cons; auto).
    unfold merge_original. cbv beta zeta.
    rewrite (keep_absent r (data m) "title") by auto.
    rewrite (keep_absent r (data m) "content") by auto.
    rewrite (keep_absent r (data m) "keywords") by auto.
    by rewrite (keep_absent r (data m) "focus") by auto. }
  rewrite Hsame. by destruct m.
Qed.

Lemma regeneration_merges_nothing_by_default_witness :
  first_job !! "blogPost" ≫=
    (fun v => match v with VDict b => b !! "title" | _ => None end)
  = Some (VStr "Hello") /\
  exists m w',
    receive_message default_env (envelope regenerate_b64)
      (world_with first_job []) = (Ok m, w') /\
    BlogPostMessage_validate default_env regenerate_payload = Some m.
Proof.
  split; [vm_compute; reflexivity|].
  set (m := default no_message
              (BlogPostMessage_validate default_env regenerate_payload)).
  assert (Hv : BlogPostMessage_validate default_env regenerate_payload
               = Some m).
  { apply is_Some_default. vm_compute. by eexists. }
  exists m. eexists. split; [|exact Hv].
  apply (regeneration_merges_nothing_by_default default_env
           (envelope regenerate_b64) {[ ("posts", "p1") := first_job ]}
           0%nat [] regenerate_payload m first_job).
  - reflexivity.
  - reflexivity.
  - exact Hv.
  - reflexivity.
  - reflexivity.
  - reflexivity.
  - intros key. unfold merged_fields. rewrite !elem_of_cons, elem_of_nil.
    intros [->|[->|[->|[->|[]]]]]; vm_compute; reflexivity.
Defined.

(** ** The counters of a job record *)

Lemma doc_truthy_union (d r : doc) :
  doc_truthy r = true -> doc_truthy (d ∪ r) = true.
Proof.
  unfold doc_truthy at 1.
  destruct (Nat.eqb_spec (size r) 0) as [|Hne]; [done|]. intros _.
  assert (Hr : r <> ∅) by (by intros ->).
  apply map_choose in Hr as (k & v & Hk).
  assert (Hu : is_Some ((d ∪ r) !! k)).
  { apply lookup_union_is_Some. right. by eexists. }
  destruct Hu as (v' & Hu). by eapply doc_truthy_lookup.
Qed.

#[global] Instance record_kept_refl pid : Reflexive (record_kept pid eq).
Proof. intros w r Hr Ht. exists r. by split_and!. Qed.

#[global] Instance record_kept_trans pid : Transitive (record_kept pid eq).
Proof.
  intros w1 w2 w3 H12 H23 r Hr Ht.
  destruct (H12 r Hr Ht) as (r2 & Hr2 & Ht2 & Hm2 & Hc2).
  destruct (H23 r2 Hr2 Ht2) as (r3 & Hr3 & Ht3 & Hm3 & Hc3).
  exists r3. split_and!; [done | done | congruence | congruence].
Qed.

Lemma record_kept_same pid w w' :
  store w' = store w -> record_kept pid eq w w'.
Proof. intros Hs r Hr Ht. exists r. rewrite Hs. by split_and!. Qed.

Lemma kept_store_call E pid : respects (record_kept pid eq) (store_call E).
Proof.
  intros [st fs k tr] r w'. unfold store_call. cbn [faults].
  destruct fs as [|[] fs]; intros [= <- <-]; by apply record_kept_same.
Qed.

Lemma kept_now E pid : respects (record_kept pid eq) (utc_now E).
Proof. intros w r w' [= <- <-]. by apply record_kept_same. Qed.

Lemma kept_emit pid ev : respects (record_kept pid eq) (emit ev).
Proof. intros w r w' [= <- <-]. by apply record_kept_same. Qed.

Lemma kept_get E pid c i : respects (record_kept pid eq) (get_document E c i).
Proof.
  apply respects_bind; [apply kept_store_call|]. intros _ w r w' [= <- <-].
  by apply record_kept_same.
Qed.

(** An update that names neither counter. *)
Lemma kept_update E pid c i (d : doc) :
  d !! "max_retries" = None -> d !! "retry_count" = None ->
  respects (record_kept pid eq) (update_document E c i d).
Proof.
  intros Hm Hc. apply respects_bind; [apply kept_store_call|].
  intros _ w r w'. mred.
  destruct (store w !! (c, i)) as [old|] eqn:Hold.
  - intros [= <- <-] r0 Hr0 Ht0. cbn [store].
    destruct (decide ((c, i) = ("posts", pid))) as [Heq|Hne].
    + rewrite Heq in *. rewrite lookup_insert_eq.
      assert (old = r0) as -> by congruence.
      exists (d ∪ r0). split_and!; [done | by apply doc_truthy_union | |].
      * by rewrite lookup_union_r.
      * unfold counter, dict_get. by rewrite lookup_union_r.
    + rewrite lookup_insert_ne by done. exists r0. by split_and!.
  - intros [= <- <-]. reflexivity.
Qed.

(** A write outside the collection of the job records. *)
Lemma kept_save E pid c i d :
  c <> "posts" -> respects (record_kept pid eq) (save_document E c i d).
Proof.
  intros Hc. apply respects_bind; [apply kept_store_call|].
  intros _ w r w' [= <- <-] r0 Hr0 Ht0. cbn [store].
  rewrite lookup_insert_ne by congruence. exists r0. by split_and!.
Qed.

Ltac keep :=
  repeat first
    [ apply respects_ret
    | apply respects_raise
    | apply respects_lift
    | apply kept_now
    | apply kept_get
    | apply kept_update; done
    | apply kept_save; done
    | apply kept_emit
    | apply respects_bind; [|intros ?]
    | apply respects_try; [|intros ?]
    | match goal with
      | |- respects _ (if ?b then _ else _) => destruct b
      | |- respects _ (match ?x with _ => _ end) => destruct x
      end ].

Lemma kept_generate_and_record E m pid :
  FIRESTORE_GENERATED_POSTS_COLLECTION E <> "posts" ->
  respects (record_kept pid eq) (generate_and_record E m).
Proof.
  intros Hsep.
  unfold generate_and_record, generate_blog_post, ensure_title,
    generate_blog_post_body, generate_blog_post_except.
  keep.
Qed.

(** What a store call may have done when it ends. *)
Lemma get_document_inv E c i w r w' :
  get_document E c i w = (r, w') ->
  store w' = store w /\ forall o, r = Ok o -> o = store w !! (c, i).
Proof.
  destruct w as [st fs k tr]. unfold get_document, store_call.
  rewrite run_bind. cbn [faults].
  destruct fs as [|[] fs]; mred; intros [= <- <-]; split; try done;
    by intros o [= <-].
Qed.

Lemma update_document_inv E c i d w r w' :
  update_document E c i d w = (r, w') ->
  store w' = store w \/
  exists old, store w !! (c, i) = Some old /\
              store w' = <[(c, i) := d ∪ old]> (store w).
Proof.
  destruct w as [st fs k tr]. unfold update_document, store_call.
  rewrite run_bind. cbn [faults].
  destruct fs as [|[] fs]; mred; cbn [store];
    try (intros [= <- <-]; by left);
    (destruct (st !! (c, i)) as [old|] eqn:Hold; intros [= <- <-];
     [right; by exists old | by left]).
Qed.

(** An update of the job record that writes the counter back as it was
    read. *)
Lemma record_kept_write_back pid i (d r : doc) w w' :
  store w !! ("posts", i) = Some r ->
  doc_truthy r = true ->
  d !! "max_retries" = None ->
  d !! "retry_count" = Some (counter r) ->
  store w' = <[("posts", i) := d ∪ r]> (store w) ->
  record_kept pid eq w w'.
Proof.
  intros Hr Ht Hm Hc Hs r0 Hr0 Ht0. rewrite Hs.
  destruct (decide (i = pid)) as [->|Hne].
  - rewrite lookup_insert_eq. assert (r0 = r) as -> by congruence.
    exists (d ∪ r). split_and!; [done | by apply doc_truthy_union | |].
    + by rewrite lookup_union_r.
    + unfold counter at 2. unfold dict_get.
      by rewrite (lookup_payload d r "retry_count" _ Hc).
  - rewrite lookup_insert_ne by congruence. exists r0. by split_and!.
Qed.

Lemma kept_on_failure E m e pid :
  respects (record_kept pid eq) (on_failure E m e).
Proof.
  intros w res w'. unfold on_failure. rewrite run_bind.
  destruct (get_document E "posts" (post_id m) w) as [[o|e0] w1] eqn:Hget;
    apply get_document_inv in Hget as (Hs1 & Ho).
  2: { intros [= <- <-]. by apply record_kept_same. }
  specialize (Ho o eq_refl). subst o. mred.
  set (rc := match found (store w !! ("posts", post_id m)) with
             | Some r => dict_get r "retry_count" (VInt 0)
             | None => VInt 0
             end).
  set (mr := match found (store w !! ("posts", post_id m)) with
             | Some r => dict_get r "max_retries" (VInt 3)
             | None => VInt 3
             end).
  rewrite run_bind, run_lift.
  destruct (py_ge E rc mr) as [exceeded|e0]; mred.
  2: { intros [= <- <-]. by apply record_kept_same. }
  destruct w1 as [st1 fs1 k1 tr1]. cbn [store] in Hs1. subst st1.
  rewrite run_bind, run_now. mred. rewrite run_bind, run_try.
  set (payload := if exceeded then _ else _).
  assert (Hpm : payload !! "max_retries" = None)
    by (unfold payload; by destruct exceeded).
  assert (Hpc : payload !! "retry_count" = Some rc)
    by (unfold payload; by destruct exceeded).
  destruct (update_document E "posts" (post_id m) payload _)
    as [[[]|e0] w2] eqn:Hup;
    apply update_document_inv in Hup; cbn [store] in Hup; mred.
  all: assert (Hw2 : record_kept pid eq w w2).
  all: try (destruct Hup as [Hu | (old & Hold & Hu)];
            [ by apply record_kept_same
            | destruct (doc_truthy old) eqn:Ht;
              [ apply (record_kept_write_back pid (post_id m) payload old);
                [ done | done | done
                | rewrite Hpc; unfold rc, found; by rewrite Hold, Ht
                | done ]
              | intros r0 Hr0 Ht0; rewrite Hu;
                destruct (decide (post_id m = pid)) as [Heq|Hne];
                [ rewrite Heq in *; congruence
                | rewrite lookup_insert_ne by congruence; exists r0;
                  by split_and! ] ] ]).
  all: rewrite ?run_ret; mred; rewrite run_bind, run_lift.
  all: destruct (py_lt E rc mr) as [[]|e1]; mred;
       intros [= <- <-]; exact Hw2.
Qed.

Lemma kept_generation_block E m pid :
  FIRESTORE_GENERATED_POSTS_COLLECTION E <> "posts" ->
  respects (record_kept pid eq)
    (try_except (generate_and_record E m) (on_failure E m)).
Proof.
  intros Hsep. apply respects_try; [by apply kept_generate_and_record|].
  intros e. apply kept_on_failure.
Qed.

Lemma save_document_inv E c i d w r w' :
  save_document E c i d w = (r, w') ->
  store w' = store w \/ store w' = <[(c, i) := d]> (store w).
Proof.
  destruct w as [st fs k tr]. unfold save_document, store_call.
  rewrite run_bind. cbn [faults].
  destruct fs as [|[] fs]; mred; intros [= <- <-]; auto.
Qed.

Lemma record_kept_weaken pid w w' :
  record_kept pid eq w w' -> record_kept pid counter_step w w'.
Proof.
  intros H r Hr Ht. destruct (H r Hr Ht) as (r' & ? & ? & ? & Hc).
  exists r'. split_and!; try done. by left.
Qed.

(** Admission writes the counter back as it read it, or one more. *)
Lemma admit_job_counter E m pid :
  respects (record_kept pid counter_step) (admit_job E m).
Proof.
  intros w res w'. unfold admit_job. rewrite run_bind.
  destruct (get_document E "posts" (post_id m) w) as [[o|e0] w1] eqn:Hget;
    apply get_document_inv in Hget as (Hs1 & Ho).
  2: { intros [= <- <-]. by apply record_kept_weaken, record_kept_same. }
  specialize (Ho o eq_refl). subst o. mred.
  destruct w1 as [st1 fs1 k1 tr1]. cbn [store] in Hs1. subst st1.
  destruct (found (store w !! ("posts", post_id m))) as [r|] eqn:Hfound.
  - apply found_Some in Hfound as (Hr & Ht).
    destruct (str_is _ "failed_permanently").
    { intros [= <- <-]. by apply record_kept_weaken, record_kept_same. }
    rewrite run_bind, run_lift.
    destruct (py_ge E _ _) as [[]|e0]; mred.
    + rewrite run_bind, run_now. mred. rewrite run_bind.
      set (payload := <["status" := _]> _).
      destruct (update_document E "posts" (post_id m) payload _)
        as [[[]|e0] w2] eqn:Hup;
        apply update_document_inv in Hup; cbn [store] in Hup; mred;
        intros [= <- <-]; apply record_kept_weaken;
        (destruct Hup as [Hu | (old & Hold & Hu)];
         [ by apply record_kept_same
         | assert (old = r) as -> by congruence;
           by apply (record_kept_write_back pid (post_id m) payload r) ]).
    + rewrite run_bind, run_lift. unfold py_incr.
      destruct (as_number (dict_get r "retry_count" (VInt 0))) as [x|] eqn:Hx;
        cbn [raise_lib]; mred.
      2: { intros [= <- <-]. by apply record_kept_weaken, record_kept_same. }
      rewrite run_bind, run_now. mred. rewrite run_bind.
      set (payload := <["status" := _]> _).
      destruct (update_document E "posts" (post_id m) payload _)
        as [[[]|e0] w2] eqn:Hup;
        apply update_document_inv in Hup; cbn [store] in Hup; mred;
        intros [= <- <-];
        (destruct Hup as [Hu | (old & Hold & Hu)];
         [ by apply record_kept_weaken, record_kept_same |]);
        assert (old = r) as -> by congruence;
        intros r0 Hr0 Ht0; rewrite Hu;
        (destruct (decide (post_id m = pid)) as [Heq|Hne];
         [ rewrite Heq in *; rewrite lookup_insert_eq;
           assert (r0 = r) as -> by congruence;
           exists (payload ∪ r);
           split_and!;
           [ done | by apply doc_truthy_union | by rewrite lookup_union_r
           | right; exists x; split; [done|];
             unfold counter at 1; unfold dict_get;
             by rewrite (lookup_payload payload r "retry_count"
                           (VInt (x + 1))) ]
         | rewrite lookup_insert_ne by congruence; exists r0;
           split_and!; try done; by left ]).
    + intros [= <- <-]. by apply record_kept_weaken, record_kept_same.
  - rewrite run_bind, run_now. mred. rewrite run_bind, run_lift.
    destruct (of_option E ValidationError _) as [job|e0]; mred.
    2: { intros [= <- <-]. by apply record_kept_weaken, record_kept_same. }
    rewrite run_bind.
    destruct (save_document E "posts" (post_id m) job _)
      as [[[]|e0] w2] eqn:Hsave;
      apply save_document_inv in Hsave; cbn [store] in Hsave; mred;
      intros [= <- <-];
      (destruct Hsave as [Hu | Hu];
       [ by apply record_kept_weaken, record_kept_same |]);
      intros r0 Hr0 Ht0; rewrite Hu;
      (destruct (decide (post_id m = pid)) as [Heq|Hne];
       [ rewrite Heq in *; rewrite Hr0 in Hfound; unfold found in Hfound;
         by rewrite Ht0 in Hfound
       | rewrite lookup_insert_ne by congruence; exists r0;
         split_and!; try done; by left ]).
Qed.

(** X19.  Whatever the message, the store and the failures of the store
    calls, a run of the handler keeps every job record that is not empty:
    the record is still there afterwards, its ceiling is as it was, and its
    counter is as it was or one more.  The generated posts must not share
    the collection of the job records. *)
Theorem counters_are_kept E md w res w' pid r :
  FIRESTORE_GENERATED_POSTS_COLLECTION E <> "posts" ->
  process_message E md w = (res, w') ->
  store w !! ("posts", pid) = Some r ->
  doc_truthy r = true ->
  exists r',
    store w' !! ("posts", pid) = Some r' /\ doc_truthy r' = true /\
    r' !! "max_retries" = r !! "max_retries" /\
    counter_step (counter r) (counter r').
Proof.
  intros Hsep Hrun. revert r. change (record_kept pid counter_step w w').
  revert Hrun. unfold process_message. rewrite run_bind.
  destruct (receive_message E md w) as [[m|e0] w1] eqn:Hrec;
    apply receive_message_frame in Hrec as (Hs1 & _).
  2: { intros [= <- <-]. by apply record_kept_weaken, record_kept_same. }
  rewrite run_bind.
  destruct (admit_job E m w1) as [[next|e0] w2] eqn:Hadm;
    apply (admit_job_counter E m pid) in Hadm.
  2: { intros [= <- <-] r Hr Ht. apply Hadm; [by rewrite Hs1 | done]. }
  assert (H12 : record_kept pid counter_step w w2).
  { intros r Hr Ht. apply Hadm; [by rewrite Hs1 | done]. }
  destruct next as [p|].
  - by intros [= <- <-].
  - intros Hgen. apply (kept_generation_block E m pid Hsep) in Hgen.
    intros r Hr Ht.
    destruct (H12 r Hr Ht) as (r2 & Hr2 & Ht2 & Hm2 & Hc2).
    destruct (Hgen r2 Hr2 Ht2) as (r3 & Hr3 & Ht3 & Hm3 & Hc3).
    exists r3. split_and!; [done | done | congruence | by rewrite <- Hc3].
Qed.

Lemma counters_are_kept_witness :
  exists r',
    store (snd (process_message failing_env (envelope created_b64)
                  (world_with (stored_job "error" 1 3) [false; false; true])))
      !! ("posts", "p1") = Some r' /\
    r' !! "max_retries" = Some (VInt 3).
Proof.
  destruct (counters_are_kept failing_env (envelope created_b64)
              (world_with (stored_job "error" 1 3) [false; false; true])
              (fst (process_message failing_env (envelope created_b64)
                      (world_with (stored_job "error" 1 3)
                         [false; false; true])))
              (snd (process_message failing_env (envelope created_b64)
                      (world_with (stored_job "error" 1 3)
                         [false; false; true])))
              "p1" (stored_job "error" 1 3))
    as (r' & Hr' & _ & Hm & _).
  - discriminate.
  - apply surjective_pairing.
  - reflexivity.
  - reflexivity.
  - exists r'. split; [exact Hr' | exact Hm].
Defined.

(** ** The brief in the job record *)

Lemma optional_again check dflt dflt' o x :
  (forall v y, check v = Some y -> check y = Some y) ->
  dflt = VNone \/ check dflt = Some dflt ->
  optional check dflt o = Some x ->
  optional check dflt' (Some x) = Some x.
Proof.
  intros Hidem Hd. unfold optional.
  destruct o as [v|].
  - destruct v; intros H; try (by injection H as <-);
      pose proof (Hidem _ _ H) as H'; by destruct x.
  - intros [= <-]. destruct Hd as [-> | Hd]; [done|]. by destruct dflt.
Qed.

Lemma check_str_again v y : check_str v = Some y -> check_str y = Some y.
Proof. destruct v; try done. by intros [= <-]. Qed.

Lemma check_str_list_again v y :
  check_str_list v = Some y -> check_str_list y = Some y.
Proof.
  destruct v as [| | | |l|]; try done. cbn [check_str_list].
  destruct (forallb is_str l) eqn:Hl; [|done]. intros [= <-].
  cbn [check_str_list]. by rewrite Hl.
Qed.

Lemma check_section_again v y :
  check_section v = Some y -> check_section y = Some y.
Proof.
  destruct v as [| | | | |d]; try done. cbn [check_section].
  unfold BlogPostSection.
  destruct (d !! "subtitle") as [[| | |s| |]|]; try done.
  destruct (d !! "content") as [[| | |c| |]|]; try done.
  intros [= <-]. cbn [check_section]. unfold BlogPostSection.
  rewrite lookup_insert_eq, lookup_insert_ne, lookup_insert_eq by done.
  done.
Qed.

Lemma check_sections_again v y :
  check_sections v = Some y -> check_sections y = Some y.
Proof.
  destruct v as [| | | |l|]; try done. cbn [check_sections].
  destruct (mapM check_section l) as [k|] eqn:Hl; [|done].
  intros [= <-]. cbn [check_sections].
  assert (Hk : mapM check_section k = Some k); [|by rewrite Hk].
  apply mapM_Some in Hl. apply mapM_Some.
  induction Hl as [|x y' l' k' Hxy _ IH]; constructor; [|done].
  by eapply check_section_again.
Qed.

(** X20.  The job record holds the brief under the aliases of its fields,
    and a brief read back from there is the brief that was stored. *)
Theorem stored_brief_reads_back v d :
  BlogPostData v = Some d ->
  BlogPostData (VDict (BlogPostData_dump_by_alias d)) = Some d.
Proof.
  destruct v as [| | | | |b]; try done. unfold BlogPostData at 1. intros H.
  repeat match type of H with
         | (?o ≫= _) = Some _ =>
             let x := fresh "x" in
             let Hx := fresh "Hx" in
             destruct o as [x|] eqn:Hx; cbn [mbind option_bind] in H; [|done]
         end.
  injection H as <-.
  unfold BlogPostData_dump_by_alias, rename.
  repeat (rewrite ?lookup_insert_eq, ?lookup_insert_ne, ?lookup_delete_ne,
            ?lookup_delete_eq by done; cbv beta iota).
  unfold BlogPostData, aliased.
  repeat (rewrite ?lookup_insert_eq, ?lookup_insert_ne, ?lookup_delete_ne,
            ?lookup_delete_eq by done; cbv beta iota).
  cbn [mbind option_bind].
  assert (Hid : check_str x = Some x).
  { destruct (b !! "id") as [v|]; [|done]. by eapply check_str_again. }
  rewrite Hid. cbn [mbind option_bind].
  erewrite (optional_again check_str VNone VNone _ x0 check_str_again);
    [|by left|eassumption].
  cbn [mbind option_bind].
  erewrite (optional_again check_str VNone VNone _ x1 check_str_again);
    [|by left|eassumption].
  cbn [mbind option_bind].
  erewrite (optional_again check_str_list (VList []) (VList []) _ x2
              check_str_list_again); [|by right|eassumption].
  cbn [mbind option_bind].
  erewrite (optional_again check_str (VStr "") (VStr "") _ x3
              check_str_again); [|by right|eassumption].
  cbn [mbind option_bind].
  erewrite (optional_again check_str VNone VNone _ x4 check_str_again);
    [|by left|eassumption].
  cbn [mbind option_bind].
  erewrite (optional_again check_sections VNone VNone _ x5
              check_sections_again); [|by left|eassumption].
  cbn [mbind option_bind].
  erewrite (optional_again check_str VNone VNone _ x6 check_str_again);
    [|by left|eassumption].
  cbn [mbind option_bind].
  erewrite (optional_again check_str VNone VNone _ x7 check_str_again);
    [|by left|eassumption].
  done.
Qed.

Lemma stored_brief_reads_back_witness :
  BlogPostData
    (VDict (BlogPostData_dump_by_alias
              (default ∅ (BlogPostData
                            (VDict (dict [("id", VStr "p1");
                                          ("title", VStr "Hello");
                                          ("originalContent",
                                           VStr "Once upon a time")]))))))
  = Some (default ∅ (BlogPostData
                       (VDict (dict [("id", VStr "p1");
                                     ("title", VStr "Hello");
                                     ("originalContent",
                                      VStr "Once upon a time")])))).
Proof.
  apply (stored_brief_reads_back
           (VDict (dict [("id", VStr "p1"); ("title", VStr "Hello");
                         ("originalContent", VStr "Once upon a time")]))).
  apply is_Some_default. unfold BlogPostData, dict. cbn. by eexists.
Defined.
